(** * Guardian Angel plugin: the tool-call gate and its nonce store

    A shallow embedding of [skills/guardian-angel/plugin] (store.ts, hook.ts,
    evaluate.ts, approve-tool.ts, diagnostics.ts, index.ts, constants.ts,
    types.ts), the properties of the gate that the specification states, and
    further properties of the scorers, the gate and the store.

    Strings are [string] (sequences of 8-bit characters); the program's
    texts are read as ASCII.  Numbers are [Z].  A JavaScript object that is
    used as a dictionary is a [gmap string _]; a parameter object, whose
    members are arbitrary JSON, is an association list.  A function that
    converts a parameter with [String] returns a [Completion]: the value, or
    the [TypeError] the conversion throws. *)

From Stdlib Require Import ZArith String Ascii List Lia Bool DecimalString.
From stdpp Require Import gmap strings list fin_maps.
Import ListNotations.

Set Warnings "-register-all".
#[local] Open Scope string_scope.
#[local] Open Scope Z_scope.

(* ===================================================================== *)
(** ** JavaScript strings *)
(* ===================================================================== *)

Module Js.

(** [String.prototype.toLowerCase], on the ASCII letters. *)
Definition lower_char (c : ascii) : ascii :=
  let n := nat_of_ascii c in
  if ((65 <=? n)%nat && (n <=? 90)%nat)%bool then ascii_of_nat (n + 32) else c.

Fixpoint toLowerCase (s : string) : string :=
  match s with
  | EmptyString => EmptyString
  | String c r => String (lower_char c) (toLowerCase r)
  end.

(** [String.prototype.toUpperCase] on one character (the canonical form the
    regular expressions compare under the [i] flag). *)
Definition upper_char (c : ascii) : ascii :=
  let n := nat_of_ascii c in
  if ((97 <=? n)%nat && (n <=? 122)%nat)%bool then ascii_of_nat (n - 32) else c.

(** [s.startsWith(p)]. *)
Fixpoint startsWith (s p : string) : bool :=
  match p, s with
  | EmptyString, _ => true
  | String _ _, EmptyString => false
  | String a p', String b s' => if Ascii.eqb a b then startsWith s' p' else false
  end.

(** [s.includes(sub)]. *)
Fixpoint includes (s sub : string) : bool :=
  if startsWith s sub then true
  else match s with
       | EmptyString => false
       | String _ r => includes r sub
       end.

(** [xs.includes(x)] on an array of strings. *)
Definition array_includes (xs : list string) (x : string) : bool :=
  existsb (String.eqb x) xs.

(** [s.slice(0, n)]. *)
Definition slice0 (n : nat) (s : string) : string := String.substring 0 n s.

(** [parts.join(sep)]. *)
Fixpoint join (sep : string) (parts : list string) : string :=
  match parts with
  | [] => EmptyString
  | [p] => p
  | p :: rest => p ++ sep ++ join sep rest
  end.

(** White space as [\s] and [trim] see it, on ASCII. *)
Definition is_space (c : ascii) : bool :=
  let n := nat_of_ascii c in
  ((9 <=? n)%nat && (n <=? 13)%nat || (n =? 32)%nat)%bool.

Fixpoint trimStart (s : string) : string :=
  match s with
  | String c r => if is_space c then trimStart r else s
  | EmptyString => EmptyString
  end.

Fixpoint trimEnd (s : string) : string :=
  match s with
  | EmptyString => EmptyString
  | String c r =>
      match trimEnd r with
      | EmptyString => if is_space c then EmptyString else String c EmptyString
      | r' => String c r'
      end
  end.

Definition trim (s : string) : string := trimEnd (trimStart s).

(** [xs.sort()] with the default order (by code unit), as an insertion sort. *)
Fixpoint sort_insert (x : string) (xs : list string) : list string :=
  match xs with
  | [] => [x]
  | y :: ys => if String.leb x y then x :: xs else y :: sort_insert x ys
  end.

Fixpoint sort (xs : list string) : list string :=
  match xs with
  | [] => []
  | x :: rest => sort_insert x (sort rest)
  end.

(** [String(n)] for an integer [n]. *)
Definition string_of_Z (n : Z) : string := NilZero.string_of_int (Z.to_int n).

(** The double quote character. *)
Definition dquote : string := String (ascii_of_nat 34) EmptyString.

(** Lower-case hexadecimal, as [toString("hex")] and [digest("hex")] write. *)
Definition hex_digit (n : Z) : ascii :=
  if n <? 10 then ascii_of_nat (48 + Z.to_nat n) else ascii_of_nat (87 + Z.to_nat n).

(** The eight digits of a 32-bit number. *)
Definition hex_of_word (x : Z) : string :=
  string_of_list_ascii
    (map (fun i => hex_digit (Z.shiftr x (4 * Z.of_nat i) mod 16)) (rev (seq 0 8))).

(** The texts made of the digits 0-9 and a-f only. *)
Definition is_hex_digit (c : ascii) : bool :=
  let n := nat_of_ascii c in
  ((48 <=? n)%nat && (n <=? 57)%nat || (97 <=? n)%nat && (n <=? 102)%nat)%bool.

Fixpoint all_hex (s : string) : bool :=
  match s with
  | EmptyString => true
  | String c r => is_hex_digit c && all_hex r
  end.

(** [a || b] on numbers. *)
Definition num_or (a : option Z) (b : Z) : Z :=
  match a with
  | Some n => if n =? 0 then b else n
  | None => b
  end.

(** [Math.round(a / b)] for integers [a] and [b > 0]: the nearest integer,
    a half rounded up. *)
Definition round_div (a b : Z) : Z := (2 * a + b) / (2 * b).

End Js.

(* ===================================================================== *)
(** ** Completions: a call returns a value or throws *)
(* ===================================================================== *)

(** The one error the evaluator's code can raise is the [TypeError] of a
    conversion to a string that finds nothing to call; nothing in the plugin
    catches it. *)
Inductive Completion (A : Type) : Type :=
| Returns (a : A)
| Throws.
Arguments Returns {A} a.
Arguments Throws {A}.

(** [const x = c; k]: what follows runs when [c] returned. *)
Definition and_then {A B : Type} (c : Completion A) (k : A -> Completion B)
  : Completion B :=
  match c with
  | Returns a => k a
  | Throws => Throws
  end.

Notation "'let!' x ':=' c 'in' k" := (and_then c (fun x => k))
  (at level 10, x name, c at level 100, k at level 200).

#[global] Instance Completion_fmap : FMap Completion :=
  fun A B f c => match c with Returns a => Returns (f a) | Throws => Throws end.

(* ===================================================================== *)
(** ** SHA-256 ([createHash("sha256")] of node:crypto), FIPS 180-4 *)
(* ===================================================================== *)

Module Sha256.

Definition w32 (x : Z) : Z := x mod 4294967296.
Definition add32 (x y : Z) : Z := w32 (x + y).
Definition rotr (n x : Z) : Z := w32 (Z.lor (Z.shiftr x n) (Z.shiftl x (32 - n))).
Definition shr (n x : Z) : Z := Z.shiftr x n.
Definition not32 (x : Z) : Z := 4294967295 - x.

Definition Ch (x y z : Z) : Z := Z.lxor (Z.land x y) (Z.land (not32 x) z).
Definition Maj (x y z : Z) : Z :=
  Z.lxor (Z.lxor (Z.land x y) (Z.land x z)) (Z.land y z).
Definition Sigma0 (x : Z) : Z := Z.lxor (Z.lxor (rotr 2 x) (rotr 13 x)) (rotr 22 x).
Definition Sigma1 (x : Z) : Z := Z.lxor (Z.lxor (rotr 6 x) (rotr 11 x)) (rotr 25 x).
Definition sigma0 (x : Z) : Z := Z.lxor (Z.lxor (rotr 7 x) (rotr 18 x)) (shr 3 x).
Definition sigma1 (x : Z) : Z := Z.lxor (Z.lxor (rotr 17 x) (rotr 19 x)) (shr 10 x).

Definition K : list Z :=
  [ 1116352408; 1899447441; 3049323471; 3921009573; 961987163; 1508970993;
    2453635748; 2870763221; 3624381080; 310598401; 607225278; 1426881987;
    1925078388; 2162078206; 2614888103; 3248222580; 3835390401; 4022224774;
    264347078; 604807628; 770255983; 1249150122; 1555081692; 1996064986;
    2554220882; 2821834349; 2952996808; 3210313671; 3336571891; 3584528711;
    113926993; 338241895; 666307205; 773529912; 1294757372; 1396182291;
    1695183700; 1986661051; 2177026350; 2456956037; 2730485921; 2820302411;
    3259730800; 3345764771; 3516065817; 3600352804; 4094571909; 275423344;
    430227734; 506948616; 659060556; 883997877; 958139571; 1322822218;
    1537002063; 1747873779; 1955562222; 2024104815; 2227730452; 2361852424;
    2428436474; 2756734187; 3204031479; 3329325298 ].

Definition H0 : list Z :=
  [ 1779033703; 3144134277; 1013904242; 2773480762;
    1359893119; 2600822924; 528734635; 1541459225 ].

(** The message's bytes, then 0x80, zeros up to 56 modulo 64, and the bit
    length as a 64-bit big-endian number. *)
Definition be_bytes (n : nat) (x : Z) : list Z :=
  map (fun i => Z.shiftr x (8 * Z.of_nat i) mod 256) (rev (seq 0 n)).

Definition pad (msg : list Z) : list Z :=
  let len := Z.of_nat (length msg) in
  msg ++ [128] ++ repeat 0 (Z.to_nat ((55 - len) mod 64)) ++ be_bytes 8 (8 * len).

Fixpoint be_words (bytes : list Z) : list Z :=
  match bytes with
  | a :: b :: c :: d :: rest =>
      (((a * 256 + b) * 256 + c) * 256 + d) :: be_words rest
  | _ => []
  end.

Fixpoint blocks (fuel : nat) (ws : list Z) : list (list Z) :=
  match fuel, ws with
  | O, _ | _, [] => []
  | S f, _ => firstn 16 ws :: blocks f (skipn 16 ws)
  end.

(** The message schedule, latest word first. *)
Fixpoint schedule (n : nat) (rev_w : list Z) : list Z :=
  match n with
  | O => rev_w
  | S n' =>
      let w k := nth k rev_w 0 in
      schedule n'
        (add32 (add32 (sigma1 (w 1%nat)) (w 6%nat))
               (add32 (sigma0 (w 14%nat)) (w 15%nat)) :: rev_w)
  end.

Definition round (st : list Z) (kw : Z * Z) : list Z :=
  match st with
  | [a; b; c; d; e; f; g; h] =>
      let t1 := add32 (add32 (add32 h (Sigma1 e)) (add32 (Ch e f g) (fst kw))) (snd kw) in
      let t2 := add32 (Sigma0 a) (Maj a b c) in
      [add32 t1 t2; a; b; c; add32 d t1; e; f; g]
  | _ => st
  end.

Definition compress (h : list Z) (block : list Z) : list Z :=
  let w := rev (schedule 48 (rev block)) in
  let st := fold_left round (combine K w) h in
  map (fun p => add32 (fst p) (snd p)) (combine h st).

Definition bytes_of_string (s : string) : list Z :=
  map (fun c => Z.of_nat (nat_of_ascii c)) (list_ascii_of_string s).

(** [createHash("sha256").update(s).digest("hex")]. *)
Definition digest_hex (s : string) : string :=
  let ws := be_words (pad (bytes_of_string s)) in
  let h := fold_left compress (blocks (length ws) ws) H0 in
  String.concat EmptyString (map Js.hex_of_word h).

End Sha256.

(* ===================================================================== *)
(** ** JSON values: the [unknown] members of a parameter object *)
(* ===================================================================== *)

Module Json.

(** The values [JSON.parse] yields.  A number is an integer (one with a
    fraction or an exponent is outside this model), written in decimal by
    [String] and by [JSON.stringify]. *)
Inductive value : Type :=
| Null
| Bool (b : bool)
| Num (n : Z)
| Str (s : string)
| Arr (items : list value)
| Obj (members : list (string * value)).

(** An object is the list of its members; a name is bound to the first
    member that carries it. *)
Definition object : Type := list (string * value).

(** [o.k] for the names the program reads off a parameter object
    ([command], [action], [raw], [targets], [path], [file_path], [to],
    [target]), none of which an object inherits: [None] is [undefined]. *)
Fixpoint get (o : object) (k : string) : option value :=
  match o with
  | [] => None
  | (k', v) :: rest => if String.eqb k k' then Some v else get rest k
  end.

(** [Object.keys(o)]: each name once.  (Their order is the engine's; the
    one caller sorts them.) *)
Fixpoint keys (o : object) : list string :=
  match o with
  | [] => []
  | (k, _) :: rest => k :: List.filter (fun k' => negb (String.eqb k k')) (keys rest)
  end.

(** [ToBoolean]. *)
Definition truthy (v : option value) : bool :=
  match v with
  | None | Some Null => false
  | Some (Bool b) => b
  | Some (Num n) => negb (n =? 0)
  | Some (Str s) => negb (String.eqb s EmptyString)
  | Some (Arr _) | Some (Obj _) => true
  end.

(** [a || b]. *)
Definition or (a b : option value) : option value := if truthy a then a else b.

(** Has the object an own member named [k]? *)
Definition has_own (members : list (string * value)) (k : string) : bool :=
  existsb (fun kx => String.eqb k (fst kx)) members.

(** [String(v)].  For an object this is OrdinaryToPrimitive with the hint
    string: [toString] is looked up and called, then [valueOf].  An object
    without an own [toString] inherits [Object.prototype.toString], which
    gives [[object Object]].  An own member named [toString] hides it, and
    no JSON value can be called; [valueOf], own or inherited, yields no
    primitive either, and the conversion throws a [TypeError].  An array is
    joined with commas ([Array.prototype.toString]): [null] counts as the
    empty text, every other element is converted in turn, and a conversion
    that throws ends the whole. *)
Fixpoint to_String (v : value) : Completion string :=
  match v with
  | Null => Returns "null"
  | Bool true => Returns "true"
  | Bool false => Returns "false"
  | Num n => Returns (Js.string_of_Z n)
  | Str s => Returns s
  | Arr items =>
      let! texts :=
        (fix elements (xs : list value) : Completion (list string) :=
           match xs with
           | [] => Returns []
           | x :: rest =>
               let! text := match x with
                            | Null => Returns EmptyString
                            | _ => to_String x
                            end in
               let! texts := elements rest in
               Returns (text :: texts)
           end) items in
      Returns (Js.join "," texts)
  | Obj members =>
      if has_own members "toString" then Throws else Returns "[object Object]"
  end.

(** [String(v || "")]. *)
Definition String_or_empty (v : option value) : Completion string :=
  match or v (Some (Str EmptyString)) with
  | Some x => to_String x
  | None => Returns "undefined"
  end.

(** The values whose conversion returns: no object with an own member
    named [toString], at the top or as an element of an array, at any
    depth of arrays. *)
Fixpoint printable (v : value) : bool :=
  match v with
  | Arr items =>
      (fix all (xs : list value) : bool :=
         match xs with
         | [] => true
         | x :: rest => printable x && all rest
         end) items
  | Obj members => negb (has_own members "toString")
  | _ => true
  end.

(** The parameter objects all of whose members are printable. *)
Definition printable_object (o : object) : bool :=
  forallb (fun kx => printable (snd kx)) o.

(** What a read of a member yields is printable, [undefined] included. *)
Definition printable_read (v : option value) : bool :=
  match v with
  | Some x => printable x
  | None => true
  end.

(** [QuoteJSONString]. *)
Definition hex2 (n : nat) : string :=
  String (Js.hex_digit (Z.of_nat (n / 16)))
    (String (Js.hex_digit (Z.of_nat (n mod 16))) EmptyString).

Definition quote_char (c : ascii) : string :=
  let n := nat_of_ascii c in
  if (n =? 34)%nat then "\" ++ Js.dquote
  else if (n =? 92)%nat then "\\"
  else if (n =? 8)%nat then "\b"
  else if (n =? 9)%nat then "\t"
  else if (n =? 10)%nat then "\n"
  else if (n =? 12)%nat then "\f"
  else if (n =? 13)%nat then "\r"
  else if (n <? 32)%nat then "\u00" ++ hex2 n
  else String c EmptyString.

Fixpoint quote_body (s : string) : string :=
  match s with
  | EmptyString => EmptyString
  | String c r => quote_char c ++ quote_body r
  end.

Definition quote (s : string) : string := Js.dquote ++ quote_body s ++ Js.dquote.

(** One member of an object as [JSON.stringify] writes it under the
    property name [P], given the texts of the object's own members: nothing
    when [P] names no own member, since what an object inherits from
    [Object.prototype] is a function, which is not written; but under
    [__proto__] it is the prototype itself, whose own [__proto__] is [null]. *)
Definition member (written : list (string * string)) (P : string) : list string :=
  match find (fun kx => String.eqb P (fst kx)) written with
  | Some (_, str) => [quote P ++ ":" ++ str]
  | None =>
      if String.eqb P "__proto__" then [quote P ++ ":{" ++ quote P ++ ":null}"]
      else []
  end.

(** [JSON.stringify(v, K)] with an array [K] as the replacer: [K] is the
    property list, and every object, at every depth, is written as its
    members named in [K], in the order of [K] (SerializeJSONObject); an
    array is written element by element (SerializeJSONArray). *)
Fixpoint stringify (K : list string) (v : value) : string :=
  match v with
  | Null => "null"
  | Bool true => "true"
  | Bool false => "false"
  | Num n => Js.string_of_Z n
  | Str s => quote s
  | Arr items => "[" ++ Js.join "," (map (stringify K) items) ++ "]"
  | Obj members =>
      let written := map (fun '(k, x) => (k, stringify K x)) members in
      "{" ++ Js.join "," (flat_map (member written) K) ++ "}"
  end.

End Json.

(* ===================================================================== *)
(** ** Regular expressions: the part of [RegExp] the patterns use *)
(* ===================================================================== *)

Module RegExp.

Inductive class_item : Type :=
| CChar (c : ascii)          (* one character *)
| CSpace.                    (* \s *)

Inductive re : Type :=
| Lit (s : string)                          (* literal characters *)
| Any                                       (* .  (no line terminator) *)
| Class (negated : bool) (items : list class_item)   (* [...] and [^...] *)
| Space                                     (* \s *)
| WordB                                     (* \b *)
| Seq (a b : re)
| Alt (a b : re)                            (* a|b, a tried first *)
| Rep (min : nat) (max : option nat) (r : re)   (* greedy r{min,max} *)
| Group (i : nat) (r : re).                 (* the i-th capturing group *)

Record regex : Type := { body : re; ignoreCase : bool }.

Definition opt (r : re) : re := Rep 0 (Some 1%nat) r.
Definition star (r : re) : re := Rep 0 None r.
Definition plus (r : re) : re := Rep 1 None r.

Fixpoint alts (rs : list re) : re :=
  match rs with
  | [] => Lit EmptyString
  | [r] => r
  | r :: rest => Alt r (alts rest)
  end.

Fixpoint seqs (rs : list re) : re :=
  match rs with
  | [] => Lit EmptyString
  | [r] => r
  | r :: rest => Seq r (seqs rest)
  end.

Definition captures : Type := list (nat * string).

(** What a match continues with: the character before the position, the
    text from the position on, and the groups captured so far. *)
Definition cont : Type := option ascii -> string -> captures -> option captures.

Definition canon (ci : bool) (c : ascii) : ascii := if ci then Js.upper_char c else c.

Definition is_word_char (c : ascii) : bool :=
  let n := nat_of_ascii c in
  ((48 <=? n)%nat && (n <=? 57)%nat || (65 <=? n)%nat && (n <=? 90)%nat
   || (97 <=? n)%nat && (n <=? 122)%nat || (n =? 95)%nat)%bool.

Definition is_line_terminator (c : ascii) : bool :=
  let n := nat_of_ascii c in ((n =? 10)%nat || (n =? 13)%nat)%bool.

Definition word_before (prev : option ascii) : bool :=
  match prev with Some c => is_word_char c | None => false end.

Definition word_after (s : string) : bool :=
  match s with String c _ => is_word_char c | EmptyString => false end.

Definition in_class (ci : bool) (items : list class_item) (c : ascii) : bool :=
  existsb (fun it => match it with
                     | CChar d => Ascii.eqb (canon ci d) (canon ci c)
                     | CSpace => Js.is_space c
                     end) items.

(** The text between two positions of one string, the second given by what
    is left after it. *)
Definition consumed (from rest : string) : string :=
  String.substring 0 (String.length from - String.length rest) from.

Fixpoint match_lit (ci : bool) (l : string) (prev : option ascii) (s : string)
  : option (option ascii * string) :=
  match l with
  | EmptyString => Some (prev, s)
  | String a l' =>
      match s with
      | String b s' =>
          if Ascii.eqb (canon ci a) (canon ci b) then match_lit ci l' (Some b) s' else None
      | EmptyString => None
      end
  end.

(** The backtracking matcher: [m ci r prev s caps k] matches [r] at the
    position whose text is [s], then continues with [k]; the first success
    in the order the alternatives are tried is the result. *)
Fixpoint m (ci : bool) (r : re) (prev : option ascii) (s : string)
           (caps : captures) (k : cont) {struct r} : option captures :=
  match r with
  | Lit l =>
      match match_lit ci l prev s with
      | Some (p, s') => k p s' caps
      | None => None
      end
  | Any =>
      match s with
      | String c s' => if is_line_terminator c then None else k (Some c) s' caps
      | EmptyString => None
      end
  | Class negated items =>
      match s with
      | String c s' =>
          if Bool.eqb (in_class ci items c) negated then None else k (Some c) s' caps
      | EmptyString => None
      end
  | Space =>
      match s with
      | String c s' => if Js.is_space c then k (Some c) s' caps else None
      | EmptyString => None
      end
  | WordB =>
      if Bool.eqb (word_before prev) (word_after s) then None else k prev s caps
  | Seq a b => m ci a prev s caps (fun p s' c => m ci b p s' c k)
  | Alt a b =>
      match m ci a prev s caps k with
      | Some c => Some c
      | None => m ci b prev s caps k
      end
  | Rep min max r' =>
      (fix loop (fuel min : nat) (prev : option ascii) (s : string)
                (caps : captures) {struct fuel} : option captures :=
         let stop := match min with O => k prev s caps | S _ => None end in
         match fuel with
         | O => stop
         | S fuel' =>
             match m ci r' prev s caps
                     (fun p s' c =>
                        match min with
                        | O => if (String.length s' <? String.length s)%nat
                               then loop fuel' O p s' c else None
                        | S min' => loop fuel' min' p s' c
                        end) with
             | Some c => Some c
             | None => stop
             end
         end)
        (match max with Some n => n | None => (min + String.length s)%nat end)
        min prev s caps
  | Group i r' => m ci r' prev s caps (fun p s' c => k p s' ((i, consumed s s') :: c))
  end.

(** The leftmost match, as [RegExp.prototype.exec] finds it without the
    [g] and [y] flags. *)
Fixpoint search (rx : regex) (prev : option ascii) (s : string) : option captures :=
  match m (ignoreCase rx) (body rx) prev s [] (fun _ _ c => Some c) with
  | Some c => Some c
  | None =>
      match s with
      | String ch s' => search rx (Some ch) s'
      | EmptyString => None
      end
  end.

(** [s.match(rx)]: the groups of the leftmost match, or [null]. *)
Definition exec (rx : regex) (s : string) : option captures := search rx None s.

(** [rx.test(s)]. *)
Definition test (rx : regex) (s : string) : bool :=
  match exec rx s with Some _ => true | None => false end.

(** [match[i]] of a group that took part in the match. *)
Definition group (i : nat) (caps : captures) : string :=
  match find (fun c => (fst c =? i)%nat) caps with
  | Some (_, text) => text
  | None => EmptyString
  end.

End RegExp.

(* ===================================================================== *)
(** ** constants.ts *)
(* ===================================================================== *)

(** Hook priority. Lower = runs later. -10000 ensures we run last. *)
Definition GA_PRIORITY : Z := -10000.

(** Default escalation threshold (Clarity x Stakes) *)
Definition DEFAULT_ESCALATION_THRESHOLD : Z := 36.

(** Default pending timeout: 5 minutes *)
Definition DEFAULT_PENDING_TIMEOUT_MS : Z := 300000.

(** Default approval window: 30 seconds *)
Definition DEFAULT_APPROVAL_WINDOW_MS : Z := 30000.

(** Tools that affect system infrastructure *)
Definition INFRASTRUCTURE_TOOLS : list string := ["gateway"; "exec"; "Write"; "Edit"].

(** Tools with external effects *)
Definition EXTERNAL_EFFECT_TOOLS : list string :=
  ["message"; "browser"; "cron"; "nodes"; "tts"].

(** Default tools exempt from evaluation *)
Definition DEFAULT_NEVER_BLOCK : list string :=
  ["memory_search"; "memory_get"; "session_status"; "Read"; "web_search";
   "web_fetch"; "image"; "sessions_list"; "sessions_history"; "agents_list"].

(* ===================================================================== *)
(** ** types.ts *)
(* ===================================================================== *)

Record GuardianAngelConfig : Type := {
  enabled : option bool;
  escalationThreshold : option Z;
  pendingTimeoutMs : option Z;
  approvalWindowMs : option Z;
  storePath : option string;
  alwaysBlock : option (list string);
  neverBlock : option (list string)
}.

Module Decision.
Inductive t : Type := allow | block | escalate.
End Decision.

Record EvaluationResult : Type := {
  decision : Decision.t;
  reason : option string;
  clarity : option Z;
  stakes : option Z
}.

Module PendingEscalation.
Record t : Type := {
  nonce : string;
  paramsHash : string;
  toolName : string;
  params : Json.object;
  createdAt : Z;
  expiresAt : Z
}.
End PendingEscalation.

(** [paramsHash] and [toolName] are copied from what [pending[nonce]]
    yields, and are [undefined] (here [None]) when that is not a record. *)
Module ApprovedAction.
Record t : Type := {
  nonce : string;
  paramsHash : option string;
  toolName : option string;
  approvedAt : Z;
  expiresAt : Z
}.
End ApprovedAction.

Record StoreState : Type := {
  pending : gmap string PendingEscalation.t;
  approved : gmap string ApprovedAction.t
}.

(** [logger.debug] is optional. *)
Record PluginLogger : Type := { has_debug : bool }.

Record ToolContext : Type := {
  agentId : option string;
  sessionKey : option string;
  ctx_toolName : string
}.

(* ===================================================================== *)
(** ** The host: the store's file, the clock, the random source, the logs *)
(* ===================================================================== *)

Module Host.

(** What is at [storePath]: no file, a file that cannot be read or parsed,
    or the document a [save] wrote. *)
Inductive Disk : Type :=
| Missing
| Unreadable
| Holds (state : StoreState).

Inductive Level : Type := debug | info | warn | error.

Record World : Type := {
  file : Disk;
  writable : bool;               (* does [writeFileSync] succeed *)
  clock : nat -> Z;              (* the readings [Date.now()] will give *)
  ticks : nat;                   (* how many were taken *)
  random : nat -> Z;             (* the values [randomBytes(4)] will give *)
  draws : nat;                   (* how many were taken *)
  console : list string;         (* lines of [console.error], latest first *)
  logged : list (Level * string) (* the logger's lines, latest first *)
}.

Definition M (A : Type) : Type := World -> A * World.

Definition ret {A} (a : A) : M A := fun w => (a, w).

Definition bind {A B} (c : M A) (k : A -> M B) : M B :=
  fun w => let r := c w in k (fst r) (snd r).

Definition set_file (d : Disk) (w : World) : World :=
  {| file := d; writable := writable w; clock := clock w; ticks := ticks w;
     random := random w; draws := draws w; console := console w;
     logged := logged w |}.

(** [Date.now()] *)
Definition Date_now : M Z :=
  fun w => (clock w (ticks w),
            {| file := file w; writable := writable w; clock := clock w;
               ticks := S (ticks w); random := random w; draws := draws w;
               console := console w; logged := logged w |}).

(** [randomBytes(4).toString("hex")]: eight hexadecimal digits. *)
Definition randomBytes4_hex : M string :=
  fun w => (Js.hex_of_word (Sha256.w32 (random w (draws w))),
            {| file := file w; writable := writable w; clock := clock w;
               ticks := ticks w; random := random w; draws := S (draws w);
               console := console w; logged := logged w |}).

Definition console_error (line : string) : M unit :=
  fun w => (tt,
            {| file := file w; writable := writable w; clock := clock w;
               ticks := ticks w; random := random w; draws := draws w;
               console := line :: console w; logged := logged w |}).

Definition log (l : Level) (line : string) : M unit :=
  fun w => (tt,
            {| file := file w; writable := writable w; clock := clock w;
               ticks := ticks w; random := random w; draws := draws w;
               console := console w; logged := (l, line) :: logged w |}).

(** [logger.debug?.(line)] *)
Definition log_debug (logger : PluginLogger) (line : string) : M unit :=
  if has_debug logger then log debug line else ret tt.

End Host.

Notation "'let*' x ':=' c 'in' k" := (Host.bind c (fun x => k))
  (at level 10, x name, c at level 100, k at level 200).

(** The [Store] interface of types.ts. *)

(** [{ ok: true; windowSeconds } | { ok: false; error }] *)
Inductive ApproveResult : Type :=
| ok_true (windowSeconds : Z)
| ok_false (error : string).

(** [{ nonce: string }], read off what [approved[paramsHash]] yields. *)
Record Approval : Type := { approval_nonce : option string }.

Module Store.
Record t : Type := {
  hashParams : string -> Json.object -> string;
  createPending : string -> string -> Json.object -> Host.M string;
  approvePending : string -> Host.M ApproveResult;
  consumeApproval : string -> Host.M (option Approval);
  cleanup : Host.M unit
}.
End Store.

(* ===================================================================== *)
(** ** evaluate.ts *)
(* ===================================================================== *)

Module Evaluate.
Import RegExp.

(** Patterns that indicate image generation commands *)
Definition IMAGE_GEN_PATTERNS : list string :=
  ["generate_image.py"; "nano-banana"; "openai-image"; "dall-e"; "midjourney";
   "stable-diffusion"; "image-gen"].

Definition words (ws : list string) : re := alts (map Lit ws).

Definition rx (r : re) : regex := {| body := r; ignoreCase := true |}.

(** Patterns indicating harmful image content (intrinsic evil) *)
Definition HARMFUL_IMAGE_PATTERNS : list (regex * string) :=
  [ (* /\b(nude|naked|porn|pornograph|nsfw|xxx|erotic|sexual(?:ly)?|genitals?)\b/i *)
    (rx (seqs [WordB;
               Group 1 (alts [Lit "nude"; Lit "naked"; Lit "porn"; Lit "pornograph";
                              Lit "nsfw"; Lit "xxx"; Lit "erotic";
                              Seq (Lit "sexual") (opt (Lit "ly"));
                              Seq (Lit "genital") (opt (Lit "s"))]);
               WordB]),
     "pornography");
    (* /\b(child|minor|underage|kid|teen).{0,20}(nude|naked|sexual|erotic)/i *)
    (rx (seqs [WordB;
               Group 1 (words ["child"; "minor"; "underage"; "kid"; "teen"]);
               Rep 0 (Some 20%nat) Any;
               Group 2 (words ["nude"; "naked"; "sexual"; "erotic"])]),
     "child exploitation");
    (* /\b(gore|gory|dismember|mutilat|torture|brutal.{0,10}kill)\b/i *)
    (rx (seqs [WordB;
               Group 1 (alts [Lit "gore"; Lit "gory"; Lit "dismember"; Lit "mutilat";
                              Lit "torture";
                              seqs [Lit "brutal"; Rep 0 (Some 10%nat) Any; Lit "kill"]]);
               WordB]),
     "extreme violence");
    (* /\b(terrorist|terrorism|bomb.{0,10}(make|build|instruct))\b/i *)
    (rx (seqs [WordB;
               Group 1 (alts [Lit "terrorist"; Lit "terrorism";
                              seqs [Lit "bomb"; Rep 0 (Some 10%nat) Any;
                                    Group 2 (words ["make"; "build"; "instruct"])]]);
               WordB]),
     "terrorism");
    (* /\b(deepfake|fake.{0,10}(id|passport|document|evidence))\b/i *)
    (rx (seqs [WordB;
               Group 1 (alts [Lit "deepfake";
                              seqs [Lit "fake"; Rep 0 (Some 10%nat) Any;
                                    Group 2 (words ["id"; "passport"; "document";
                                                    "evidence"])]]);
               WordB]),
     "fraud/deception") ].

(** Patterns that are concerning but may have legitimate uses (escalate,
    don't block) *)
Definition CONCERNING_IMAGE_PATTERNS : list (regex * string) :=
  [ (* /\b(weapon|gun|rifle|pistol|knife|sword)\b/i *)
    (rx (seqs [WordB;
               Group 1 (words ["weapon"; "gun"; "rifle"; "pistol"; "knife"; "sword"]);
               WordB]),
     "weapons depicted");
    (* /\b(blood|bloody|bleeding|wound)\b/i *)
    (rx (seqs [WordB; Group 1 (words ["blood"; "bloody"; "bleeding"; "wound"]); WordB]),
     "potentially graphic content");
    (* /\b(drug|cocaine|heroin|meth)\b/i *)
    (rx (seqs [WordB; Group 1 (words ["drug"; "cocaine"; "heroin"; "meth"]); WordB]),
     "drug-related content") ].

Definition quote_class : list class_item :=
  [CChar (ascii_of_nat 34); CChar (ascii_of_nat 39)].

(** /(?:--prompt|-p)\s+Q([^Q]+)Q/i, where Q stands for the class of the
    double and the single quote. *)
Definition QUOTED_PROMPT : regex :=
  rx (seqs [words ["--prompt"; "-p"]; plus Space; Class false quote_class;
            Group 1 (plus (Class true quote_class)); Class false quote_class]).

(** /(?:--prompt|-p)\s+(W(?:\s+W)STAR)/i, where W stands for [^-][^\s]STAR
    and STAR for the postfix star. *)
Definition UNQUOTED_PROMPT : regex :=
  rx (seqs [words ["--prompt"; "-p"]; plus Space;
            Group 1 (seqs [Class true [CChar (ascii_of_nat 45)];
                           star (Class true [CSpace]);
                           star (seqs [plus Space;
                                       Class true [CChar (ascii_of_nat 45)];
                                       star (Class true [CSpace])])])]).

(** Detect if a command is an image generation command. *)
Definition isImageGenerationCommand (cmd : string) : bool :=
  let lowerCmd := Js.toLowerCase cmd in
  existsb (fun pattern => Js.includes lowerCmd pattern) IMAGE_GEN_PATTERNS.

(** Extract the prompt from an image generation command. *)
Definition extractImagePrompt (cmd : string) : option string :=
  match exec QUOTED_PROMPT cmd with
  | Some promptMatch => Some (group 1 promptMatch)
  | None =>
      match exec UNQUOTED_PROMPT cmd with
      | Some unquotedMatch => Some (Js.trim (group 1 unquotedMatch))
      | None => None
      end
  end.

Record ContentCheck : Type := { cc_block : bool; cc_reason : string }.

(** Check image prompt for harmful content. *)
Definition checkImagePromptContent (prompt : string) : option ContentCheck :=
  match find (fun pc => test (fst pc) prompt) HARMFUL_IMAGE_PATTERNS with
  | Some (_, category) =>
      Some {| cc_block := true;
              cc_reason := "Image request contains " ++ category
                           ++ " (violation of dignity)" |}
  | None =>
      match find (fun pr => test (fst pr) prompt) CONCERNING_IMAGE_PATTERNS with
      | Some (_, reason) =>
          Some {| cc_block := false;
                  cc_reason := "Image request may contain " ++ reason |}
      | None => None
      end
  end.

(** [if (prompt)] on [string | null]. *)
Definition nonempty (prompt : option string) : option string :=
  match prompt with
  | Some p => if String.eqb p EmptyString then None else Some p
  | None => None
  end.

(** The content check of an image-generation command's prompt, when the
    command has a prompt. *)
Definition promptContent (cmd : string) : option ContentCheck :=
  match nonempty (extractImagePrompt cmd) with
  | Some prompt => checkImagePromptContent prompt
  | None => None
  end.

(** Check for intrinsically evil actions that cannot be approved. *)
Definition checkIntrinsicEvil (toolName : string) (params : Json.object)
  : Completion (option string) :=
  if String.eqb toolName "exec" then
    let! cmd := Json.String_or_empty (Json.get params "command") in
    let lowerCmd := Js.toLowerCase cmd in
    (* Catastrophically destructive commands *)
    if Js.includes lowerCmd "rm -rf /" && negb (Js.includes lowerCmd "rm -rf /tmp")
    then Returns (Some "Command would destroy root filesystem")
    else if Js.includes lowerCmd ":(){ :|:& };:"
    then Returns (Some "Fork bomb detected")
    else if Js.includes lowerCmd "mkfs" && negb (Js.includes lowerCmd "--dry-run")
    then Returns (Some "Filesystem format command detected")
    else if Js.includes lowerCmd "> /dev/sd"
            || Js.includes lowerCmd "dd if=" && Js.includes lowerCmd "of=/dev/"
    then Returns (Some "Raw disk write detected")
    else
      (* Check image generation prompts for harmful content *)
      if isImageGenerationCommand cmd then
        match promptContent cmd with
        | Some contentCheck =>
            Returns (if cc_block contentCheck then Some (cc_reason contentCheck)
                     else None)
        | None => Returns None
        end
      else Returns None
  else Returns None.

(** [assessClarity], statement by statement: each takes the running value
    of [clarity] and gives the next, unless a conversion in it throws. *)

(** Infrastructure tools are inherently less clear (but not image gen) *)
Definition clarity_infrastructure (toolName : string) (params : Json.object)
  (clarity : Z) : Completion Z :=
  if Js.array_includes INFRASTRUCTURE_TOOLS toolName then
    if String.eqb toolName "exec" then
      let! cmd := Json.String_or_empty (Json.get params "command") in
      Returns
        (if isImageGenerationCommand cmd then
           match promptContent cmd with
           | Some contentCheck =>
               if negb (cc_block contentCheck) then clarity + 3 else clarity
           | None => clarity
           end
         else clarity + 3)
    else Returns (clarity + 3)
  else Returns clarity.

(** External effects add uncertainty *)
Definition clarity_external (toolName : string) (clarity : Z) : Z :=
  if Js.array_includes EXTERNAL_EFFECT_TOOLS toolName then clarity + 2 else clarity.

Definition mentions_model (raw : string) : bool :=
  Js.includes raw "model" || Js.includes raw "defaultModel".

Definition clarity_gateway (toolName : string) (params : Json.object)
  (clarity : Z) : Completion Z :=
  if String.eqb toolName "gateway" then
    let! action := Json.String_or_empty (Json.get params "action") in
    let! clarity :=
      if String.eqb action "config.apply" || String.eqb action "config.patch" then
        let clarity := clarity + 3 in
        let! raw := Json.String_or_empty (Json.get params "raw") in
        Returns (if mentions_model raw then clarity + 2 else clarity)
      else Returns clarity in
    let clarity := if String.eqb action "update.run" then clarity + 2 else clarity in
    Returns (if String.eqb action "restart" then clarity + 1 else clarity)
  else Returns clarity.

Definition clarity_exec (toolName : string) (params : Json.object)
  (clarity : Z) : Completion Z :=
  if String.eqb toolName "exec" then
    let! cmd := Json.String_or_empty (Json.get params "command") in
    Returns
      (if negb (isImageGenerationCommand cmd) then
         let clarity := if Js.includes cmd "sudo" then clarity + 2 else clarity in
         let clarity :=
           if Js.includes cmd "rm " || Js.includes cmd ("rm" ++ String (ascii_of_nat 9) "")
           then clarity + 2 else clarity in
         if Js.includes cmd "|" || Js.includes cmd ";" then clarity + 1 else clarity
       else clarity)
  else Returns clarity.

(** [params.targets && Array.isArray(params.targets) && params.targets.length > 1] *)
Definition broadcast (params : Json.object) : bool :=
  match Json.get params "targets" with
  | Some (Json.Arr targets) => (1 <? length targets)%nat
  | _ => false
  end.

Definition clarity_message (toolName : string) (params : Json.object)
  (clarity : Z) : Z :=
  if String.eqb toolName "message" then
    let clarity := clarity + 1 in
    if broadcast params then clarity + 2 else clarity
  else clarity.

(** [action === "add" || action === "update"] *)
Definition schedules (action : string) : bool :=
  String.eqb action "add" || String.eqb action "update".

Definition clarity_cron (toolName : string) (params : Json.object)
  (clarity : Z) : Completion Z :=
  if String.eqb toolName "cron" then
    let! action := Json.String_or_empty (Json.get params "action") in
    Returns (if schedules action then clarity + 2 else clarity)
  else Returns clarity.

(** Assess moral clarity of the action (1 = obvious, 10 = ambiguous). *)
Definition assessClarity (toolName : string) (params : Json.object)
  : Completion Z :=
  let clarity := 1 in
  let! clarity := clarity_infrastructure toolName params clarity in
  let clarity := clarity_external toolName clarity in
  let! clarity := clarity_gateway toolName params clarity in
  let! clarity := clarity_exec toolName params clarity in
  let clarity := clarity_message toolName params clarity in
  let! clarity := clarity_cron toolName params clarity in
  Returns (Z.min clarity 10).

(** [assessStakes], statement by statement. *)

(** Infrastructure = high stakes (can disable the agent), but not image gen *)
Definition stakes_infrastructure (toolName : string) (params : Json.object)
  (stakes : Z) : Completion Z :=
  if Js.array_includes INFRASTRUCTURE_TOOLS toolName then
    if String.eqb toolName "exec" then
      let! cmd := Json.String_or_empty (Json.get params "command") in
      Returns
        (if isImageGenerationCommand cmd then
           match promptContent cmd with
           | Some contentCheck =>
               if negb (cc_block contentCheck) then stakes + 2 else stakes
           | None => stakes
           end
         else stakes + 3)
    else Returns (stakes + 3)
  else Returns stakes.

Definition stakes_gateway (toolName : string) (params : Json.object)
  (stakes : Z) : Completion Z :=
  if String.eqb toolName "gateway" then
    let! action := Json.String_or_empty (Json.get params "action") in
    let! stakes :=
      if String.eqb action "config.apply" || String.eqb action "config.patch" then
        let stakes := stakes + 2 in
        let! raw := Json.String_or_empty (Json.get params "raw") in
        let stakes := if mentions_model raw then stakes + 3 else stakes in
        Returns (if Js.includes raw "plugin" then stakes + 2 else stakes)
      else Returns stakes in
    let stakes := if String.eqb action "update.run" then stakes + 3 else stakes in
    Returns (if String.eqb action "restart" then stakes + 1 else stakes)
  else Returns stakes.

Definition stakes_exec (toolName : string) (params : Json.object)
  (stakes : Z) : Completion Z :=
  if String.eqb toolName "exec" then
    let! cmd := Json.String_or_empty (Json.get params "command") in
    Returns
      (if negb (isImageGenerationCommand cmd) then
         let stakes :=
           if Js.includes cmd "rm " && negb (Js.includes cmd "-i")
           then stakes + 3 else stakes in
         let stakes :=
           if Js.includes cmd "kill" || Js.includes cmd "pkill"
           then stakes + 2 else stakes in
         let stakes :=
           if Js.includes cmd "shutdown" || Js.includes cmd "reboot"
           then stakes + 5 else stakes in
         let stakes := if Js.includes cmd "sudo" then stakes + 2 else stakes in
         if Js.includes cmd "openclaw"
            && (Js.includes cmd "stop" || Js.includes cmd "kill")
         then stakes + 4 else stakes
       else stakes)
  else Returns stakes.

Definition stakes_file (toolName : string) (params : Json.object)
  (stakes : Z) : Completion Z :=
  if String.eqb toolName "Write" || String.eqb toolName "Edit" then
    let! path :=
      Json.String_or_empty (Json.or (Json.get params "path")
                                    (Json.get params "file_path")) in
    let stakes :=
      if Js.includes path "openclaw" && Js.includes path "config"
      then stakes + 3 else stakes in
    Returns (if Js.includes path ".env" || Js.includes path "secret"
                || Js.includes path "credential"
             then stakes + 2 else stakes)
  else Returns stakes.

Definition stakes_message (toolName : string) (stakes : Z) : Z :=
  if String.eqb toolName "message" then stakes + 2 else stakes.

Definition stakes_cron (toolName : string) (params : Json.object)
  (stakes : Z) : Completion Z :=
  if String.eqb toolName "cron" then
    let! action := Json.String_or_empty (Json.get params "action") in
    Returns (if schedules action then stakes + 2 else stakes)
  else Returns stakes.

(** Assess stakes of the action (1 = trivial, 10 = life-altering/irreversible). *)
Definition assessStakes (toolName : string) (params : Json.object)
  : Completion Z :=
  let stakes := 1 in
  let! stakes := stakes_infrastructure toolName params stakes in
  let! stakes := stakes_gateway toolName params stakes in
  let! stakes := stakes_exec toolName params stakes in
  let! stakes := stakes_file toolName params stakes in
  let stakes := stakes_message toolName stakes in
  let! stakes := stakes_cron toolName params stakes in
  Returns (Z.min stakes 10).

(** Build a human-readable escalation reason. *)
Definition reason_gateway (toolName : string) (params : Json.object)
  : Completion (list string) :=
  if String.eqb toolName "gateway" then
    let! action := Json.String_or_empty (Json.get params "action") in
    Returns
      (List.app
         (if Js.includes action "config"
          then ["This modifies OpenClaw configuration"] else [])
         (List.app
            (if String.eqb action "update.run"
             then ["This updates OpenClaw software"] else [])
            (if String.eqb action "restart"
             then ["This will restart OpenClaw"] else [])))
  else Returns [].

Definition reason_exec (toolName : string) (params : Json.object)
  : Completion (list string) :=
  if String.eqb toolName "exec" then
    let! cmd := Json.String_or_empty (Json.get params "command") in
    Returns
      (if isImageGenerationCommand cmd then
         List.app
           (match promptContent cmd with
            | Some contentCheck =>
                if negb (cc_block contentCheck) then [cc_reason contentCheck] else []
            | None => []
            end)
           ["Image generation"]
       else
         ["Command: " ++ Js.slice0 80 cmd
          ++ (if (80 <? String.length cmd)%nat then "..." else "")])
  else Returns [].

Definition reason_message (toolName : string) (params : Json.object)
  : Completion (list string) :=
  if String.eqb toolName "message" then
    let to := Json.or (Json.or (Json.get params "to") (Json.get params "target"))
                      (Json.get params "targets") in
    match to with
    | Some v =>
        if Json.truthy to then
          let! recipient := Json.to_String v in
          Returns ["Recipient: " ++ Js.slice0 50 recipient]
        else Returns []
    | None => Returns []
    end
  else Returns [].

Definition buildEscalationReason (toolName : string) (params : Json.object)
  (clarity stakes score : Z) : Completion string :=
  let! gateway := reason_gateway toolName params in
  let! exec := reason_exec toolName params in
  let! message := reason_message toolName params in
  let parts :=
    List.concat
      [ ["Action: " ++ toolName;
         "Risk score: " ++ Js.string_of_Z score
         ++ " (clarity=" ++ Js.string_of_Z clarity
         ++ ", stakes=" ++ Js.string_of_Z stakes ++ ")"];
        gateway; exec; message ] in
  Returns (Js.join " | " parts).

(** [config.escalationThreshold ?? DEFAULT_ESCALATION_THRESHOLD] *)
Definition threshold_of (config : GuardianAngelConfig) : Z :=
  match escalationThreshold config with
  | Some t => t
  | None => DEFAULT_ESCALATION_THRESHOLD
  end.

(** Evaluate a tool call through the virtue-based framework.  An error
    thrown by a check or a scorer passes through; the debug line is written
    before the reason is built. *)
Definition evaluate (toolName : string) (params : Json.object) (ctx : ToolContext)
  (config : GuardianAngelConfig) (logger : PluginLogger)
  : Host.M (Completion EvaluationResult) :=
  (* GATE I: Intrinsic Evil Check *)
  match checkIntrinsicEvil toolName params with
  | Throws => Host.ret Throws
  | Returns (Some intrinsicCheck) =>
      Host.ret (Returns {| decision := Decision.block; reason := Some intrinsicCheck;
                           clarity := None; stakes := None |})
  | Returns None =>
      (* GATE V: Virtue Evaluation *)
      match assessClarity toolName params with
      | Throws => Host.ret Throws
      | Returns clarity =>
          match assessStakes toolName params with
          | Throws => Host.ret Throws
          | Returns stakes =>
              let score := clarity * stakes in
              let threshold := threshold_of config in
              let* _ := Host.log_debug logger
                          ("[GA] " ++ toolName
                           ++ ": clarity=" ++ Js.string_of_Z clarity
                           ++ " stakes=" ++ Js.string_of_Z stakes
                           ++ " score=" ++ Js.string_of_Z score
                           ++ " threshold=" ++ Js.string_of_Z threshold) in
              (* Check against threshold *)
              if threshold <=? score then
                match buildEscalationReason toolName params clarity stakes score with
                | Throws => Host.ret Throws
                | Returns reason =>
                    Host.ret (Returns {| decision := Decision.escalate;
                                         reason := Some reason;
                                         clarity := Some clarity;
                                         stakes := Some stakes |})
                end
              else
                (* Below threshold: virtues aligned *)
                Host.ret (Returns {| decision := Decision.allow; reason := None;
                                     clarity := Some clarity;
                                     stakes := Some stakes |})
          end
      end
  end.

End Evaluate.

(* ===================================================================== *)
(** ** store.ts *)
(* ===================================================================== *)

Module CreateStore.

(** What reading [o[k]] yields for an object [o] that is a dictionary: the
    own member, a member inherited from [Object.prototype], or [undefined].
    The inherited members are functions (and, for [__proto__], the prototype
    itself): each is truthy, and none has the fields of a record. *)
Inductive property (A : Type) : Type :=
| Own (a : A)
| Inherited
| Undefined.
Arguments Own {A} a.
Arguments Inherited {A}.
Arguments Undefined {A}.

Definition Object_prototype : list string :=
  ["constructor"; "__defineGetter__"; "__defineSetter__"; "hasOwnProperty";
   "__lookupGetter__"; "__lookupSetter__"; "isPrototypeOf";
   "propertyIsEnumerable"; "toString"; "valueOf"; "__proto__"; "toLocaleString"].

Definition get {A : Type} (o : gmap string A) (k : string) : property A :=
  match o !! k with
  | Some a => Own a
  | None => if Js.array_includes Object_prototype k then Inherited else Undefined
  end.

(** [o[k] = v]: a new or replaced own member, except under [__proto__],
    where the assignment replaces the object's prototype and adds nothing
    that [JSON.stringify] writes. *)
Definition set {A : Type} (o : gmap string A) (k : string) (v : A) : gmap string A :=
  if String.eqb k "__proto__" then o else <[k := v]> o.

(** [x.f] for what a read yielded: [undefined] unless it is a record. *)
Definition field {A B : Type} (f : A -> B) (x : property A) : option B :=
  match x with
  | Own a => Some (f a)
  | Inherited | Undefined => None
  end.

(** [now > x], false when [x] is [undefined]. *)
Definition gt (now : Z) (x : option Z) : bool :=
  match x with
  | Some e => e <? now
  | None => false
  end.

(** The property name a value is written under: [String(x)]. *)
Definition key_of (x : option string) : string :=
  match x with
  | Some k => k
  | None => "undefined"
  end.

Definition empty_state : StoreState := {| pending := ∅; approved := ∅ |}.

(** The two error texts of [approvePending], by the names the
    specification gives the errors. *)
Definition NotFound : string := "Nonce not found or already used".
Definition Expired : string := "Escalation expired. Please retry the original action.".

Definition load : Host.M StoreState :=
  fun w =>
    (match Host.file w with
     | Host.Missing => empty_state
     | Host.Unreadable => empty_state
     | Host.Holds state => state
     end, w).

Definition save (state : StoreState) : Host.M unit :=
  fun w =>
    if Host.writable w then (tt, Host.set_file (Host.Holds state) w)
    else
      (* Log but don't throw - store is best-effort *)
      Host.console_error "[GA] Failed to save store:" w.

Definition normalized (toolName : string) (params : Json.object) : string :=
  (* Sort keys for consistent hashing *)
  let sortedKeys := Js.sort (Json.keys params) in
  Json.stringify sortedKeys
    (Json.Obj [("toolName", Json.Str toolName); ("params", Json.Obj params)]).

Definition hashParams (toolName : string) (params : Json.object) : string :=
  Js.slice0 16 (Sha256.digest_hex (normalized toolName params)).

Section WithConfig.

Variable config : GuardianAngelConfig.

Definition pendingTimeout : Z :=
  Js.num_or (pendingTimeoutMs config) DEFAULT_PENDING_TIMEOUT_MS.

Definition approvalWindow : Z :=
  Js.num_or (approvalWindowMs config) DEFAULT_APPROVAL_WINDOW_MS.

Definition createPending (paramsHash toolName : string) (params : Json.object)
  : Host.M string :=
  let* state := load in
  let* nonce := Host.randomBytes4_hex in
  let* createdAt := Host.Date_now in
  let* now := Host.Date_now in
  let state :=
    {| pending :=
         set (pending state) nonce
           {| PendingEscalation.nonce := nonce;
              PendingEscalation.paramsHash := paramsHash;
              PendingEscalation.toolName := toolName;
              PendingEscalation.params := params;
              PendingEscalation.createdAt := createdAt;
              PendingEscalation.expiresAt := now + pendingTimeout |};
       approved := approved state |} in
  let* _ := save state in
  Host.ret nonce.

Definition approvePending (nonce : string) : Host.M ApproveResult :=
  let* state := load in
  match get (pending state) nonce with
  | Undefined => Host.ret (ok_false "Nonce not found or already used")
  | found =>
      let* now := Host.Date_now in
      if gt now (field PendingEscalation.expiresAt found) then
        let state :=
          {| pending := delete nonce (pending state); approved := approved state |} in
        let* _ := save state in
        Host.ret (ok_false "Escalation expired. Please retry the original action.")
      else
        (* Move from pending to approved *)
        let paramsHash := field PendingEscalation.paramsHash found in
        let* approvedAt := Host.Date_now in
        let* now := Host.Date_now in
        let state :=
          {| pending := delete nonce (pending state);
             approved :=
               set (approved state) (key_of paramsHash)
                 {| ApprovedAction.nonce := nonce;
                    ApprovedAction.paramsHash := paramsHash;
                    ApprovedAction.toolName := field PendingEscalation.toolName found;
                    ApprovedAction.approvedAt := approvedAt;
                    ApprovedAction.expiresAt := now + approvalWindow |} |} in
        let* _ := save state in
        Host.ret (ok_true (Js.round_div approvalWindow 1000))
  end.

Definition consumeApproval (paramsHash : string) : Host.M (option Approval) :=
  let* state := load in
  match get (approved state) paramsHash with
  | Undefined => Host.ret None
  | found =>
      let* now := Host.Date_now in
      let state :=
        {| pending := pending state;
           approved := delete paramsHash (approved state) |} in
      if gt now (field ApprovedAction.expiresAt found) then
        let* _ := save state in
        Host.ret None
      else
        (* Consume (one-time use) *)
        let* _ := save state in
        Host.ret (Some {| approval_nonce := field ApprovedAction.nonce found |})
  end.

Definition cleanup : Host.M unit :=
  let* state := load in
  let* now := Host.Date_now in
  (* the entries the two loops delete are those with [now > expiresAt];
     [changed] is set when there is one *)
  let changed :=
    existsb (fun kv => PendingEscalation.expiresAt kv.2 <? now)
            (map_to_list (pending state))
    || existsb (fun kv => ApprovedAction.expiresAt kv.2 <? now)
               (map_to_list (approved state)) in
  let state :=
    {| pending :=
         filter (fun kv => ¬ (PendingEscalation.expiresAt kv.2 < now)) (pending state);
       approved :=
         filter (fun kv => ¬ (ApprovedAction.expiresAt kv.2 < now)) (approved state) |} in
  if changed then save state else Host.ret tt.

(** The object [createStore] returns. *)
Definition methods : Store.t :=
  {| Store.hashParams := hashParams;
     Store.createPending := createPending;
     Store.approvePending := approvePending;
     Store.consumeApproval := consumeApproval;
     Store.cleanup := cleanup |}.

Definition createStore : Host.M Store.t :=
  (* Cleanup on initialization *)
  let* _ := cleanup in
  Host.ret methods.

End WithConfig.

End CreateStore.

(* ===================================================================== *)
(** ** hook.ts *)
(* ===================================================================== *)

Module Hook.

Record BeforeToolCallEvent : Type := {
  toolName : string;
  params : Json.object
}.

Record BeforeToolCallResult : Type := {
  result_params : option Json.object;
  block : option bool;
  blockReason : option string
}.

(** [`${x}`] for an optional string. *)
Definition show (x : option string) : string :=
  match x with
  | Some s => s
  | None => "undefined"
  end.

(** [a || b] on an optional string and a string. *)
Definition string_or (a : option string) (b : string) : string :=
  match a with
  | Some s => if String.eqb s EmptyString then b else s
  | None => b
  end.

(** [xs || []] *)
Definition list_or_empty (xs : option (list string)) : list string :=
  match xs with
  | Some l => l
  | None => []
  end.

(** Create an escalation block with nonce. *)
Definition escalate (toolName : string) (params : Json.object) (paramsHash : string)
  (store : Store.t) (logger : PluginLogger) (reason : string)
  : Host.M BeforeToolCallResult :=
  (* Generate and store nonce *)
  let* nonce := Store.createPending store paramsHash toolName params in
  let* _ := Host.log Host.info
              ("[GA] " ++ toolName ++ ": escalating (nonce: " ++ nonce ++ ")") in
  (* Return structured block reason the agent can parse *)
  Host.ret {| result_params := None;
              block := Some true;
              blockReason :=
                Some ("GUARDIAN_ANGEL_ESCALATE|" ++ nonce ++ "|" ++ reason) |}.

(** Create the before_tool_call hook handler.  [Returns None] is the
    handler's plain [return]: the call is allowed.  [Throws] is the promise
    rejected, with an error the evaluator threw: the handler catches
    nothing, and what steps 2 and 3 did to the store and the logs stays
    done. *)
Definition createBeforeToolCallHandler (config : GuardianAngelConfig)
  (store : Store.t) (logger : PluginLogger)
  (event : BeforeToolCallEvent) (ctx : ToolContext)
  : Host.M (Completion (option BeforeToolCallResult)) :=
  let toolName := toolName event in
  let params := params event in
  (* 1. Check if plugin is disabled *)
  match enabled config with
  | Some false => Host.ret (Returns None)
  | _ =>
      (* 2. Check exemptions *)
      let neverBlock := list_or_empty (neverBlock config) in
      if Js.array_includes neverBlock toolName then
        let* _ := Host.log_debug logger ("[GA] " ++ toolName ++ ": exempt, allowing") in
        Host.ret (Returns None)
      else
        (* 3. Check if this call has a valid approval *)
        let paramsHash := Store.hashParams store toolName params in
        let* approval := Store.consumeApproval store paramsHash in
        match approval with
        | Some approval =>
            let* _ := Host.log Host.info
                        ("[GA] " ++ toolName ++ ": approved via nonce "
                         ++ show (approval_nonce approval)) in
            Host.ret (Returns None)
        | None =>
            (* 4. Check alwaysBlock list *)
            let alwaysBlock := list_or_empty (alwaysBlock config) in
            if Js.array_includes alwaysBlock toolName then
              let* r := escalate toolName params paramsHash store logger
                          ("Tool '" ++ toolName
                           ++ "' requires explicit approval per configuration") in
              Host.ret (Returns (Some r))
            else
              (* 5. Run virtue-based evaluation *)
              let* result := Evaluate.evaluate toolName params ctx config logger in
              match result with
              | Throws => Host.ret Throws
              | Returns result =>
                  match decision result with
                  | Decision.allow =>
                      let* _ := Host.log_debug logger
                                  ("[GA] " ++ toolName ++ ": virtues aligned (score="
                                   ++ Js.string_of_Z (Js.num_or (clarity result) 1
                                                      * Js.num_or (stakes result) 1)
                                   ++ "), allowing") in
                      Host.ret (Returns None)
                  | Decision.block =>
                      (* Intrinsic evil or hard block: no approval possible *)
                      let* _ := Host.log Host.warn
                                  ("[GA] " ++ toolName ++ ": BLOCKED ("
                                   ++ show (reason result) ++ ")") in
                      Host.ret (Returns (Some {| result_params := None;
                                                 block := Some true;
                                                 blockReason :=
                                                   Some ("GUARDIAN_ANGEL_BLOCK|"
                                                         ++ show (reason result)) |}))
                  | Decision.escalate =>
                      let* r := escalate toolName params paramsHash store logger
                                  (string_or (reason result)
                                             "High-stakes action requires approval") in
                      Host.ret (Returns (Some r))
                  end
              end
        end
  end.

End Hook.

(* ===================================================================== *)
(** ** approve-tool.ts *)
(* ===================================================================== *)

Module ApproveTool.

Record ToolResult : Type := { content : list (string * string) }.

(** [execute] of the [ga_approve] tool ([createApprovalTool(store, logger)]). *)
Definition execute (store : Store.t) (logger : PluginLogger)
  (nonce : string) (reason : option string) : Host.M ToolResult :=
  let* result := Store.approvePending store nonce in
  match result with
  | ok_false error =>
      let* _ := Host.log Host.warn
                  ("[GA] Approval failed for nonce " ++ nonce ++ ": " ++ error) in
      Host.ret {| content := [("text", "❌ Approval failed: " ++ error)] |}
  | ok_true windowSeconds =>
      let* _ := Host.log Host.info
                  ("[GA] Approved nonce " ++ nonce
                   ++ match reason with
                      | Some r => if String.eqb r EmptyString then EmptyString
                                  else " (reason: " ++ r ++ ")"
                      | None => EmptyString
                      end) in
      Host.ret {| content :=
                    [("text",
                      "✓ Approved. You may now retry the action. Approval expires in "
                      ++ Js.string_of_Z windowSeconds ++ "s.")] |}
  end.

End ApproveTool.

(** The tool definition [createApprovalTool(store, logger)] returns: its
    name, the parameters of its schema (name, type, and whether required)
    and [execute]. *)
Record ApprovalTool : Type := {
  tool_name : string;
  tool_parameters : list (string * string * bool);
  tool_execute : string -> option string -> Host.M ApproveTool.ToolResult
}.

Definition createApprovalTool (store : Store.t) (logger : PluginLogger) : ApprovalTool :=
  {| tool_name := "ga_approve";
     tool_parameters := [("nonce", "string", true); ("reason", "string", false)];
     tool_execute := ApproveTool.execute store logger |}.

(* ===================================================================== *)
(** ** diagnostics.ts *)
(* ===================================================================== *)

Module Diagnostics.

(** Run startup diagnostics. *)
Definition runStartupDiagnostics (logger : PluginLogger) : Host.M unit :=
  let* _ := Host.log Host.info "[GA] Running startup diagnostics..." in
  (* Log our priority *)
  let* _ := Host.log Host.info
              ("[GA] Registered at priority " ++ Js.string_of_Z GA_PRIORITY) in
  (* Note about limitations *)
  let* _ := Host.log Host.info
              ("[GA] ℹ️ Note: Cannot verify hook priority ordering "
               ++ "(introspection API not available). "
               ++ "If other plugins register before_tool_call hooks with priority < -10000, "
               ++ "they could theoretically override GA decisions.") in
  Host.log Host.info "[GA] ✓ Diagnostics complete. Guardian Angel is active.".

End Diagnostics.

(* ===================================================================== *)
(** ** index.ts: the plugin as registered *)
(* ===================================================================== *)

(** [api.pluginConfig || {}] when the host supplies no configuration. *)
Definition no_config : GuardianAngelConfig :=
  {| enabled := None; escalationThreshold := None; pendingTimeoutMs := None;
     approvalWindowMs := None; storePath := None; alwaysBlock := None;
     neverBlock := None |}.

(** The handler [register] installs for [before_tool_call]: the hook over
    the store created from the same configuration. *)
Definition before_tool_call (config : GuardianAngelConfig) (logger : PluginLogger)
  (toolName : string) (params : Json.object)
  : Host.M (Completion (option Hook.BeforeToolCallResult)) :=
  Hook.createBeforeToolCallHandler config (CreateStore.methods config) logger
    {| Hook.toolName := toolName; Hook.params := params |}
    {| agentId := None; sessionKey := None; ctx_toolName := toolName |}.

(** The [ga_approve] tool [register] installs. *)
Definition ga_approve (config : GuardianAngelConfig) (logger : PluginLogger)
  (nonce : string) : Host.M ApproveTool.ToolResult :=
  ApproveTool.execute (CreateStore.methods config) logger nonce None.

Module Index.

(** What [register] asks of the host: [api.on(hookName, handler, { priority })]
    for the two hooks, and [api.registerTool(tool)]. *)
Inductive Registration : Type :=
| on_before_tool_call
    (handler : Hook.BeforeToolCallEvent -> ToolContext
               -> Host.M (Completion (option Hook.BeforeToolCallResult)))
    (priority : Z)
| registerTool (tool : ApprovalTool)
| on_gateway_start (handler : Host.M unit) (priority : Z).

(** [register(api)]: the registrations made, in the order they are made.
    [pluginConfig] is [api.pluginConfig], absent when the host supplies
    none. *)
Definition register (pluginConfig : option GuardianAngelConfig) (logger : PluginLogger)
  : Host.M (list Registration) :=
  let config := match pluginConfig with Some c => c | None => no_config end in
  (* Check if disabled *)
  match enabled config with
  | Some false =>
      let* _ := Host.log Host.info "[GA] Guardian Angel is disabled via configuration" in
      Host.ret []
  | _ =>
      (* Create the nonce store *)
      let* store := CreateStore.createStore config in
      (* Register the before_tool_call hook (runs LAST due to low priority) *)
      let hook :=
        on_before_tool_call (Hook.createBeforeToolCallHandler config store logger)
          GA_PRIORITY in
      (* Register the approval tool *)
      let tool := registerTool (createApprovalTool store logger) in
      (* Run startup diagnostics when gateway starts *)
      let start := on_gateway_start (Diagnostics.runStartupDiagnostics logger) 0 in
      let* _ := Host.log Host.info
                  ("[GA] Guardian Angel v1.0.0 active (hook priority: "
                   ++ Js.string_of_Z GA_PRIORITY ++ ")") in
      Host.ret [hook; tool; start]
  end.

End Index.

(* ===================================================================== *)
(** ** Sample inputs *)
(* ===================================================================== *)

Module Sample.

Definition logger : PluginLogger := {| has_debug := true |}.

Definition ctx (toolName : string) : ToolContext :=
  {| agentId := None; sessionKey := None; ctx_toolName := toolName |}.

(** A host whose store file holds [d]; the clock starts at [start] and
    advances one millisecond per reading; the random source gives
    0xa7f3c21b, 0xa7f3c21c, ... *)
Definition world (d : Host.Disk) (can_write : bool) (start : Z) : Host.World :=
  {| Host.file := d;
     Host.writable := can_write;
     Host.clock := fun n => start + Z.of_nat n;
     Host.ticks := 0;
     Host.random := fun n => 2817770011 + Z.of_nat n;
     Host.draws := 0;
     Host.console := [];
     Host.logged := [] |}.

(** [gateway] with [action: "config.apply"] and a [raw] naming [defaultModel] *)
Definition config_apply : Json.object :=
  [("action", Json.Str "config.apply"); ("raw", Json.Str "defaultModel")].

(** [exec] with [command: "rm -rf /"] *)
Definition rm_root : Json.object := [("command", Json.Str "rm -rf /")].

(** [exec] with a command that names /tmp first and the root after *)
Definition rm_tmp_then_root : Json.object :=
  [("command", Json.Str "rm -rf /tmp/x; rm -rf /")].

(** The fingerprint the store computes for the gateway request (lemma
    [sample_fingerprint]). *)
Definition fingerprint : string := "44136fa355b3678a".

(** The escalation of the gateway request, under the nonce a7f3c21b. *)
Definition pending_record (expires : Z) : PendingEscalation.t :=
  {| PendingEscalation.nonce := "a7f3c21b";
     PendingEscalation.paramsHash := fingerprint;
     PendingEscalation.toolName := "gateway";
     PendingEscalation.params := config_apply;
     PendingEscalation.createdAt := 0;
     PendingEscalation.expiresAt := expires |}.

(** Its approval. *)
Definition approved_record (expires : Z) : ApprovedAction.t :=
  {| ApprovedAction.nonce := "a7f3c21b";
     ApprovedAction.paramsHash := Some fingerprint;
     ApprovedAction.toolName := Some "gateway";
     ApprovedAction.approvedAt := 0;
     ApprovedAction.expiresAt := expires |}.

Definition with_pending (expires : Z) : StoreState :=
  {| pending := {[ "a7f3c21b" := pending_record expires ]}; approved := ∅ |}.

Definition with_approved (expires : Z) : StoreState :=
  {| pending := ∅; approved := {[ fingerprint := approved_record expires ]} |}.

Definition with_both (expires : Z) : StoreState :=
  {| pending := {[ "a7f3c21b" := pending_record expires ]};
     approved := {[ fingerprint := approved_record expires ]} |}.

Definition live_escalation : Host.World := world (Host.Holds (with_pending 500)) true 100.
Definition stale_records : Host.World := world (Host.Holds (with_both 50)) true 100.

(** No configuration but a threshold of 1. *)
Definition threshold_one : GuardianAngelConfig :=
  {| enabled := None; escalationThreshold := Some 1; pendingTimeoutMs := None;
     approvalWindowMs := None; storePath := None; alwaysBlock := None;
     neverBlock := None |}.

(** A parameter object that has members named [params] and [toolName], in
    two orders. *)
Definition odd_names : Json.object :=
  [("params", Json.Str "x"); ("b", Json.Num 3); ("toolName", Json.Num 4)].
Definition odd_names_reordered : Json.object :=
  [("b", Json.Num 3); ("params", Json.Str "x"); ("toolName", Json.Num 4)].


(** The gate switched off. *)
Definition disabled : GuardianAngelConfig :=
  {| enabled := Some false; escalationThreshold := None; pendingTimeoutMs := None;
     approvalWindowMs := None; storePath := None; alwaysBlock := None;
     neverBlock := None |}.

(** A threshold of 1 and the read-only tools listed as exempt. *)
Definition exempting : GuardianAngelConfig :=
  {| enabled := None; escalationThreshold := Some 1; pendingTimeoutMs := None;
     approvalWindowMs := None; storePath := None; alwaysBlock := None;
     neverBlock := Some DEFAULT_NEVER_BLOCK |}.

(** [exec] with [command: "ls"], and with a command that deletes a home
    directory *)
Definition ls : Json.object := [("command", Json.Str "ls")].
Definition rm_home : Json.object := [("command", Json.Str "rm -rf /home/user")].

(** A host with no store file yet. *)
Definition fresh : Host.World := world Host.Missing true 100.

(** The same live escalation on a host whose writes fail. *)
Definition read_only : Host.World := world (Host.Holds (with_pending 500)) false 100.

End Sample.

(** Further inputs, for the properties of the scorers and of the store on
    hosts that misbehave. *)
Module Cases.

(** [message] to two recipients *)
Definition broadcast_message : Json.object :=
  [("targets", Json.Arr [Json.Str "alice"; Json.Str "bob"]); ("message", Json.Str "hi")].

(** [Write] to a secret inside the configuration directory, [Edit] of the
    configuration file *)
Definition write_env : Json.object :=
  [("path", Json.Str "/home/user/.openclaw/config/.env")].
Definition write_config : Json.object :=
  [("file_path", Json.Str "/home/user/.openclaw/config.json")].

(** [exec] of a shutdown, with and without the name of an image generator
    in a comment *)
Definition shutdown_marked : Json.object :=
  [("command", Json.Str "sudo shutdown -h now # dall-e")].
Definition shutdown_plain : Json.object :=
  [("command", Json.Str "sudo shutdown -h now")].

(** [exec] that formats a disk *)
Definition format_disk : Json.object :=
  [("command", Json.Str "MKFS.ext4 /dev/sdb1")].

(** [gateway] with [action: "restart"] *)
Definition restart : Json.object := [("action", Json.Str "restart")].

(** [cron] with [action: "add"] *)
Definition cron_add : Json.object := [("action", Json.Str "add")].

(** A threshold no score reaches, and durations of 0. *)
Definition threshold_over_100 : GuardianAngelConfig :=
  {| enabled := None; escalationThreshold := Some 101; pendingTimeoutMs := Some 0;
     approvalWindowMs := Some 0; storePath := None; alwaysBlock := None;
     neverBlock := None |}.

(** Hosts at time 100: a live approval in a file that cannot be written, a
    file that cannot be read, and no file where none can be written. *)
Definition approval_on_read_only : Host.World :=
  Sample.world (Host.Holds (Sample.with_approved 500)) false 100.
Definition unreadable : Host.World := Sample.world Host.Unreadable true 100.
Definition unwritable : Host.World := Sample.world Host.Missing false 100.

(** Two pending escalations with one fingerprint; the second is of an
    [exec]. *)
Definition second_record : PendingEscalation.t :=
  {| PendingEscalation.nonce := "a7f3c21c";
     PendingEscalation.paramsHash := Sample.fingerprint;
     PendingEscalation.toolName := "exec";
     PendingEscalation.params := Sample.rm_home;
     PendingEscalation.createdAt := 0;
     PendingEscalation.expiresAt := 500 |}.
Definition two_escalations : Host.World :=
  Sample.world
    (Host.Holds
       {| pending := <["a7f3c21c" := second_record]>
                       {[ "a7f3c21b" := Sample.pending_record 500 ]};
          approved := ∅ |})
    true 100.

(** The same two stale records on a host whose writes fail. *)
Definition stale_on_read_only : Host.World :=
  Sample.world (Host.Holds (Sample.with_both 50)) false 100.

(** A value [String] cannot convert: an object with a member of its own
    named [toString]; and [gateway], [message] and [exec] requests that
    carry it. *)
Definition unprintable : Json.value := Json.Obj [("toString", Json.Num 1)].
Definition gateway_unprintable : Json.object := [("action", unprintable)].
Definition message_unprintable : Json.object := [("to", unprintable)].
Definition exec_unprintable : Json.object :=
  [("command", Json.Arr [Json.Str "ls"; unprintable])].

(** Two [exec] commands that agree in their first 80 characters: 5 + 75,
    then different tails. *)
Definition long_prefix : string :=
  "echo " ++ string_of_list_ascii (List.repeat "a"%char 75).
Definition long_harmless : Json.object :=
  [("command", Json.Str (long_prefix ++ " && echo done"))].
Definition long_fetch : Json.object :=
  [("command", Json.Str (long_prefix ++ " && curl -s http://example.invalid/x -o /tmp/x"))].

End Cases.

(* ===================================================================== *)
(** ** Proof automation *)
(* ===================================================================== *)

(** Case analysis on every test a scoring statement makes; what is left is
    linear arithmetic. *)
Ltac penalties :=
  repeat match goal with
         | |- context [if ?b then _ else _] => destruct b
         | |- context [match ?x with Some _ => _ | None => _ end] => destruct x
         end;
  lia.

(** The same for a statement that may throw: case analysis on what each
    conversion comes to as well; a statement that threw has no next value. *)
Ltac scoring :=
  repeat match goal with
         | |- context [Json.String_or_empty ?v] =>
             destruct (Json.String_or_empty v); cbn [and_then]
         | |- context [if ?b then _ else _] => destruct b; cbn [and_then]
         | |- context [match ?x with Some _ => _ | None => _ end] => destruct x
         end;
  try discriminate; intros [= <-]; lia.

(** One statement of a scorer that returned: name its value. *)
Ltac statement H c E :=
  match type of H with
  | and_then ?st _ = _ =>
      destruct st as [c|] eqn:E; [cbn [and_then] in H | discriminate H]
  end.

(** The tests of a text against constants, one case each; in the case where
    a test holds the text is replaced by the constant. *)
Ltac text_cases action :=
  repeat match goal with
         | |- context [String.eqb action ?s] =>
             destruct (String.eqb_spec action s); [subst action |]
         end.

(** The fields of the host, computed through the primitives. *)
Ltac host :=
  cbn [Host.file Host.writable Host.clock Host.ticks Host.random Host.draws
       Host.logged Host.console Host.Date_now Host.randomBytes4_hex Host.log
       Host.console_error Host.set_file Host.ret fst snd] in *.

(* ===================================================================== *)
(** * Properties *)
(* ===================================================================== *)

(** ** The digest agrees with the published test vectors *)

Example sha256_abc :
  Sha256.digest_hex "abc"
  = "ba7816bf8f01cfea414140de5dae2223b00361a396177a9cb410ff61f20015ad".
Proof. vm_compute. reflexivity. Qed.

Example sha256_two_blocks :
  Sha256.digest_hex "abcdbcdecdefdefgefghfghighijhijkijkljklmklmnlmnomnopnopq"
  = "248d6a61d20638b8e5c026930c3e6039a33ce45964ff2167f6ecedd419db06c1".
Proof. vm_compute. reflexivity. Qed.

Example sha256_empty :
  Sha256.digest_hex ""
  = "e3b0c44298fc1c149afbf4c8996fb92427ae41e4649b934ca495991b7852b855".
Proof. vm_compute. reflexivity. Qed.

(** ** Digests and nonces are hexadecimal texts *)

Lemma hex_digit_is_hex n : 0 <= n < 16 -> Js.is_hex_digit (Js.hex_digit n) = true.
Proof.
  intros H.
  assert (Hall : forallb (fun k => Js.is_hex_digit (Js.hex_digit (Z.of_nat k)))
                         (seq 0 16) = true) by reflexivity.
  rewrite forallb_forall in Hall.
  rewrite <- (Z2Nat.id n) by lia.
  apply Hall. apply in_seq. lia.
Qed.

Lemma all_hex_of_list l :
  Js.all_hex (string_of_list_ascii l) = forallb Js.is_hex_digit l.
Proof. induction l as [| c l IH]; simpl; [reflexivity | rewrite IH; reflexivity]. Qed.

Lemma all_hex_append a b :
  Js.all_hex (a ++ b) = Js.all_hex a && Js.all_hex b.
Proof.
  induction a as [| c a IH]; simpl; [reflexivity |].
  rewrite IH. apply andb_assoc.
Qed.

Lemma hex_of_word_all_hex x : Js.all_hex (Js.hex_of_word x) = true.
Proof.
  unfold Js.hex_of_word. rewrite all_hex_of_list.
  apply forallb_forall. intros c Hc.
  apply in_map_iff in Hc. destruct Hc as (i & <- & _).
  apply hex_digit_is_hex. apply Z.mod_pos_bound. lia.
Qed.

Lemma concat_all_hex (parts : list string) :
  (forall p, In p parts -> Js.all_hex p = true) ->
  Js.all_hex (String.concat EmptyString parts) = true.
Proof.
  induction parts as [| p rest IH]; intros H; [reflexivity |].
  destruct rest as [| q rest'].
  - simpl. apply H. left. reflexivity.
  - change (String.concat EmptyString (p :: q :: rest'))
      with (p ++ EmptyString ++ String.concat EmptyString (q :: rest')).
    rewrite !all_hex_append. rewrite (H p) by (left; reflexivity).
    rewrite IH by (intros r Hr; apply H; right; exact Hr). reflexivity.
Qed.

Lemma slice0_all_hex n s : Js.all_hex s = true -> Js.all_hex (Js.slice0 n s) = true.
Proof.
  unfold Js.slice0. revert s. induction n as [| n IH]; intros s H.
  - destruct s; reflexivity.
  - destruct s as [| c s]; [reflexivity |]. simpl in *.
    apply andb_true_iff in H. destruct H as [Hc Hs].
    rewrite Hc. simpl. apply IH. exact Hs.
Qed.

Lemma digest_hex_all_hex s : Js.all_hex (Sha256.digest_hex s) = true.
Proof.
  unfold Sha256.digest_hex. apply concat_all_hex.
  intros p Hp. apply in_map_iff in Hp. destruct Hp as (x & <- & _).
  apply hex_of_word_all_hex.
Qed.

(** No hexadecimal text is the name of a member of [Object.prototype]. *)
Lemma hex_not_inherited s :
  Js.all_hex s = true -> Js.array_includes CreateStore.Object_prototype s = false.
Proof.
  intros H. destruct (Js.array_includes _ s) eqn:E; [| reflexivity].
  unfold Js.array_includes in E. apply existsb_exists in E.
  destruct E as (k & Hin & Heq). apply String.eqb_eq in Heq. subst k.
  simpl in Hin.
  repeat (destruct Hin as [<- | Hin]; [discriminate H |]). destruct Hin.
Qed.

(** A fingerprint is sixteen hexadecimal digits at most, and so is no such
    name. *)
Lemma hashParams_not_inherited toolName params :
  Js.array_includes CreateStore.Object_prototype (CreateStore.hashParams toolName params)
  = false.
Proof.
  apply hex_not_inherited. unfold CreateStore.hashParams.
  apply slice0_all_hex, digest_hex_all_hex.
Qed.


(** ** The risk scorer and the evaluator *)

Section Scores.

Import Evaluate.

Variables (toolName : string) (params : Json.object).

Lemma clarity_infrastructure_mono c c' :
  clarity_infrastructure toolName params c = Returns c' -> c <= c'.
Proof. unfold clarity_infrastructure. scoring. Qed.

Lemma clarity_external_mono c : c <= clarity_external toolName c.
Proof. unfold clarity_external. penalties. Qed.

Lemma clarity_gateway_mono c c' :
  clarity_gateway toolName params c = Returns c' -> c <= c'.
Proof. unfold clarity_gateway. scoring. Qed.

Lemma clarity_exec_mono c c' :
  clarity_exec toolName params c = Returns c' -> c <= c'.
Proof. unfold clarity_exec. scoring. Qed.

Lemma clarity_message_mono c : c <= clarity_message toolName params c.
Proof. unfold clarity_message. penalties. Qed.

Lemma clarity_cron_mono c c' :
  clarity_cron toolName params c = Returns c' -> c <= c'.
Proof. unfold clarity_cron. scoring. Qed.

Lemma stakes_infrastructure_mono c c' :
  stakes_infrastructure toolName params c = Returns c' -> c <= c'.
Proof. unfold stakes_infrastructure. scoring. Qed.

Lemma stakes_gateway_mono c c' :
  stakes_gateway toolName params c = Returns c' -> c <= c'.
Proof. unfold stakes_gateway. scoring. Qed.

Lemma stakes_exec_mono c c' :
  stakes_exec toolName params c = Returns c' -> c <= c'.
Proof. unfold stakes_exec. scoring. Qed.

Lemma stakes_file_mono c c' :
  stakes_file toolName params c = Returns c' -> c <= c'.
Proof. unfold stakes_file. scoring. Qed.

Lemma stakes_message_mono c : c <= stakes_message toolName c.
Proof. unfold stakes_message. penalties. Qed.

Lemma stakes_cron_mono c c' :
  stakes_cron toolName params c = Returns c' -> c <= c'.
Proof. unfold stakes_cron. scoring. Qed.

(** A clarity that is returned is at least 1 and at most 10. *)
Lemma assessClarity_range c :
  assessClarity toolName params = Returns c -> 1 <= c <= 10.
Proof.
  unfold assessClarity. intros H. cbv zeta in H.
  statement H c1 E1. statement H c3 E3. statement H c4 E4. statement H c6 E6.
  injection H as <-.
  apply clarity_infrastructure_mono in E1. apply clarity_gateway_mono in E3.
  apply clarity_exec_mono in E4. apply clarity_cron_mono in E6.
  pose proof (clarity_external_mono c1).
  pose proof (clarity_message_mono c4).
  lia.
Qed.

Lemma assessStakes_range s :
  assessStakes toolName params = Returns s -> 1 <= s <= 10.
Proof.
  unfold assessStakes. intros H. cbv zeta in H.
  statement H c1 E1. statement H c2 E2. statement H c3 E3. statement H c4 E4.
  statement H c6 E6. injection H as <-.
  apply stakes_infrastructure_mono in E1. apply stakes_gateway_mono in E2.
  apply stakes_exec_mono in E3. apply stakes_file_mono in E4.
  apply stakes_cron_mono in E6.
  pose proof (stakes_message_mono c4).
  lia.
Qed.

(** Past the intrinsic-evil gate, with both scores returned, the debug line
    is written and the score is compared with the threshold; an escalation
    needs its reason built. *)
Lemma evaluate_scored ctx config logger w c s :
  checkIntrinsicEvil toolName params = Returns None ->
  assessClarity toolName params = Returns c ->
  assessStakes toolName params = Returns s ->
  evaluate toolName params ctx config logger w
  = let w' := (Host.log_debug logger
                 ("[GA] " ++ toolName ++ ": clarity=" ++ Js.string_of_Z c
                  ++ " stakes=" ++ Js.string_of_Z s
                  ++ " score=" ++ Js.string_of_Z (c * s)
                  ++ " threshold=" ++ Js.string_of_Z (threshold_of config)) w).2 in
    if threshold_of config <=? c * s then
      match buildEscalationReason toolName params c s (c * s) with
      | Returns why =>
          (Returns {| decision := Decision.escalate; reason := Some why;
                      clarity := Some c; stakes := Some s |}, w')
      | Throws => (Throws, w')
      end
    else (Returns {| decision := Decision.allow; reason := None;
                     clarity := Some c; stakes := Some s |}, w').
Proof.
  intros Hnone Hc Hs. unfold evaluate. rewrite Hnone, Hc, Hs.
  unfold Host.bind. cbv zeta.
  destruct (threshold_of config <=? c * s);
    [destruct (buildEscalationReason toolName params c s (c * s)) |]; reflexivity.
Qed.

(** A verdict the evaluator returns past the intrinsic-evil gate is the
    comparison of the score with the threshold, and carries the scores. *)
Lemma evaluate_decision ctx config logger w c s result :
  checkIntrinsicEvil toolName params = Returns None ->
  assessClarity toolName params = Returns c ->
  assessStakes toolName params = Returns s ->
  (evaluate toolName params ctx config logger w).1 = Returns result ->
  decision result
  = (if threshold_of config <=? c * s then Decision.escalate else Decision.allow)
  /\ clarity result = Some c /\ stakes result = Some s.
Proof.
  intros Hnone Hc Hs. rewrite (evaluate_scored _ _ _ _ _ _ Hnone Hc Hs). cbv zeta.
  destruct (threshold_of config <=? c * s);
    [destruct (buildEscalationReason toolName params c s (c * s)) |];
    cbn [fst]; intros [= <-]; auto.
Qed.

(** A match of the intrinsic-evil gate is a block, whatever the scores. *)
Lemma evaluate_block ctx config logger w why :
  checkIntrinsicEvil toolName params = Returns (Some why) ->
  evaluate toolName params ctx config logger w
  = (Returns {| decision := Decision.block; reason := Some why;
                clarity := None; stakes := None |}, w).
Proof. intros H. unfold evaluate. rewrite H. reflexivity. Qed.

End Scores.

(** ** The conversions that return *)

Section Printable.

Import Json.

(** [String] returns for a printable value. *)
Lemma printable_returns : forall v, printable v = true -> exists text, to_String v = Returns text.
Proof.
  fix IH 1. intros [| [|] | n | s | items | members] H;
    try (eexists; reflexivity).
  - cbn [to_String]. cbn [printable] in H.
    assert (Hall : exists texts,
               (fix elements (xs : list value) : Completion (list string) :=
                  match xs with
                  | [] => Returns []
                  | x :: rest =>
                      let! text := match x with
                                   | Null => Returns EmptyString
                                   | _ => to_String x
                                   end in
                      let! texts := elements rest in
                      Returns (text :: texts)
                  end) items = Returns texts).
    { induction items as [| x rest IHrest]; [eexists; reflexivity |].
      apply andb_true_iff in H. destruct H as [Hx Hrest].
      destruct (IHrest Hrest) as [texts ->].
      destruct (IH x Hx) as [tx Hx'].
      destruct x; try (rewrite Hx'); cbn [and_then]; eexists; reflexivity. }
    destruct Hall as [texts ->]. cbn [and_then]. eexists; reflexivity.
  - cbn [to_String]. cbn [printable] in H.
    apply negb_true_iff in H. rewrite H. eexists; reflexivity.
Qed.

(** And for none else. *)
Lemma unprintable_throws : forall v, printable v = false -> to_String v = Throws.
Proof.
  fix IH 1. intros [| [|] | n | s | items | members] H; try discriminate H.
  - cbn [to_String]. cbn [printable] in H.
    assert (Hall :
               (fix elements (xs : list value) : Completion (list string) :=
                  match xs with
                  | [] => Returns []
                  | x :: rest =>
                      let! text := match x with
                                   | Null => Returns EmptyString
                                   | _ => to_String x
                                   end in
                      let! texts := elements rest in
                      Returns (text :: texts)
                  end) items = Throws).
    { induction items as [| x rest IHrest]; [discriminate H |].
      apply andb_false_iff in H. destruct H as [Hx | Hrest].
      - rewrite (IH x Hx). destruct x; try discriminate Hx; reflexivity.
      - rewrite (IHrest Hrest).
        destruct (match x with Null => Returns EmptyString | _ => to_String x end);
          reflexivity. }
    rewrite Hall. reflexivity.
  - cbn [to_String]. cbn [printable] in H.
    apply negb_false_iff in H. rewrite H. reflexivity.
Qed.

(** What is read off a printable parameter object is printable. *)
Lemma get_printable o k : printable_object o = true -> printable_read (get o k) = true.
Proof.
  unfold printable_object. induction o as [| [k' v] rest IH]; intros H; [reflexivity |].
  cbn [forallb snd] in H. apply andb_true_iff in H. destruct H as [Hv Hrest].
  cbn [get]. destruct (String.eqb k k'); [exact Hv | exact (IH Hrest)].
Qed.

Lemma or_printable a b :
  printable_read a = true -> printable_read b = true -> printable_read (or a b) = true.
Proof. unfold or. destruct (truthy a); auto. Qed.

Lemma String_or_empty_returns v :
  printable_read v = true -> exists text, String_or_empty v = Returns text.
Proof.
  intros H. unfold String_or_empty.
  pose proof (or_printable v (Some (Str EmptyString)) H eq_refl) as Hor.
  destruct (or v (Some (Str EmptyString))) as [x|]; [| eexists; reflexivity].
  apply printable_returns. exact Hor.
Qed.

End Printable.

(** The conversions of a statement over a printable parameter object, each
    replaced by the text it returns. *)
Ltac conversions Hp :=
  repeat match goal with
         | |- context [Json.String_or_empty ?v] =>
             let text := fresh "text" in
             let E := fresh "E" in
             destruct (String_or_empty_returns v) as [text E];
             [ repeat first [ apply or_printable | apply get_printable; exact Hp ]
             | rewrite E; cbn [and_then] ]
         end.

Ltac returned :=
  repeat first [ eexists; reflexivity
               | match goal with
                 | |- context [if ?b then _ else _] => destruct b; cbn [and_then]
                 end ].

Section Returned.

Import Evaluate.

Variables (toolName : string) (params : Json.object).
Hypothesis Hp : Json.printable_object params = true.

Lemma checkIntrinsicEvil_returns :
  exists why, checkIntrinsicEvil toolName params = Returns why.
Proof.
  unfold checkIntrinsicEvil.
  destruct (String.eqb toolName "exec"); [| eexists; reflexivity].
  conversions Hp.
  repeat match goal with
         | |- context [if ?b then _ else _] => destruct b
         end; try (eexists; reflexivity).
  destruct (promptContent text); eexists; reflexivity.
Qed.

Lemma assessClarity_returns : exists c, assessClarity toolName params = Returns c.
Proof.
  unfold assessClarity, clarity_infrastructure, clarity_gateway, clarity_exec,
    clarity_cron.
  cbv zeta.
  destruct (Js.array_includes INFRASTRUCTURE_TOOLS toolName);
    destruct (String.eqb toolName "exec");
    destruct (String.eqb toolName "gateway");
    destruct (String.eqb toolName "cron");
    cbn [and_then]; conversions Hp; returned;
    destruct (_ || _); cbn [and_then]; conversions Hp; returned.
Qed.

Lemma assessStakes_returns : exists s, assessStakes toolName params = Returns s.
Proof.
  unfold assessStakes, stakes_infrastructure, stakes_gateway, stakes_exec,
    stakes_file, stakes_cron.
  cbv zeta.
  destruct (Js.array_includes INFRASTRUCTURE_TOOLS toolName);
    destruct (String.eqb toolName "exec");
    destruct (String.eqb toolName "gateway");
    destruct (String.eqb toolName "Write" || String.eqb toolName "Edit");
    destruct (String.eqb toolName "cron");
    cbn [and_then]; conversions Hp; returned;
    destruct (_ || _); cbn [and_then]; conversions Hp; returned.
Qed.

Lemma buildEscalationReason_returns c s score :
  exists why, buildEscalationReason toolName params c s score = Returns why.
Proof.
  unfold buildEscalationReason, reason_gateway, reason_exec, reason_message.
  destruct (String.eqb toolName "gateway"); destruct (String.eqb toolName "exec");
    destruct (String.eqb toolName "message");
    cbn [and_then]; conversions Hp; try (eexists; reflexivity);
    (pose proof (or_printable _ _
                   (or_printable _ _ (get_printable params "to" Hp)
                                     (get_printable params "target" Hp))
                   (get_printable params "targets" Hp)) as Hto;
     destruct (Json.or _ (Json.get params "targets")) as [v|];
     [| eexists; reflexivity];
     destruct (Json.truthy (Some v)); [| eexists; reflexivity];
     destruct (printable_returns v Hto) as [recipient ->]; eexists; reflexivity).
Qed.

(** The evaluator returns a verdict for a printable parameter object. *)
Lemma evaluate_returns ctx config logger w :
  exists result, (evaluate toolName params ctx config logger w).1 = Returns result.
Proof.
  destruct checkIntrinsicEvil_returns as [[why|] Hcheck].
  - rewrite (evaluate_block _ _ _ _ _ _ _ Hcheck). eexists; reflexivity.
  - destruct assessClarity_returns as [c Hc]. destruct assessStakes_returns as [s Hs].
    rewrite (evaluate_scored _ _ _ _ _ _ _ _ Hcheck Hc Hs). cbv zeta.
    destruct (buildEscalationReason_returns c s (c * s)) as [why ->].
    destruct (_ <=? _); eexists; reflexivity.
Qed.

End Returned.

(** C7, as the code has it.  Whenever [assessClarity] and [assessStakes]
    return, each returns an integer between 1 and 10, so the score, their
    product, is between 1 and 100; and whenever the intrinsic-evil check
    does not match and [evaluate] returns, its verdict is escalate exactly
    when the score reaches the configured threshold (36 when none is
    configured) and allow otherwise, and it carries the two scores.  All of
    them return for every parameter set whose members are printable: no
    object with a member of its own named [toString], at the top or inside
    an array. *)
Theorem scores_in_range_and_threshold_decides_C7 :
  forall (toolName : string) (params : Json.object) (ctx : ToolContext)
         (config : GuardianAngelConfig) (logger : PluginLogger) (w : Host.World),
    (forall c, Evaluate.assessClarity toolName params = Returns c -> 1 <= c <= 10)
    /\ (forall s, Evaluate.assessStakes toolName params = Returns s -> 1 <= s <= 10)
    /\ (forall c s result,
           Evaluate.checkIntrinsicEvil toolName params = Returns None ->
           Evaluate.assessClarity toolName params = Returns c ->
           Evaluate.assessStakes toolName params = Returns s ->
           (Evaluate.evaluate toolName params ctx config logger w).1 = Returns result ->
           1 <= c * s <= 100
           /\ decision result
              = (if match escalationThreshold config with
                    | Some threshold => threshold
                    | None => 36
                    end <=? c * s
                 then Decision.escalate else Decision.allow)
           /\ clarity result = Some c /\ stakes result = Some s)
    /\ (Json.printable_object params = true ->
        exists c s why result,
          Evaluate.assessClarity toolName params = Returns c
          /\ Evaluate.assessStakes toolName params = Returns s
          /\ Evaluate.checkIntrinsicEvil toolName params = Returns why
          /\ (Evaluate.evaluate toolName params ctx config logger w).1 = Returns result).
Proof.
  intros toolName params ctx config logger w.
  split; [apply assessClarity_range |]. split; [apply assessStakes_range |].
  split.
  - intros c s result Hnone Hc Hs Hresult.
    pose proof (assessClarity_range _ _ _ Hc). pose proof (assessStakes_range _ _ _ Hs).
    split; [nia |].
    exact (evaluate_decision _ _ ctx config logger w _ _ _ Hnone Hc Hs Hresult).
  - intros Hp.
    destruct (assessClarity_returns toolName params Hp) as [c Hc].
    destruct (assessStakes_returns toolName params Hp) as [s Hs].
    destruct (checkIntrinsicEvil_returns toolName params Hp) as [why Hwhy].
    destruct (evaluate_returns toolName params Hp ctx config logger w) as [result Hr].
    exists c, s, why, result. auto.
Qed.

(** The witness of C7: the gateway scenario of the specification, whose
    scores are 9 and 9, and whose verdict under the default threshold is
    escalate.  A call with no penalty scores 1, and the stakes of a shutdown
    under [sudo], 4 + 5 + 2, are cut off at 10. *)
Lemma scores_in_range_and_threshold_decides_C7_witness :
  Evaluate.assessClarity "memory_search" [] = Returns 1
  /\ Evaluate.assessStakes "exec" Cases.shutdown_plain = Returns 10
  /\ Json.printable_object Sample.config_apply = true
  /\ Evaluate.checkIntrinsicEvil "gateway" Sample.config_apply = Returns None
  /\ Evaluate.assessClarity "gateway" Sample.config_apply = Returns 9
  /\ Evaluate.assessStakes "gateway" Sample.config_apply = Returns 9
  /\ 1 <= 9 * 9 <= 100
  /\ decision <$> (Evaluate.evaluate "gateway" Sample.config_apply (Sample.ctx "gateway")
                     no_config Sample.logger (Sample.world Host.Missing true 0)).1
     = Returns Decision.escalate.
Proof.
  split; [reflexivity |]. split; [reflexivity |].
  split; [reflexivity |]. split; [reflexivity |]. split; [reflexivity |].
  split; [reflexivity |].
  destruct (proj2 (proj2 (proj2
             (scores_in_range_and_threshold_decides_C7
                "gateway" Sample.config_apply (Sample.ctx "gateway") no_config
                Sample.logger (Sample.world Host.Missing true 0))))
             eq_refl) as (c & s & why & result & Hc & Hs & Hwhy & Hresult).
  destruct (proj1 (proj2 (proj2
             (scores_in_range_and_threshold_decides_C7
                "gateway" Sample.config_apply (Sample.ctx "gateway") no_config
                Sample.logger (Sample.world Host.Missing true 0))))
             9 9 result eq_refl eq_refl eq_refl Hresult) as (Hscore & Hdecision & _).
  split; [exact Hscore |].
  rewrite Hresult. cbn [fmap Completion_fmap]. rewrite Hdecision. reflexivity.
Defined.

(** The counterexample of C7: a [gateway] request whose [action] is an
    object with a member of its own named [toString] gets no score from
    either scorer and no verdict from the evaluator; a [message] to such a
    recipient, whose scores 4 and 3 reach a threshold of 1, gets no verdict
    either; and an [exec] whose [command] is an array that holds such an
    object gets no score: the conversion throws. *)
Lemma scores_in_range_and_threshold_decides_C7_counterexample :
  Json.get Cases.gateway_unprintable "action"
  = Some (Json.Obj [("toString", Json.Num 1)])
  /\ Evaluate.assessClarity "gateway" Cases.gateway_unprintable = Throws
  /\ Evaluate.assessStakes "gateway" Cases.gateway_unprintable = Throws
  /\ (Evaluate.evaluate "gateway" Cases.gateway_unprintable (Sample.ctx "gateway")
        no_config Sample.logger Sample.fresh).1 = Throws
  /\ Evaluate.checkIntrinsicEvil "message" Cases.message_unprintable = Returns None
  /\ Evaluate.assessClarity "message" Cases.message_unprintable = Returns 4
  /\ Evaluate.assessStakes "message" Cases.message_unprintable = Returns 3
  /\ (Evaluate.evaluate "message" Cases.message_unprintable (Sample.ctx "message")
        Sample.threshold_one Sample.logger Sample.fresh).1 = Throws
  /\ Evaluate.assessClarity "exec" Cases.exec_unprintable = Throws
  /\ Evaluate.assessStakes "exec" Cases.exec_unprintable = Throws.
Proof. repeat split; reflexivity. Qed.

(** ** The intrinsic-evil detector *)

Lemma blocking_reason_is_about_an_image prompt cc :
  Evaluate.checkImagePromptContent prompt = Some cc ->
  Evaluate.cc_block cc = true ->
  exists category,
    Evaluate.cc_reason cc = "Image request contains " ++ category ++ " (violation of dignity)".
Proof.
  unfold Evaluate.checkImagePromptContent.
  destruct (find _ Evaluate.HARMFUL_IMAGE_PATTERNS) as [[? category]|].
  - intros [= <-] _. exists category. reflexivity.
  - destruct (find _ Evaluate.CONCERNING_IMAGE_PATTERNS) as [[? why]|].
    + intros [= <-]. discriminate.
    + discriminate.
Qed.

(** When the lower-cased command names "rm -rf /tmp", the first test of
    [checkIntrinsicEvil] is false and the root-filesystem reason is not
    what a later test answers. *)
Lemma tmp_never_root_reason toolName params cmd :
  Json.String_or_empty (Json.get params "command") = Returns cmd ->
  Js.includes (Js.toLowerCase cmd) "rm -rf /tmp" = true ->
  Evaluate.checkIntrinsicEvil toolName params
  <> Returns (Some "Command would destroy root filesystem").
Proof.
  intros Hcmd Htmp. unfold Evaluate.checkIntrinsicEvil.
  destruct (String.eqb toolName "exec"); [| discriminate].
  rewrite Hcmd. cbn [and_then].
  rewrite Htmp. rewrite andb_false_r.
  repeat match goal with
         | |- (if ?b then _ else _) <> _ => destruct b; try discriminate
         end.
  unfold Evaluate.promptContent.
  destruct (Evaluate.nonempty _) as [prompt|]; [| discriminate].
  destruct (Evaluate.checkImagePromptContent prompt) as [cc|] eqn:Hcc; [| discriminate].
  destruct (Evaluate.cc_block cc) eqn:Hb; [| discriminate].
  destruct (blocking_reason_is_about_an_image _ _ Hcc Hb) as (category & ->).
  discriminate.
Qed.

(** Nor is it what a check answers whose conversion throws. *)
Lemma thrown_never_root_reason toolName params :
  Json.String_or_empty (Json.get params "command") = Throws ->
  Evaluate.checkIntrinsicEvil toolName params
  <> Returns (Some "Command would destroy root filesystem").
Proof.
  intros Hcmd. unfold Evaluate.checkIntrinsicEvil.
  destruct (String.eqb toolName "exec"); [| discriminate].
  rewrite Hcmd. discriminate.
Qed.

(** C9.  For every command whose lower-cased text contains "rm -rf /tmp",
    [checkIntrinsicEvil] does not answer with the root-filesystem block, also
    when the command deletes the root as well (nor does it for a command
    that has no text): for "rm -rf /tmp/x; rm -rf /" it answers nothing,
    and [evaluate] does not block that command. *)
Theorem rm_rf_tmp_hides_root_delete_C9 :
  (forall (toolName : string) (params : Json.object) (cmd : string),
      Json.String_or_empty (Json.get params "command") = Returns cmd ->
      Js.includes (Js.toLowerCase cmd) "rm -rf /tmp" = true ->
      Evaluate.checkIntrinsicEvil toolName params
      <> Returns (Some "Command would destroy root filesystem"))
  /\ (forall (toolName : string) (params : Json.object),
         Json.String_or_empty (Json.get params "command") = Throws ->
         Evaluate.checkIntrinsicEvil toolName params
         <> Returns (Some "Command would destroy root filesystem"))
  /\ Evaluate.checkIntrinsicEvil "exec" Sample.rm_tmp_then_root = Returns None
  /\ (forall ctx config logger w,
         decision <$> (Evaluate.evaluate "exec" Sample.rm_tmp_then_root ctx config
                         logger w).1
         <> Returns Decision.block).
Proof.
  split; [exact tmp_never_root_reason |]. split; [exact thrown_never_root_reason |].
  split; [reflexivity |].
  intros ctx config logger w.
  destruct (evaluate_returns "exec" Sample.rm_tmp_then_root eq_refl ctx config logger w)
    as [result Hresult].
  destruct (assessClarity_returns "exec" Sample.rm_tmp_then_root eq_refl) as [c Hc].
  destruct (assessStakes_returns "exec" Sample.rm_tmp_then_root eq_refl) as [s Hs].
  destruct (evaluate_decision "exec" Sample.rm_tmp_then_root ctx config logger w
              _ _ _ eq_refl Hc Hs Hresult) as (Hd & _).
  rewrite Hresult. cbn [fmap Completion_fmap]. rewrite Hd.
  destruct (_ <=? _); discriminate.
Qed.

(** The witness of C9: the compound command itself. *)
Lemma rm_rf_tmp_hides_root_delete_C9_witness :
  Json.String_or_empty (Json.get Sample.rm_tmp_then_root "command")
  = Returns "rm -rf /tmp/x; rm -rf /"
  /\ Js.includes (Js.toLowerCase "rm -rf /tmp/x; rm -rf /") "rm -rf /" = true
  /\ Js.includes (Js.toLowerCase "rm -rf /tmp/x; rm -rf /") "rm -rf /tmp" = true
  /\ Evaluate.checkIntrinsicEvil "exec" Sample.rm_tmp_then_root
     <> Returns (Some "Command would destroy root filesystem").
Proof.
  split; [reflexivity |]. split; [reflexivity |]. split; [reflexivity |].
  exact (proj1 rm_rf_tmp_hides_root_delete_C9 "exec" Sample.rm_tmp_then_root
           "rm -rf /tmp/x; rm -rf /" eq_refl eq_refl).
Defined.

(** ** The host's primitives *)

Section HostFacts.

Import Host CreateStore.

Lemma Date_now_reading w : (Date_now w).1 = clock w (ticks w).
Proof. reflexivity. Qed.

Lemma load_world w : (load w).2 = w.
Proof. reflexivity. Qed.

Lemma load_only_reads_file w w' : file w' = file w -> (load w').1 = (load w).1.
Proof. unfold load. intros ->. reflexivity. Qed.

(** A write that succeeds replaces the document; one that fails leaves it
    and prints a line on the console. *)
Lemma save_writable st w :
  writable w = true -> save st w = (tt, set_file (Holds st) w).
Proof. unfold save. intros ->. reflexivity. Qed.

Lemma save_failed st w :
  writable w = false ->
  file (save st w).2 = file w
  /\ console (save st w).2 = "[GA] Failed to save store:" :: console w.
Proof. unfold save. intros ->. split; reflexivity. Qed.

Lemma load_after_save st w :
  writable w = true -> (load (save st w).2).1 = st.
Proof. intros H. rewrite save_writable by exact H. reflexivity. Qed.

Lemma get_own {A} (o : gmap string A) k a : o !! k = Some a -> get o k = Own a.
Proof. unfold get. intros ->. reflexivity. Qed.

Lemma get_undefined {A} (o : gmap string A) k :
  o !! k = None -> Js.array_includes Object_prototype k = false -> get o k = Undefined.
Proof. unfold get. intros -> ->. reflexivity. Qed.

Lemma get_inherited {A} (o : gmap string A) k :
  o !! k = None -> Js.array_includes Object_prototype k = true -> get o k = Inherited.
Proof. unfold get. intros -> ->. reflexivity. Qed.

Lemma set_lookup {A} (o : gmap string A) k v :
  k <> "__proto__" -> set o k v !! k = Some v.
Proof.
  intros Hk. unfold set.
  destruct (String.eqb k "__proto__") eqn:E.
  - apply String.eqb_eq in E. contradiction.
  - apply lookup_insert_eq.
Qed.

End HostFacts.

(** ** The store's operations, case by case *)

Section StoreCases.

Import Host CreateStore.

Variable config : GuardianAngelConfig.

(** [approvePending]: nothing under the nonce. *)
Lemma approvePending_undefined nonce w :
  get (pending (load w).1) nonce = Undefined ->
  approvePending config nonce w = (ok_false NotFound, w).
Proof.
  intros H. unfold approvePending, bind, load in *. simpl in *.
  rewrite H. reflexivity.
Qed.

(** [approvePending]: something under the nonce (a record, or a member of
    [Object.prototype]).  Three readings of the clock are taken when the
    approval goes through, one when the escalation has expired. *)
Lemma approvePending_found nonce w :
  get (pending (load w).1) nonce <> Undefined ->
  let st := (load w).1 in
  let found := get (pending st) nonce in
  approvePending config nonce w
  = if gt (clock w (ticks w)) (field PendingEscalation.expiresAt found)
    then (ok_false Expired,
          (save {| pending := delete nonce (pending st); approved := approved st |}
                (Date_now w).2).2)
    else (ok_true (Js.round_div (approvalWindow config) 1000),
          (save {| pending := delete nonce (pending st);
                   approved :=
                     set (approved st) (key_of (field PendingEscalation.paramsHash found))
                       {| ApprovedAction.nonce := nonce;
                          ApprovedAction.paramsHash :=
                            field PendingEscalation.paramsHash found;
                          ApprovedAction.toolName :=
                            field PendingEscalation.toolName found;
                          ApprovedAction.approvedAt := clock w (S (ticks w));
                          ApprovedAction.expiresAt :=
                            clock w (S (S (ticks w))) + approvalWindow config |} |}
                (Date_now (Date_now (Date_now w).2).2).2).2).
Proof.
  intros Hfound st found. subst st found.
  unfold approvePending, bind, load in *. simpl in *.
  destruct (get _ nonce) as [p | |]; [| | contradiction]; simpl.
  - destruct (PendingEscalation.expiresAt p <? clock w (ticks w)); reflexivity.
  - reflexivity.
Qed.

(** [consumeApproval]: nothing under the fingerprint. *)
Lemma consumeApproval_undefined paramsHash w :
  get (approved (load w).1) paramsHash = Undefined ->
  consumeApproval paramsHash w = (None, w).
Proof.
  intros H. unfold consumeApproval, bind, load in *. simpl in *.
  rewrite H. reflexivity.
Qed.

(** [consumeApproval]: something under the fingerprint.  It is deleted
    either way; its nonce is returned unless it has expired. *)
Lemma consumeApproval_found paramsHash w :
  get (approved (load w).1) paramsHash <> Undefined ->
  let st := (load w).1 in
  let found := get (approved st) paramsHash in
  consumeApproval paramsHash w
  = (if gt (clock w (ticks w)) (field ApprovedAction.expiresAt found)
     then None
     else Some {| approval_nonce := field ApprovedAction.nonce found |},
     (save {| pending := pending st; approved := delete paramsHash (approved st) |}
           (Date_now w).2).2).
Proof.
  intros Hfound st found. subst st found.
  unfold consumeApproval, bind, load in *. simpl in *.
  destruct (get _ paramsHash) as [a | |]; [| | contradiction]; simpl.
  - destruct (ApprovedAction.expiresAt a <? clock w (ticks w)); reflexivity.
  - reflexivity.
Qed.

(** [createPending] draws the nonce, reads the clock twice and saves. *)
Lemma createPending_result paramsHash toolName params w :
  let st := (load w).1 in
  let nonce := Js.hex_of_word (Sha256.w32 (random w (draws w))) in
  createPending config paramsHash toolName params w
  = (nonce,
     (save {| pending :=
                set (pending st) nonce
                  {| PendingEscalation.nonce := nonce;
                     PendingEscalation.paramsHash := paramsHash;
                     PendingEscalation.toolName := toolName;
                     PendingEscalation.params := params;
                     PendingEscalation.createdAt := clock w (ticks w);
                     PendingEscalation.expiresAt :=
                       clock w (S (ticks w)) + pendingTimeout config |};
              approved := approved st |}
           (Date_now (Date_now (randomBytes4_hex w).2).2).2).2).
Proof. reflexivity. Qed.

End StoreCases.

(** ** The gate, step by step *)

Section Gate.

Import Host CreateStore.

(** With no live approval under the fingerprint, [consumeApproval] returns
    [null]; it may delete an expired record, but it leaves the pending
    escalations, the random source and the logger alone. *)
Lemma consume_without_live_approval fp w :
  Js.array_includes Object_prototype fp = false ->
  (forall a, approved (load w).1 !! fp = Some a ->
             ApprovedAction.expiresAt a < clock w (ticks w)) ->
  let r := consumeApproval fp w in
  r.1 = None
  /\ pending (load r.2).1 = pending (load w).1
  /\ draws r.2 = draws w
  /\ logged r.2 = logged w.
Proof.
  intros Hname Hstale r. subst r.
  destruct (approved (load w).1 !! fp) as [a |] eqn:Ha.
  - rewrite consumeApproval_found by (rewrite (get_own _ _ _ Ha); discriminate).
    cbv zeta. rewrite (get_own _ _ _ Ha). cbn [field gt].
    replace (ApprovedAction.expiresAt a <? clock w (ticks w)) with true
      by (symmetry; apply Z.ltb_lt, Hstale; reflexivity).
    cbn [fst snd]. split; [reflexivity |].
    unfold save. cbn [writable Date_now snd].
    destruct (writable w); split; try reflexivity; split; reflexivity.
  - rewrite consumeApproval_undefined by (apply get_undefined; assumption).
    auto.
Qed.

(** The gate past its first two steps, for a call that is not exempt. *)
Lemma gate_steps_3_to_5 config logger toolName params w :
  enabled config <> Some false ->
  Js.array_includes (Hook.list_or_empty (neverBlock config)) toolName = false ->
  before_tool_call config logger toolName params w
  = let paramsHash := hashParams toolName params in
    let c := consumeApproval paramsHash w in
    match c.1 with
    | Some approval =>
        (Returns None,
         (log info ("[GA] " ++ toolName ++ ": approved via nonce "
                    ++ Hook.show (approval_nonce approval)) c.2).2)
    | None =>
        if Js.array_includes (Hook.list_or_empty (alwaysBlock config)) toolName then
          let e := Hook.escalate toolName params paramsHash (methods config) logger
                     ("Tool '" ++ toolName
                      ++ "' requires explicit approval per configuration") c.2 in
          (Returns (Some e.1), e.2)
        else
          let v := Evaluate.evaluate toolName params
                     {| agentId := None; sessionKey := None; ctx_toolName := toolName |}
                     config logger c.2 in
          match v.1 with
          | Throws => (Throws, v.2)
          | Returns result =>
              match decision result with
              | Decision.allow =>
                  (Returns None,
                   (log_debug logger
                      ("[GA] " ++ toolName ++ ": virtues aligned (score="
                       ++ Js.string_of_Z (Js.num_or (clarity result) 1
                                          * Js.num_or (stakes result) 1)
                       ++ "), allowing") v.2).2)
              | Decision.block =>
                  (Returns (Some {| Hook.result_params := None;
                                    Hook.block := Some true;
                                    Hook.blockReason :=
                                      Some ("GUARDIAN_ANGEL_BLOCK|"
                                            ++ Hook.show (reason result)) |}),
                   (log warn ("[GA] " ++ toolName ++ ": BLOCKED ("
                              ++ Hook.show (reason result) ++ ")") v.2).2)
              | Decision.escalate =>
                  let e := Hook.escalate toolName params paramsHash (methods config)
                             logger
                             (Hook.string_or (reason result)
                                "High-stakes action requires approval") v.2 in
                  (Returns (Some e.1), e.2)
              end
          end
    end.
Proof.
  intros Hon Hnever.
  unfold before_tool_call, Hook.createBeforeToolCallHandler.
  cbn [Hook.toolName Hook.params Store.hashParams Store.consumeApproval methods].
  rewrite Hnever. cbv zeta.
  assert (Hsame : forall (A : Type) (x y : A),
             match enabled config with Some false => x | _ => y end = y).
  { intros A x y. destruct (enabled config) as [[|]|]; try reflexivity.
    exfalso. apply Hon. reflexivity. }
  rewrite Hsame. unfold bind at 1. cbv zeta.
  destruct (consumeApproval (hashParams toolName params) w).1; [reflexivity |].
  destruct (Js.array_includes (Hook.list_or_empty (alwaysBlock config)) toolName);
    [reflexivity |].
  unfold bind at 1. cbv zeta.
  destruct (Evaluate.evaluate _ _ _ _ _ _).1 as [result|]; [| reflexivity].
  destruct (decision result); reflexivity.
Qed.

End Gate.

(** ** The escalation store *)

Section StoreProperties.

Import Host CreateStore.

(** What a store operation leaves on disk when its write succeeds. *)
Lemma saved_after_one_reading st w :
  writable w = true -> (load (save st (Date_now w).2).2).1 = st.
Proof. intros H. apply load_after_save. exact H. Qed.

Lemma saved_after_three_readings st w :
  writable w = true ->
  (load (save st (Date_now (Date_now (Date_now w).2).2).2).2).1 = st.
Proof. intros H. apply load_after_save. exact H. Qed.

End StoreProperties.

(** A live approval under a key that names nothing inherited is returned
    and deleted by the first [consumeApproval]; the second finds nothing and
    changes nothing. *)
Lemma live_approval_is_consumed_once w key a :
  approved (CreateStore.load w).1 !! key = Some a ->
  Host.clock w (Host.ticks w) <= ApprovedAction.expiresAt a ->
  Js.array_includes CreateStore.Object_prototype key = false ->
  Host.writable w = true ->
  let first := CreateStore.consumeApproval key w in
  first.1 = Some {| approval_nonce := Some (ApprovedAction.nonce a) |}
  /\ (CreateStore.load first.2).1
     = {| pending := pending (CreateStore.load w).1;
          approved := delete key (approved (CreateStore.load w).1) |}
  /\ CreateStore.consumeApproval key first.2 = (None, first.2).
Proof.
  intros Ha Hlive Hname Hw first.
  assert (Hfirst : first
                   = (Some {| approval_nonce := Some (ApprovedAction.nonce a) |},
                      (CreateStore.save
                         {| pending := pending (CreateStore.load w).1;
                            approved := delete key (approved (CreateStore.load w).1) |}
                         (Host.Date_now w).2).2)).
  { subst first.
    rewrite consumeApproval_found by (rewrite (get_own _ _ _ Ha); discriminate).
    cbv zeta. rewrite (get_own _ _ _ Ha). cbn [CreateStore.field CreateStore.gt].
    replace (ApprovedAction.expiresAt a <? Host.clock w (Host.ticks w)) with false
      by (symmetry; apply Z.ltb_ge; exact Hlive).
    reflexivity. }
  assert (Hstate : (CreateStore.load first.2).1
                   = {| pending := pending (CreateStore.load w).1;
                        approved := delete key (approved (CreateStore.load w).1) |}).
  { rewrite Hfirst. cbn [snd]. apply saved_after_one_reading. exact Hw. }
  split; [rewrite Hfirst; reflexivity |]. split; [exact Hstate |].
  apply consumeApproval_undefined. apply get_undefined; [| exact Hname].
  rewrite Hstate. cbn [approved]. apply lookup_delete_eq.
Qed.




(** C6, as the code has it.  No expired record grants anything, and the
    access that finds it removes it when the write of the store succeeds.
    For every pending escalation whose deadline has passed
    ([now > expiresAt]), [approvePending] fails with the Expired error and
    stores no approval; for every approved action whose deadline has passed,
    [consumeApproval] returns [null].  In both cases the state that is
    written back is the loaded one without the record; where the write
    fails, the store file keeps the record. *)
Theorem expired_records_are_refused_and_removed_C6 :
  forall (config : GuardianAngelConfig) (w : Host.World),
    let st := (CreateStore.load w).1 in
    let now := Host.clock w (Host.ticks w) in
    (forall (nonce : string) (p : PendingEscalation.t),
        pending st !! nonce = Some p ->
        PendingEscalation.expiresAt p < now ->
        let r := CreateStore.approvePending config nonce w in
        r.1 = ok_false CreateStore.Expired
        /\ (Host.writable w = true ->
            (CreateStore.load r.2).1
            = {| pending := delete nonce (pending st); approved := approved st |}
            /\ pending (CreateStore.load r.2).1 !! nonce = None)
        /\ (Host.writable w = false -> (CreateStore.load r.2).1 = st))
    /\
    (forall (fingerprint : string) (a : ApprovedAction.t),
        approved st !! fingerprint = Some a ->
        ApprovedAction.expiresAt a < now ->
        let r := CreateStore.consumeApproval fingerprint w in
        r.1 = None
        /\ (Host.writable w = true ->
            (CreateStore.load r.2).1
            = {| pending := pending st; approved := delete fingerprint (approved st) |}
            /\ approved (CreateStore.load r.2).1 !! fingerprint = None)
        /\ (Host.writable w = false -> (CreateStore.load r.2).1 = st)).
Proof.
  intros config w st now. subst st now. split.
  - intros nonce p Hp Hexp r. subst r.
    rewrite approvePending_found by (rewrite (get_own _ _ _ Hp); discriminate).
    cbv zeta. rewrite (get_own _ _ _ Hp). cbn [CreateStore.field CreateStore.gt].
    replace (PendingEscalation.expiresAt p <? Host.clock w (Host.ticks w)) with true
      by (symmetry; apply Z.ltb_lt; exact Hexp).
    cbn [fst snd]. split; [reflexivity |]. split.
    + intros Hw. rewrite saved_after_one_reading by exact Hw.
      split; [reflexivity |]. simpl. apply lookup_delete_eq.
    + intros Hw. apply load_only_reads_file.
      apply (save_failed _ (Host.Date_now w).2). exact Hw.
  - intros fp a Ha Hexp r. subst r.
    rewrite consumeApproval_found by (rewrite (get_own _ _ _ Ha); discriminate).
    cbv zeta. rewrite (get_own _ _ _ Ha). cbn [CreateStore.field CreateStore.gt].
    replace (ApprovedAction.expiresAt a <? Host.clock w (Host.ticks w)) with true
      by (symmetry; apply Z.ltb_lt; exact Hexp).
    cbn [fst snd]. split; [reflexivity |]. split.
    + intros Hw. rewrite saved_after_one_reading by exact Hw.
      split; [reflexivity |]. simpl. apply lookup_delete_eq.
    + intros Hw. apply load_only_reads_file.
      apply (save_failed _ (Host.Date_now w).2). exact Hw.
Qed.

(** The witness of C6: at time 100, an escalation and an approval that both
    expired at 50. *)
Lemma expired_records_are_refused_and_removed_C6_witness :
  (CreateStore.approvePending no_config "a7f3c21b" Sample.stale_records).1
  = ok_false CreateStore.Expired
  /\ pending (CreateStore.load
                (CreateStore.approvePending no_config "a7f3c21b" Sample.stale_records).2).1
     !! "a7f3c21b" = None
  /\ (CreateStore.consumeApproval Sample.fingerprint Sample.stale_records).1 = None
  /\ approved (CreateStore.load
                 (CreateStore.consumeApproval Sample.fingerprint Sample.stale_records).2).1
     !! Sample.fingerprint = None.
Proof.
  pose proof (expired_records_are_refused_and_removed_C6 no_config Sample.stale_records)
    as [Hp Ha].
  assert (H1 : pending (CreateStore.load Sample.stale_records).1 !! "a7f3c21b"
               = Some (Sample.pending_record 50))
    by apply lookup_singleton_eq.
  assert (H2 : approved (CreateStore.load Sample.stale_records).1 !! Sample.fingerprint
               = Some (Sample.approved_record 50))
    by apply lookup_singleton_eq.
  assert (H3 : 50 < Host.clock Sample.stale_records (Host.ticks Sample.stale_records))
    by (simpl; lia).
  destruct (Hp "a7f3c21b" (Sample.pending_record 50) H1 H3) as (P1 & P2 & _).
  destruct (Ha Sample.fingerprint (Sample.approved_record 50) H2 H3) as (A1 & A2 & _).
  destruct (P2 eq_refl) as [_ P3]. destruct (A2 eq_refl) as [_ A3].
  exact (conj P1 (conj P3 (conj A1 A3))).
Defined.

(** The counterexample of C6: where the write of the store fails, the
    expired escalation is refused and the expired approval grants nothing,
    but neither record is deleted: both are in the store file after the
    access as before it. *)
Lemma expired_records_are_refused_and_removed_C6_counterexample :
  let refused := CreateStore.approvePending no_config "a7f3c21b" Cases.stale_on_read_only in
  let nothing := CreateStore.consumeApproval Sample.fingerprint Cases.stale_on_read_only in
  PendingEscalation.expiresAt (Sample.pending_record 50)
  < Host.clock Cases.stale_on_read_only (Host.ticks Cases.stale_on_read_only)
  /\ refused.1 = ok_false CreateStore.Expired
  /\ pending (CreateStore.load refused.2).1 !! "a7f3c21b" = Some (Sample.pending_record 50)
  /\ ApprovedAction.expiresAt (Sample.approved_record 50)
     < Host.clock Cases.stale_on_read_only (Host.ticks Cases.stale_on_read_only)
  /\ nothing.1 = None
  /\ approved (CreateStore.load nothing.2).1 !! Sample.fingerprint
     = Some (Sample.approved_record 50).
Proof.
  cbv zeta.
  split; [reflexivity |]. split; [vm_compute; reflexivity |].
  split; [apply lookup_singleton_eq |].
  split; [reflexivity |]. split; [vm_compute; reflexivity |].
  apply lookup_singleton_eq.
Qed.



(** The counterexample of C3: on a host whose write fails, the escalation
    still returns its nonce and the approval still returns [ok: true], and
    the store file is as it was. *)
Lemma failed_write_is_reported_as_success_C3_counterexample :
  Host.writable Sample.read_only = false
  /\ (CreateStore.createPending no_config Sample.fingerprint "gateway"
        Sample.config_apply Sample.read_only).1 = "a7f3c21b"
  /\ Host.file (CreateStore.createPending no_config Sample.fingerprint "gateway"
                  Sample.config_apply Sample.read_only).2
     = Host.file Sample.read_only
  /\ (CreateStore.approvePending no_config "a7f3c21b" Sample.read_only).1 = ok_true 30
  /\ Host.file (CreateStore.approvePending no_config "a7f3c21b" Sample.read_only).2
     = Host.file Sample.read_only.
Proof.
  split; [reflexivity |]. split; [vm_compute; reflexivity |].
  split; [reflexivity |]. split; [vm_compute; reflexivity |].
  rewrite approvePending_found by (vm_compute; discriminate).
  cbv zeta.
  replace (CreateStore.get (pending (CreateStore.load Sample.read_only).1) "a7f3c21b")
    with (CreateStore.Own (Sample.pending_record 500))
    by (symmetry; apply get_own, lookup_singleton_eq).
  reflexivity.
Qed.

(** C3, as the code has it.  When the write of the store fails, the failure
    is printed on the console and not raised: [createPending] still returns
    the nonce it drew, and [approvePending] of an escalation that has not
    expired still returns [ok: true] with the window, while the store file
    stays as it was before the call. *)
Theorem failed_write_is_only_logged_C3 :
  forall (config : GuardianAngelConfig) (w : Host.World),
    Host.writable w = false ->
    (forall (paramsHash toolName : string) (params : Json.object),
        let r := CreateStore.createPending config paramsHash toolName params w in
        r.1 = (Host.randomBytes4_hex w).1
        /\ Host.file r.2 = Host.file w
        /\ Host.console r.2 = "[GA] Failed to save store:" :: Host.console w)
    /\
    (forall (nonce : string) (p : PendingEscalation.t),
        pending (CreateStore.load w).1 !! nonce = Some p ->
        Host.clock w (Host.ticks w) <= PendingEscalation.expiresAt p ->
        let r := CreateStore.approvePending config nonce w in
        r.1 = ok_true (Js.round_div (CreateStore.approvalWindow config) 1000)
        /\ Host.file r.2 = Host.file w
        /\ Host.console r.2 = "[GA] Failed to save store:" :: Host.console w).
Proof.
  intros config w Hw. split.
  - intros paramsHash toolName params r. subst r.
    rewrite createPending_result. cbv zeta. cbn [fst snd].
    split; [reflexivity |].
    apply (save_failed _ (Host.Date_now (Host.Date_now (Host.randomBytes4_hex w).2).2).2).
    exact Hw.
  - intros nonce p Hp Hlive r. subst r.
    rewrite approvePending_found by (rewrite (get_own _ _ _ Hp); discriminate).
    cbv zeta. rewrite (get_own _ _ _ Hp). cbn [CreateStore.field CreateStore.gt].
    replace (PendingEscalation.expiresAt p <? Host.clock w (Host.ticks w)) with false
      by (symmetry; apply Z.ltb_ge; exact Hlive).
    cbn [fst snd]. split; [reflexivity |].
    apply (save_failed _ (Host.Date_now (Host.Date_now (Host.Date_now w).2).2).2).
    exact Hw.
Qed.

(** The witness of C3: the live gateway escalation on the host whose writes
    fail. *)
Lemma failed_write_is_only_logged_C3_witness :
  (CreateStore.approvePending no_config "a7f3c21b" Sample.read_only).1
  = ok_true (Js.round_div (CreateStore.approvalWindow no_config) 1000)
  /\ Host.file (CreateStore.approvePending no_config "a7f3c21b" Sample.read_only).2
     = Host.file Sample.read_only
  /\ Host.console (CreateStore.approvePending no_config "a7f3c21b" Sample.read_only).2
     = ["[GA] Failed to save store:"].
Proof.
  assert (H1 : pending (CreateStore.load Sample.read_only).1 !! "a7f3c21b"
               = Some (Sample.pending_record 500))
    by apply lookup_singleton_eq.
  assert (H2 : Host.clock Sample.read_only (Host.ticks Sample.read_only)
               <= PendingEscalation.expiresAt (Sample.pending_record 500))
    by (simpl; lia).
  exact (proj2 (failed_write_is_only_logged_C3 no_config Sample.read_only eq_refl)
           "a7f3c21b" (Sample.pending_record 500) H1 H2).
Defined.

(** C5, at the nonce "constructor".  The store holds no escalation at all,
    yet the approval succeeds, and an approved action is stored under the
    key "undefined": [state.pending["constructor"]] is the function that
    every object inherits, which is truthy and has no [expiresAt]. *)
Theorem approve_inherited_name_succeeds_C5 :
  pending (CreateStore.load Sample.fresh).1 !! "constructor" = None
  /\ (CreateStore.approvePending no_config "constructor" Sample.fresh).1 = ok_true 30
  /\ approved (CreateStore.load
                 (CreateStore.approvePending no_config "constructor" Sample.fresh).2).1
     !! "undefined"
     = Some {| ApprovedAction.nonce := "constructor";
               ApprovedAction.paramsHash := None;
               ApprovedAction.toolName := None;
               ApprovedAction.approvedAt := 101;
               ApprovedAction.expiresAt := 30102 |}.
Proof.
  split; [apply lookup_empty |].
  assert (Hget : CreateStore.get (pending (CreateStore.load Sample.fresh).1) "constructor"
                 = CreateStore.Inherited)
    by (apply get_inherited; [apply lookup_empty | reflexivity]).
  rewrite approvePending_found by (rewrite Hget; discriminate).
  cbv zeta. rewrite Hget. cbn [CreateStore.field CreateStore.gt fst snd].
  split; [reflexivity |].
  rewrite saved_after_three_readings by reflexivity.
  cbn [approved CreateStore.key_of]. apply set_lookup. discriminate.
Qed.

(** ** The gate *)

(** C8, at the call that follows an approval.  On a host with no store
    file and with no configuration, [exec] of "rm -rf /" is blocked with the
    root-filesystem reason and the store's pending map stays empty.  But
    once the [gateway] request has been escalated and its nonce approved,
    the store holds an approval under the fingerprint that every request
    has, the one of "{}"; the same [exec] of "rm -rf /" then consumes it at
    step 3 of the gate and is allowed: the evaluator, whose intrinsic-evil
    check does match the command, is not run, and no BLOCKED line is
    logged. *)
Theorem rm_rf_root_is_allowed_after_an_approval_C8 :
  let blocked :=
    before_tool_call no_config Sample.logger "exec" Sample.rm_root Sample.fresh in
  let escalated :=
    before_tool_call no_config Sample.logger "gateway" Sample.config_apply
      Sample.fresh in
  let approval := ga_approve no_config Sample.logger "a7f3c21b" escalated.2 in
  let allowed :=
    before_tool_call no_config Sample.logger "exec" Sample.rm_root approval.2 in
  blocked.1
  = Returns (Some {| Hook.result_params := None;
                     Hook.block := Some true;
                     Hook.blockReason :=
                       Some ("GUARDIAN_ANGEL_BLOCK|"
                             ++ "Command would destroy root filesystem") |})
  /\ pending (CreateStore.load blocked.2).1 = pending (CreateStore.load Sample.fresh).1
  /\ Evaluate.checkIntrinsicEvil "exec" Sample.rm_root
     = Returns (Some "Command would destroy root filesystem")
  /\ ApproveTool.content approval.1
     = [("text", "✓ Approved. You may now retry the action. Approval expires in 30s.")]
  /\ ApprovedAction.toolName
     <$> (approved (CreateStore.load approval.2).1
            !! CreateStore.hashParams "exec" Sample.rm_root)
     = Some (Some "gateway")
  /\ allowed.1 = Returns None
  /\ Host.logged allowed.2
     = [(Host.info, "[GA] exec: approved via nonce a7f3c21b");
        (Host.info, "[GA] Approved nonce a7f3c21b");
        (Host.info, "[GA] gateway: escalating (nonce: a7f3c21b)");
        (Host.debug, "[GA] gateway: clarity=9 stakes=9 score=81 threshold=36")].
Proof.
  cbv zeta.
  split; [vm_compute; reflexivity |].
  split; [vm_compute; reflexivity |].
  split; [reflexivity |].
  split; [vm_compute; reflexivity |].
  split; [vm_compute; reflexivity |].
  split; vm_compute; reflexivity.
Qed.

(** C2, with no [neverBlock] in the configuration.  The exemption list is
    then empty ([config.neverBlock || []]; [DEFAULT_NEVER_BLOCK] is not
    read), so a call of [memory_search] goes on to the approval lookup and
    to the evaluator, whose line is in the log; with a threshold of 1 and no
    [neverBlock] the call is escalated. *)
Theorem memory_search_is_evaluated_C2 :
  Hook.list_or_empty (neverBlock no_config) = []
  /\ Js.array_includes DEFAULT_NEVER_BLOCK "memory_search" = true
  /\ Host.logged (before_tool_call no_config Sample.logger "memory_search" []
                    Sample.fresh).2
     = [(Host.debug, "[GA] memory_search: virtues aligned (score=1), allowing");
        (Host.debug, "[GA] memory_search: clarity=1 stakes=1 score=1 threshold=36")]
  /\ (before_tool_call Sample.threshold_one Sample.logger "memory_search" []
        Sample.fresh).1
     = Returns
         (Some {| Hook.result_params := None;
                  Hook.block := Some true;
                  Hook.blockReason :=
                    Some ("GUARDIAN_ANGEL_ESCALATE|a7f3c21b|Action: memory_search"
                          ++ " | Risk score: 1 (clarity=1, stakes=1)") |}).
Proof.
  split; [reflexivity |]. split; [reflexivity |].
  split; vm_compute; reflexivity.
Qed.

(** C1, at three requests.  The text that is hashed is "{}" for each of
    them: the array given to [JSON.stringify] as the replacer lists the
    names of the parameters, and the members [toolName] and [params] of the
    object that is written are not among them.  So [exec] with "ls", [exec]
    with "rm -rf /home/user" and [gateway] with a configuration change have
    one fingerprint, and the approval of the gateway escalation lets the
    next [exec] of "rm -rf /" through. *)
Theorem fingerprint_is_the_same_for_different_requests_C1 :
  CreateStore.normalized "exec" Sample.ls = "{}"
  /\ CreateStore.normalized "exec" Sample.rm_home = "{}"
  /\ CreateStore.hashParams "exec" Sample.ls = "44136fa355b3678a"
  /\ CreateStore.hashParams "exec" Sample.rm_home = CreateStore.hashParams "exec" Sample.ls
  /\ CreateStore.hashParams "gateway" Sample.config_apply
     = CreateStore.hashParams "exec" Sample.ls
  /\ (let escalated :=
        before_tool_call no_config Sample.logger "gateway" Sample.config_apply
          Sample.fresh in
      let approval := ga_approve no_config Sample.logger "a7f3c21b" escalated.2 in
      let retried :=
        before_tool_call no_config Sample.logger "exec" Sample.rm_root approval.2 in
      escalated.1
      = Returns
          (Some {| Hook.result_params := None;
                   Hook.block := Some true;
                   Hook.blockReason :=
                     Some ("GUARDIAN_ANGEL_ESCALATE|a7f3c21b|Action: gateway"
                           ++ " | Risk score: 81 (clarity=9, stakes=9)"
                           ++ " | This modifies OpenClaw configuration") |})
      /\ retried.1 = Returns None
      /\ Host.logged retried.2
         = [(Host.info, "[GA] exec: approved via nonce a7f3c21b");
            (Host.info, "[GA] Approved nonce a7f3c21b");
            (Host.info, "[GA] gateway: escalating (nonce: a7f3c21b)");
            (Host.debug, "[GA] gateway: clarity=9 stakes=9 score=81 threshold=36")]).
Proof.
  split; [vm_compute; reflexivity |]. split; [vm_compute; reflexivity |].
  split; [vm_compute; reflexivity |]. split; [vm_compute; reflexivity |].
  split; [vm_compute; reflexivity |]. cbv zeta.
  split; [vm_compute; reflexivity |]. split; vm_compute; reflexivity.
Qed.

(** ** Further properties of the store and the gate *)

(** The nonce names nothing that objects inherit (every nonce the store
    makes is such a name): then an unknown nonce is refused with NotFound and
    nothing changes; and where the write of the store succeeds, of two
    approvals in a row of one pending escalation the first succeeds and the
    second is refused with NotFound. *)
Theorem approve_unknown_or_used_nonce_is_not_found :
  forall (config : GuardianAngelConfig) (nonce : string) (w : Host.World),
    Js.array_includes CreateStore.Object_prototype nonce = false ->
    (pending (CreateStore.load w).1 !! nonce = None ->
     CreateStore.approvePending config nonce w = (ok_false CreateStore.NotFound, w))
    /\
    (forall p : PendingEscalation.t,
        pending (CreateStore.load w).1 !! nonce = Some p ->
        Host.clock w (Host.ticks w) <= PendingEscalation.expiresAt p ->
        Host.writable w = true ->
        let first := CreateStore.approvePending config nonce w in
        first.1 = ok_true (Js.round_div (CreateStore.approvalWindow config) 1000)
        /\ pending (CreateStore.load first.2).1 !! nonce = None
        /\ CreateStore.approvePending config nonce first.2
           = (ok_false CreateStore.NotFound, first.2)).
Proof.
  intros config nonce w Hname. split.
  - intros Hnone. apply approvePending_undefined. apply get_undefined; assumption.
  - intros p Hp Hlive Hw first.
    assert (Hfirst : first.1 = ok_true (Js.round_div (CreateStore.approvalWindow config) 1000)
                     /\ pending (CreateStore.load first.2).1 !! nonce = None).
    { subst first.
      rewrite approvePending_found by (rewrite (get_own _ _ _ Hp); discriminate).
      cbv zeta. rewrite (get_own _ _ _ Hp). cbn [CreateStore.field CreateStore.gt].
      replace (PendingEscalation.expiresAt p <? Host.clock w (Host.ticks w)) with false
        by (symmetry; apply Z.ltb_ge; exact Hlive).
      cbn [fst snd]. split; [reflexivity |].
      rewrite saved_after_three_readings by exact Hw.
      cbn [pending]. apply lookup_delete_eq. }
    destruct Hfirst as [Hok Hgone].
    split; [exact Hok |]. split; [exact Hgone |].
    apply approvePending_undefined. apply get_undefined; assumption.
Qed.

Lemma approve_unknown_or_used_nonce_is_not_found_witness :
  CreateStore.approvePending no_config "a7f3c21b" Sample.fresh
  = (ok_false CreateStore.NotFound, Sample.fresh)
  /\ (CreateStore.approvePending no_config "a7f3c21b" Sample.live_escalation).1
     = ok_true 30
  /\ (CreateStore.approvePending no_config "a7f3c21b"
        (CreateStore.approvePending no_config "a7f3c21b" Sample.live_escalation).2).1
     = ok_false CreateStore.NotFound.
Proof.
  split.
  - exact (proj1 (approve_unknown_or_used_nonce_is_not_found no_config "a7f3c21b"
                    Sample.fresh eq_refl)
             (lookup_empty _)).
  - assert (H1 : pending (CreateStore.load Sample.live_escalation).1 !! "a7f3c21b"
                 = Some (Sample.pending_record 500))
      by apply lookup_singleton_eq.
    assert (H2 : Host.clock Sample.live_escalation (Host.ticks Sample.live_escalation)
                 <= PendingEscalation.expiresAt (Sample.pending_record 500))
      by (simpl; lia).
    pose proof (proj2 (approve_unknown_or_used_nonce_is_not_found no_config "a7f3c21b"
                         Sample.live_escalation eq_refl)
                  (Sample.pending_record 500) H1 H2 eq_refl) as (A & _ & B).
    split; [exact A |]. rewrite B. reflexivity.
Defined.

(** A disabled gate allows every call and touches nothing. *)
Theorem disabled_gate_allows :
  forall (config : GuardianAngelConfig) (logger : PluginLogger)
         (toolName : string) (params : Json.object) (w : Host.World),
    enabled config = Some false ->
    before_tool_call config logger toolName params w = (Returns None, w).
Proof.
  intros config logger toolName params w H.
  unfold before_tool_call, Hook.createBeforeToolCallHandler. rewrite H. reflexivity.
Qed.

Lemma disabled_gate_allows_witness :
  before_tool_call Sample.disabled Sample.logger "exec" Sample.rm_root Sample.fresh
  = (Returns None, Sample.fresh).
Proof.
  exact (disabled_gate_allows Sample.disabled Sample.logger "exec" Sample.rm_root
           Sample.fresh eq_refl).
Defined.

(** A tool named in the configured [neverBlock] list is allowed whatever
    its parameters: the store's file, the clock and the random source are
    not touched, and the only line logged is the one that says so (and so
    not the evaluator's). *)
Theorem exempt_tool_is_allowed_unevaluated :
  forall (config : GuardianAngelConfig) (logger : PluginLogger)
         (toolName : string) (params : Json.object) (w : Host.World),
    Js.array_includes (Hook.list_or_empty (neverBlock config)) toolName = true ->
    let r := before_tool_call config logger toolName params w in
    r.1 = Returns None
    /\ Host.file r.2 = Host.file w
    /\ Host.ticks r.2 = Host.ticks w
    /\ Host.draws r.2 = Host.draws w
    /\ (Host.logged r.2 = Host.logged w
        \/ Host.logged r.2
           = (Host.debug, "[GA] " ++ toolName ++ ": exempt, allowing") :: Host.logged w).
Proof.
  intros config logger toolName params w H r. subst r.
  unfold before_tool_call, Hook.createBeforeToolCallHandler.
  cbn [Hook.toolName Hook.params]. rewrite H.
  unfold Host.bind, Host.log_debug, Host.log, Host.ret.
  destruct (enabled config) as [[|]|]; destruct (has_debug logger);
    cbn; repeat split; auto.
Qed.

Lemma exempt_tool_is_allowed_unevaluated_witness :
  (before_tool_call Sample.exempting Sample.logger "memory_search" [] Sample.fresh).1
  = Returns None.
Proof.
  exact (proj1 (exempt_tool_is_allowed_unevaluated Sample.exempting Sample.logger
                  "memory_search" [] Sample.fresh eq_refl)).
Defined.

(** *** The text that is hashed *)

Lemma In_sort_insert x y l : In x (Js.sort_insert y l) <-> x = y \/ In x l.
Proof.
  induction l as [| z l IH]; simpl.
  - intuition.
  - destruct (String.leb y z); simpl; [intuition |]. rewrite IH. intuition.
Qed.

Lemma In_sort x l : In x (Js.sort l) <-> In x l.
Proof.
  induction l as [| y l IH]; simpl; [reflexivity |].
  rewrite In_sort_insert, IH. intuition.
Qed.

Lemma In_keys_get k o : In k (Json.keys o) -> Json.get o k <> None.
Proof.
  induction o as [| [k0 v] rest IH]; simpl; [contradiction |].
  intros [-> | Hin].
  - rewrite String.eqb_refl. discriminate.
  - destruct (String.eqb k k0); [discriminate |].
    apply IH. apply filter_In in Hin. apply Hin.
Qed.

Lemma flat_map_nothing {A B} (f : A -> list B) l :
  (forall x, In x l -> f x = []) -> flat_map f l = [].
Proof.
  induction l as [| x l IH]; intros H; simpl; [reflexivity |].
  rewrite (H x) by (left; reflexivity). apply IH.
  intros y Hy. apply H. right. exact Hy.
Qed.

(** Unless the parameters have a member named [toolName], [params] or
    [__proto__], nothing of the request is in the text that is hashed, and
    the fingerprint is that of "{}". *)
Theorem fingerprint_of_ordinary_request_is_constant :
  forall (toolName : string) (params : Json.object),
    Json.get params "toolName" = None ->
    Json.get params "params" = None ->
    Json.get params "__proto__" = None ->
    CreateStore.normalized toolName params = "{}"
    /\ CreateStore.hashParams toolName params = "44136fa355b3678a".
Proof.
  intros toolName params Ht Hp Hproto.
  assert (Hn : CreateStore.normalized toolName params = "{}").
  { unfold CreateStore.normalized. cbn [Json.stringify].
    rewrite flat_map_nothing; [reflexivity |].
    intros P HP. apply (proj1 (In_sort _ _)) in HP. apply In_keys_get in HP.
    unfold Json.member. cbn [map find fst].
    destruct (String.eqb P "toolName") eqn:E1.
    { apply String.eqb_eq in E1. subst P. contradiction. }
    destruct (String.eqb P "params") eqn:E2.
    { apply String.eqb_eq in E2. subst P. contradiction. }
    destruct (String.eqb P "__proto__") eqn:E3.
    { apply String.eqb_eq in E3. subst P. contradiction. }
    reflexivity. }
  split; [exact Hn |].
  unfold CreateStore.hashParams. rewrite Hn. vm_compute. reflexivity.
Qed.

Lemma fingerprint_of_ordinary_request_is_constant_witness :
  CreateStore.hashParams "exec" Sample.rm_root = "44136fa355b3678a"
  /\ CreateStore.hashParams "gateway" Sample.config_apply = "44136fa355b3678a".
Proof.
  split.
  - exact (proj2 (fingerprint_of_ordinary_request_is_constant "exec" Sample.rm_root
                    eq_refl eq_refl eq_refl)).
  - exact (proj2 (fingerprint_of_ordinary_request_is_constant "gateway"
                    Sample.config_apply eq_refl eq_refl eq_refl)).
Defined.

(** *** The order of the members does not matter *)

Lemma ascii_compare_lt_trans a b c :
  Ascii.compare a b = Lt -> Ascii.compare b c = Lt -> Ascii.compare a c = Lt.
Proof.
  unfold Ascii.compare. rewrite !N.compare_lt_iff. apply N.lt_trans.
Qed.

Lemma string_leb_trans s1 s2 s3 :
  String.leb s1 s2 = true -> String.leb s2 s3 = true -> String.leb s1 s3 = true.
Proof.
  unfold String.leb. revert s2 s3.
  induction s1 as [| a s1 IH]; intros [| b s2] [| c s3]; simpl; try easy.
  destruct (Ascii.compare a b) eqn:Hab; destruct (Ascii.compare b c) eqn:Hbc;
    try easy.
  - apply Ascii.compare_eq_iff in Hab. subst b. rewrite Hbc. apply IH.
  - apply Ascii.compare_eq_iff in Hab. subst b. rewrite Hbc. easy.
  - apply Ascii.compare_eq_iff in Hbc. subst c. rewrite Hab. easy.
  - rewrite (ascii_compare_lt_trans _ _ _ Hab Hbc). easy.
Qed.

(** Two insertions commute, so the sorted list depends on the elements
    only. *)
Lemma sort_insert_comm x y l :
  Js.sort_insert x (Js.sort_insert y l) = Js.sort_insert y (Js.sort_insert x l).
Proof.
  induction l as [| z l IH]; simpl.
  - destruct (String.leb x y) eqn:Hxy, (String.leb y x) eqn:Hyx; try reflexivity.
    + rewrite (String.leb_antisym _ _ Hxy Hyx). reflexivity.
    + destruct (String.leb_total x y); congruence.
  - destruct (String.leb y z) eqn:Hyz, (String.leb x z) eqn:Hxz; simpl.
    + destruct (String.leb x y) eqn:Hxy, (String.leb y x) eqn:Hyx;
        rewrite ?Hyz, ?Hxz; try reflexivity.
      * rewrite (String.leb_antisym _ _ Hxy Hyx). reflexivity.
      * destruct (String.leb_total x y); congruence.
    + rewrite Hyz.
      destruct (String.leb x y) eqn:Hxy.
      * rewrite (string_leb_trans _ _ _ Hxy Hyz) in Hxz. discriminate.
      * rewrite Hxz. reflexivity.
    + rewrite Hxz.
      destruct (String.leb y x) eqn:Hyx.
      * rewrite (string_leb_trans _ _ _ Hyx Hxz) in Hyz. discriminate.
      * rewrite Hyz. reflexivity.
    + rewrite Hyz, Hxz, IH. reflexivity.
Qed.

Lemma sort_permutation l l' : Permutation l l' -> Js.sort l = Js.sort l'.
Proof.
  induction 1 as [| x l l' _ IH | x y l | l l' l'' _ IH1 _ IH2]; simpl.
  - reflexivity.
  - rewrite IH. reflexivity.
  - apply sort_insert_comm.
  - congruence.
Qed.

Lemma keys_of_distinct o : List.NoDup (map fst o) -> Json.keys o = map fst o.
Proof.
  induction o as [| [k v] rest IH]; simpl; intros H; [reflexivity |].
  apply List.NoDup_cons_iff in H. destruct H as [Hk Hrest].
  rewrite IH by exact Hrest. f_equal.
  apply forallb_filter_id. apply forallb_forall. intros k' Hk'.
  apply negb_true_iff. apply String.eqb_neq. congruence.
Qed.

Lemma find_member_permutation (P : string) (l l' : list (string * string)) :
  List.NoDup (map fst l) -> Permutation l l' ->
  find (fun kx => String.eqb P (fst kx)) l = find (fun kx => String.eqb P (fst kx)) l'.
Proof.
  intros Hnd Hperm. induction Hperm as [| x l l' Hp IH | x y l | l l' l'' Hp1 IH1 Hp2 IH2].
  - reflexivity.
  - simpl. destruct (String.eqb P (fst x)); [reflexivity |].
    apply IH. simpl in Hnd. apply List.NoDup_cons_iff in Hnd. apply Hnd.
  - simpl. destruct (String.eqb P (fst y)) eqn:Ey, (String.eqb P (fst x)) eqn:Ex;
      try reflexivity.
    apply String.eqb_eq in Ey, Ex. simpl in Hnd.
    apply List.NoDup_cons_iff in Hnd. destruct Hnd as [Hy _].
    exfalso. apply Hy. left. congruence.
  - rewrite IH1 by exact Hnd. apply IH2.
    apply (Permutation_NoDup (Permutation_map fst Hp1)). exact Hnd.
Qed.

(** Two parameter objects with the same members, listed in any order, have
    the same fingerprint. *)
Theorem fingerprint_ignores_member_order :
  forall (toolName : string) (params params' : Json.object),
    List.NoDup (map fst params) ->
    Permutation params params' ->
    CreateStore.normalized toolName params = CreateStore.normalized toolName params'
    /\ CreateStore.hashParams toolName params = CreateStore.hashParams toolName params'.
Proof.
  intros toolName params params' Hnd Hperm.
  assert (Hnd' : List.NoDup (map fst params'))
    by (apply (Permutation_NoDup (Permutation_map fst Hperm)); exact Hnd).
  assert (Hn : CreateStore.normalized toolName params
               = CreateStore.normalized toolName params').
  { unfold CreateStore.normalized.
    rewrite (keys_of_distinct _ Hnd), (keys_of_distinct _ Hnd').
    rewrite (sort_permutation _ _ (Permutation_map fst Hperm)).
    set (K := Js.sort (map fst params')).
    assert (Hobj : Json.stringify K (Json.Obj params)
                   = Json.stringify K (Json.Obj params')).
    { cbn [Json.stringify]. do 2 f_equal. f_equal.
      apply flat_map_ext. intros P. unfold Json.member.
      rewrite (find_member_permutation P _
                 (map (fun '(k, x) => (k, Json.stringify K x)) params')).
      - reflexivity.
      - rewrite map_map.
        rewrite (map_ext _ fst) by (intros [k x]; reflexivity). exact Hnd.
      - apply Permutation_map. exact Hperm. }
    cbn [Json.stringify map] in *. rewrite Hobj. reflexivity. }
  split; [exact Hn |]. unfold CreateStore.hashParams. rewrite Hn. reflexivity.
Qed.

Lemma fingerprint_ignores_member_order_witness :
  CreateStore.hashParams "exec" Sample.odd_names
  = CreateStore.hashParams "exec" Sample.odd_names_reordered.
Proof.
  assert (Hnd : List.NoDup (map fst Sample.odd_names)).
  { repeat constructor; simpl; intuition discriminate. }
  exact (proj2 (fingerprint_ignores_member_order "exec" Sample.odd_names
                  Sample.odd_names_reordered Hnd (perm_swap _ _ _))).
Defined.

(** *** Nonces *)

Lemma hex_of_word_length x : String.length (Js.hex_of_word x) = 8%nat.
Proof. reflexivity. Qed.

(** The nonce of an escalation is eight lower-case hexadecimal digits, and
    it is the key of a pending escalation that expires [pendingTimeoutMs]
    after the second reading of the clock. *)
Theorem nonce_is_eight_hex_digits :
  forall (config : GuardianAngelConfig) (paramsHash toolName : string)
         (params : Json.object) (w : Host.World),
    let r := CreateStore.createPending config paramsHash toolName params w in
    String.length r.1 = 8%nat
    /\ Js.all_hex r.1 = true
    /\ (Host.writable w = true ->
        pending (CreateStore.load r.2).1 !! r.1
        = Some {| PendingEscalation.nonce := r.1;
                  PendingEscalation.paramsHash := paramsHash;
                  PendingEscalation.toolName := toolName;
                  PendingEscalation.params := params;
                  PendingEscalation.createdAt := Host.clock w (Host.ticks w);
                  PendingEscalation.expiresAt :=
                    Host.clock w (S (Host.ticks w))
                    + CreateStore.pendingTimeout config |}).
Proof.
  intros config paramsHash toolName params w r. subst r.
  rewrite createPending_result. cbv zeta. cbn [fst snd].
  split; [apply hex_of_word_length |]. split; [apply hex_of_word_all_hex |].
  intros Hw. rewrite load_after_save by exact Hw. cbn [pending].
  apply set_lookup. intros Heq.
  pose proof (hex_of_word_all_hex (Sha256.w32 (Host.random w (Host.draws w)))) as Hhex.
  rewrite Heq in Hhex. discriminate.
Qed.

Lemma nonce_is_eight_hex_digits_witness :
  (CreateStore.createPending no_config Sample.fingerprint "gateway" Sample.config_apply
     Sample.fresh).1 = "a7f3c21b"
  /\ PendingEscalation.expiresAt <$>
       (pending (CreateStore.load
                   (CreateStore.createPending no_config Sample.fingerprint "gateway"
                      Sample.config_apply Sample.fresh).2).1 !! "a7f3c21b")
     = Some 300101.
Proof.
  split; [reflexivity |].
  pose proof (nonce_is_eight_hex_digits no_config Sample.fingerprint "gateway"
                Sample.config_apply Sample.fresh) as (_ & _ & H).
  specialize (H eq_refl).
  change ((CreateStore.createPending no_config Sample.fingerprint "gateway"
             Sample.config_apply Sample.fresh).1) with "a7f3c21b" in H.
  rewrite H. reflexivity.
Defined.

(** *** The scenario of the specification, run *)

(** A gateway configuration change that names a model is escalated with a
    nonce; approving the nonce succeeds with a window of 30 s; the same call
    is then allowed, once: submitted again it is escalated under a new
    nonce. *)
Theorem gateway_scenario :
  let first :=
    before_tool_call no_config Sample.logger "gateway" Sample.config_apply Sample.fresh in
  let approval := ga_approve no_config Sample.logger "a7f3c21b" first.2 in
  let second :=
    before_tool_call no_config Sample.logger "gateway" Sample.config_apply approval.2 in
  let third :=
    before_tool_call no_config Sample.logger "gateway" Sample.config_apply second.2 in
  Evaluate.assessClarity "gateway" Sample.config_apply = Returns 9
  /\ Evaluate.assessStakes "gateway" Sample.config_apply = Returns 9
  /\ first.1
     = Returns
         (Some {| Hook.result_params := None;
                  Hook.block := Some true;
                  Hook.blockReason :=
                    Some ("GUARDIAN_ANGEL_ESCALATE|a7f3c21b|Action: gateway"
                          ++ " | Risk score: 81 (clarity=9, stakes=9)"
                          ++ " | This modifies OpenClaw configuration") |})
  /\ ApproveTool.content approval.1
     = [("text", "✓ Approved. You may now retry the action. Approval expires in 30s.")]
  /\ second.1 = Returns None
  /\ third.1
     = Returns
         (Some {| Hook.result_params := None;
                  Hook.block := Some true;
                  Hook.blockReason :=
                    Some ("GUARDIAN_ANGEL_ESCALATE|a7f3c21c|Action: gateway"
                          ++ " | Risk score: 81 (clarity=9, stakes=9)"
                          ++ " | This modifies OpenClaw configuration") |}).
Proof.
  cbv zeta.
  split; [vm_compute; reflexivity |]. split; [vm_compute; reflexivity |].
  split; [vm_compute; reflexivity |]. split; [vm_compute; reflexivity |].
  split; vm_compute; reflexivity.
Qed.

(** *** The sweep *)

Lemma no_expired_entry {A} (expiresAt : A -> Z) (m : gmap string A) now k x :
  existsb (fun kv => expiresAt kv.2 <? now) (map_to_list m) = false ->
  m !! k = Some x -> ~ expiresAt x < now.
Proof.
  intros Hnone Hk Hlt.
  assert (existsb (fun kv => expiresAt kv.2 <? now) (map_to_list m) = true) as Hsome.
  { apply existsb_exists. exists (k, x). split.
    - apply list_elem_of_In. apply elem_of_map_to_list. exact Hk.
    - apply Z.ltb_lt. exact Hlt. }
  congruence.
Qed.

(** [cleanup], when the write succeeds, leaves in the store exactly the
    records whose deadline has not passed. *)
Theorem cleanup_keeps_the_live_records :
  forall w : Host.World,
    Host.writable w = true ->
    let now := Host.clock w (Host.ticks w) in
    let st := (CreateStore.load w).1 in
    let st' := (CreateStore.load (CreateStore.cleanup w).2).1 in
    (forall nonce p,
        pending st' !! nonce = Some p
        <-> pending st !! nonce = Some p /\ ~ PendingEscalation.expiresAt p < now)
    /\ (forall fingerprint a,
           approved st' !! fingerprint = Some a
           <-> approved st !! fingerprint = Some a /\ ~ ApprovedAction.expiresAt a < now).
Proof.
  intros w Hw now st st'. subst now st st'.
  unfold CreateStore.cleanup, Host.bind. cbv zeta.
  rewrite load_world, Date_now_reading.
  set (st := (CreateStore.load w).1).
  set (now := Host.clock w (Host.ticks w)).
  destruct (existsb _ (map_to_list (pending st))) eqn:Ep; cbn [orb].
  - rewrite load_after_save by exact Hw.
    split; intros k x; cbn [pending approved]; rewrite map_lookup_filter_Some; reflexivity.
  - destruct (existsb _ (map_to_list (approved st))) eqn:Ea.
    + rewrite load_after_save by exact Hw.
      split; intros k x; cbn [pending approved]; rewrite map_lookup_filter_Some;
        reflexivity.
    + unfold Host.ret. cbn [snd].
      rewrite (load_only_reads_file w (Host.Date_now w).2) by reflexivity. fold st.
      split; intros k x; split; try tauto; intros H; split; try exact H.
      * exact (no_expired_entry PendingEscalation.expiresAt _ _ _ _ Ep H).
      * exact (no_expired_entry ApprovedAction.expiresAt _ _ _ _ Ea H).
Qed.

Lemma cleanup_keeps_the_live_records_witness :
  pending (CreateStore.load (CreateStore.cleanup Sample.stale_records).2).1 !! "a7f3c21b"
  = None.
Proof.
  pose proof (cleanup_keeps_the_live_records Sample.stale_records eq_refl) as [H _].
  cbv zeta in H.
  destruct (pending (CreateStore.load (CreateStore.cleanup Sample.stale_records).2).1
              !! "a7f3c21b") as [p |] eqn:E; [| reflexivity].
  apply H in E. destruct E as [E Hlive]. exfalso.
  change (pending (CreateStore.load Sample.stale_records).1)
    with ({[ "a7f3c21b" := Sample.pending_record 50 ]} : gmap string PendingEscalation.t)
    in E.
  rewrite lookup_singleton_eq in E. injection E as <-.
  apply Hlive. simpl. lia.
Defined.

(** *** Tools that always need approval *)



(* ===================================================================== *)
(** * Further properties: the scorers, the gate and the store *)
(* ===================================================================== *)

(** ** The scorers, statement by statement *)

Section Statements.

Import Evaluate.

Variables (toolName : string) (params : Json.object).

Lemma array_includes_false xs x y :
  Js.array_includes xs x = false -> In y xs -> String.eqb x y = false.
Proof.
  unfold Js.array_includes. intros H Hin.
  destruct (String.eqb x y) eqn:E; [| reflexivity].
  rewrite <- H. symmetry. apply existsb_exists. exists y. auto.
Qed.

Lemma array_includes_true xs x :
  Js.array_includes xs x = true -> In x xs.
Proof.
  unfold Js.array_includes. intros H. apply existsb_exists in H.
  destruct H as (y & Hin & Heq). apply String.eqb_eq in Heq. subst y. exact Hin.
Qed.

(** A statement that tests for another tool returns the running value. *)
Lemma clarity_infrastructure_other c :
  Js.array_includes INFRASTRUCTURE_TOOLS toolName = false ->
  clarity_infrastructure toolName params c = Returns c.
Proof. unfold clarity_infrastructure. intros ->. reflexivity. Qed.

Lemma clarity_infrastructure_plain c :
  Js.array_includes INFRASTRUCTURE_TOOLS toolName = true ->
  String.eqb toolName "exec" = false ->
  clarity_infrastructure toolName params c = Returns (c + 3).
Proof. unfold clarity_infrastructure. intros -> ->. reflexivity. Qed.

Lemma clarity_external_other c :
  Js.array_includes EXTERNAL_EFFECT_TOOLS toolName = false ->
  clarity_external toolName c = c.
Proof. unfold clarity_external. intros ->. reflexivity. Qed.

Lemma clarity_external_listed c :
  Js.array_includes EXTERNAL_EFFECT_TOOLS toolName = true ->
  clarity_external toolName c = c + 2.
Proof. unfold clarity_external. intros ->. reflexivity. Qed.

Lemma clarity_gateway_other c :
  String.eqb toolName "gateway" = false ->
  clarity_gateway toolName params c = Returns c.
Proof. unfold clarity_gateway. intros ->. reflexivity. Qed.

Lemma clarity_exec_other c :
  String.eqb toolName "exec" = false -> clarity_exec toolName params c = Returns c.
Proof. unfold clarity_exec. intros ->. reflexivity. Qed.

Lemma clarity_message_other c :
  String.eqb toolName "message" = false -> clarity_message toolName params c = c.
Proof. unfold clarity_message. intros ->. reflexivity. Qed.

Lemma clarity_cron_other c :
  String.eqb toolName "cron" = false -> clarity_cron toolName params c = Returns c.
Proof. unfold clarity_cron. intros ->. reflexivity. Qed.

Lemma stakes_infrastructure_other c :
  Js.array_includes INFRASTRUCTURE_TOOLS toolName = false ->
  stakes_infrastructure toolName params c = Returns c.
Proof. unfold stakes_infrastructure. intros ->. reflexivity. Qed.

Lemma stakes_infrastructure_plain c :
  Js.array_includes INFRASTRUCTURE_TOOLS toolName = true ->
  String.eqb toolName "exec" = false ->
  stakes_infrastructure toolName params c = Returns (c + 3).
Proof. unfold stakes_infrastructure. intros -> ->. reflexivity. Qed.

Lemma stakes_gateway_other c :
  String.eqb toolName "gateway" = false ->
  stakes_gateway toolName params c = Returns c.
Proof. unfold stakes_gateway. intros ->. reflexivity. Qed.

Lemma stakes_exec_other c :
  String.eqb toolName "exec" = false -> stakes_exec toolName params c = Returns c.
Proof. unfold stakes_exec. intros ->. reflexivity. Qed.

Lemma stakes_file_other c :
  String.eqb toolName "Write" = false -> String.eqb toolName "Edit" = false ->
  stakes_file toolName params c = Returns c.
Proof. unfold stakes_file. intros -> ->. reflexivity. Qed.

Lemma stakes_message_other c :
  String.eqb toolName "message" = false -> stakes_message toolName c = c.
Proof. unfold stakes_message. intros ->. reflexivity. Qed.

Lemma stakes_cron_other c :
  String.eqb toolName "cron" = false -> stakes_cron toolName params c = Returns c.
Proof. unfold stakes_cron. intros ->. reflexivity. Qed.

(** Only [exec] is looked at by the intrinsic-evil check. *)
Lemma checkIntrinsicEvil_other :
  String.eqb toolName "exec" = false ->
  checkIntrinsicEvil toolName params = Returns None.
Proof. unfold checkIntrinsicEvil. intros ->. reflexivity. Qed.

(** The parts of the reason that concern another tool are empty. *)
Lemma reason_gateway_other :
  String.eqb toolName "gateway" = false -> reason_gateway toolName params = Returns [].
Proof. unfold reason_gateway. intros ->. reflexivity. Qed.

Lemma reason_exec_other :
  String.eqb toolName "exec" = false -> reason_exec toolName params = Returns [].
Proof. unfold reason_exec. intros ->. reflexivity. Qed.

Lemma reason_message_other :
  String.eqb toolName "message" = false -> reason_message toolName params = Returns [].
Proof. unfold reason_message. intros ->. reflexivity. Qed.

(** The threshold in force. *)
Lemma threshold_of_config config :
  threshold_of config
  = match escalationThreshold config with
    | Some threshold => threshold
    | None => 36
    end.
Proof. reflexivity. Qed.

(** The verdict on a call that passed the intrinsic-evil check with the
    scores [c] and [s] and whose reason can be built. *)
Lemma evaluate_verdict ctx config logger w c s why :
  checkIntrinsicEvil toolName params = Returns None ->
  assessClarity toolName params = Returns c ->
  assessStakes toolName params = Returns s ->
  buildEscalationReason toolName params c s (c * s) = Returns why ->
  decision <$> (evaluate toolName params ctx config logger w).1
  = Returns (if threshold_of config <=? c * s
             then Decision.escalate else Decision.allow).
Proof.
  intros Hnone Hc Hs Hwhy.
  rewrite (evaluate_scored _ _ _ _ _ _ _ _ Hnone Hc Hs). cbv zeta. rewrite Hwhy.
  destruct (threshold_of config <=? c * s); reflexivity.
Qed.

(** A verdict returned past the intrinsic-evil check comes with both
    scores returned. *)
Lemma returned_verdict_has_scores ctx config logger w result :
  checkIntrinsicEvil toolName params = Returns None ->
  (evaluate toolName params ctx config logger w).1 = Returns result ->
  exists c s,
    assessClarity toolName params = Returns c
    /\ assessStakes toolName params = Returns s.
Proof.
  intros Hevil Hresult.
  unfold evaluate in Hresult. rewrite Hevil in Hresult.
  destruct (assessClarity toolName params) as [c|]; [| discriminate Hresult].
  destruct (assessStakes toolName params) as [s|]; [| discriminate Hresult].
  eauto.
Qed.

(** And it is no block. *)
Lemma returned_verdict_is_no_block ctx config logger w result :
  checkIntrinsicEvil toolName params = Returns None ->
  (evaluate toolName params ctx config logger w).1 = Returns result ->
  decision result <> Decision.block.
Proof.
  intros Hevil Hresult.
  destruct (returned_verdict_has_scores _ _ _ _ _ Hevil Hresult) as (c & s & Hc & Hs).
  destruct (evaluate_decision toolName params ctx config logger w c s result
              Hevil Hc Hs Hresult) as (-> & _).
  destruct (_ <=? _); discriminate.
Qed.

(** Below the threshold no reason is built. *)
Lemma evaluate_allows ctx config logger w c s :
  checkIntrinsicEvil toolName params = Returns None ->
  assessClarity toolName params = Returns c ->
  assessStakes toolName params = Returns s ->
  c * s < threshold_of config ->
  decision <$> (evaluate toolName params ctx config logger w).1
  = Returns Decision.allow.
Proof.
  intros Hnone Hc Hs Hlt.
  rewrite (evaluate_scored _ _ _ _ _ _ _ _ Hnone Hc Hs). cbv zeta.
  replace (threshold_of config <=? c * s) with false
    by (symmetry; apply Z.leb_gt; exact Hlt).
  reflexivity.
Qed.

End Statements.

(** The statements that do not concern the tool at hand are dropped, one
    after the other. *)
Ltac skip_statements :=
  unfold Evaluate.assessClarity, Evaluate.assessStakes, Evaluate.buildEscalationReason;
  cbv zeta;
  repeat (rewrite ?clarity_infrastructure_other, ?clarity_infrastructure_plain,
            ?clarity_external_other, ?clarity_external_listed, ?clarity_gateway_other,
            ?clarity_exec_other, ?clarity_message_other, ?clarity_cron_other,
            ?stakes_infrastructure_other, ?stakes_infrastructure_plain,
            ?stakes_gateway_other, ?stakes_exec_other,
            ?stakes_file_other, ?stakes_message_other, ?stakes_cron_other,
            ?reason_gateway_other, ?reason_exec_other, ?reason_message_other
            by (assumption || reflexivity);
          progress cbn [and_then]).

(** A name outside the two tool lists is none of the names the scorers
    test for. *)
Lemma unlisted_names toolName :
  Js.array_includes INFRASTRUCTURE_TOOLS toolName = false ->
  Js.array_includes EXTERNAL_EFFECT_TOOLS toolName = false ->
  String.eqb toolName "gateway" = false /\ String.eqb toolName "exec" = false
  /\ String.eqb toolName "Write" = false /\ String.eqb toolName "Edit" = false
  /\ String.eqb toolName "message" = false /\ String.eqb toolName "cron" = false.
Proof.
  intros Hi He.
  pose proof (array_includes_false _ _ "gateway" Hi).
  pose proof (array_includes_false _ _ "exec" Hi).
  pose proof (array_includes_false _ _ "Write" Hi).
  pose proof (array_includes_false _ _ "Edit" Hi).
  pose proof (array_includes_false _ _ "message" He).
  pose proof (array_includes_false _ _ "cron" He).
  simpl in *. tauto.
Qed.

(** A tool that is in neither list of constants.ts is not looked at by the
    intrinsic-evil check and scores 1 on both scales, whatever its
    parameters: the evaluator escalates it only under a threshold of 1 or
    less. *)
Theorem unlisted_tool_scores_one :
  forall (toolName : string) (params : Json.object),
    Js.array_includes INFRASTRUCTURE_TOOLS toolName = false ->
    Js.array_includes EXTERNAL_EFFECT_TOOLS toolName = false ->
    Evaluate.checkIntrinsicEvil toolName params = Returns None
    /\ Evaluate.assessClarity toolName params = Returns 1
    /\ Evaluate.assessStakes toolName params = Returns 1
    /\ (forall ctx config logger w,
          decision <$> (Evaluate.evaluate toolName params ctx config logger w).1
          = Returns (if Evaluate.threshold_of config <=? 1
                     then Decision.escalate else Decision.allow)).
Proof.
  intros toolName params Hi He.
  destruct (unlisted_names toolName Hi He) as (Hg & Hx & Hw & Hed & Hm & Hc).
  assert (Hevil : Evaluate.checkIntrinsicEvil toolName params = Returns None)
    by (apply checkIntrinsicEvil_other; exact Hx).
  assert (Hcl : Evaluate.assessClarity toolName params = Returns 1)
    by (skip_statements; reflexivity).
  assert (Hst : Evaluate.assessStakes toolName params = Returns 1)
    by (skip_statements; reflexivity).
  split; [exact Hevil |]. split; [exact Hcl |]. split; [exact Hst |].
  intros ctx config logger w.
  eapply (evaluate_verdict toolName params ctx config logger w 1 1);
    [exact Hevil | exact Hcl | exact Hst |].
  skip_statements. reflexivity.
Qed.

(** Two tools of the documented exemption defaults. *)
Lemma unlisted_tool_scores_one_witness :
  Evaluate.assessClarity "memory_search" [] = Returns 1
  /\ Evaluate.assessStakes "Read" Cases.write_env = Returns 1.
Proof.
  split.
  - exact (proj1 (proj2 (unlisted_tool_scores_one "memory_search" [] eq_refl eq_refl))).
  - exact (proj1 (proj2 (proj2 (unlisted_tool_scores_one "Read" Cases.write_env
                                  eq_refl eq_refl)))).
Defined.

(** ** gateway *)

Lemma gateway_scores params :
  Evaluate.assessClarity "gateway" params
  = (let! c := Evaluate.clarity_gateway "gateway" params 4 in Returns (Z.min c 10))
  /\ Evaluate.assessStakes "gateway" params
     = (let! s := Evaluate.stakes_gateway "gateway" params 4 in Returns (Z.min s 10)).
Proof. split; skip_statements; reflexivity. Qed.

(** The score of a [gateway] call, by its [action] and what [raw] names,
    where these convert to texts ([raw] is converted for a configuration
    change only): 16 for an action that is not tested for, 25 for a restart,
    42 for an update, and 42, 56, 81 or 90 for a configuration change.  With
    no threshold configured the call is escalated exactly for
    [config.apply], [config.patch] and [update.run]. *)
Theorem gateway_score_table :
  forall (params : Json.object) (action raw : string),
    Json.String_or_empty (Json.get params "action") = Returns action ->
    let changes_config :=
      String.eqb action "config.apply" || String.eqb action "config.patch" in
    (changes_config = true ->
     Json.String_or_empty (Json.get params "raw") = Returns raw) ->
    (exists c s,
        Evaluate.assessClarity "gateway" params = Returns c
        /\ Evaluate.assessStakes "gateway" params = Returns s
        /\ c * s
           = (if changes_config then
                if Evaluate.mentions_model raw
                then (if Js.includes raw "plugin" then 90 else 81)
                else (if Js.includes raw "plugin" then 56 else 42)
              else if String.eqb action "update.run" then 42
              else if String.eqb action "restart" then 25
              else 16))
    /\ (forall ctx config logger w,
           escalationThreshold config = None ->
           decision <$> (Evaluate.evaluate "gateway" params ctx config logger w).1
           = Returns (if changes_config || String.eqb action "update.run"
                      then Decision.escalate else Decision.allow)).
Proof.
  intros params action raw Haction changes_config Hraw.
  assert (Hscores :
    exists c s,
      Evaluate.assessClarity "gateway" params = Returns c
      /\ Evaluate.assessStakes "gateway" params = Returns s
      /\ c * s
         = (if changes_config then
              if Evaluate.mentions_model raw
              then (if Js.includes raw "plugin" then 90 else 81)
              else (if Js.includes raw "plugin" then 56 else 42)
            else if String.eqb action "update.run" then 42
            else if String.eqb action "restart" then 25
            else 16)).
  { destruct (gateway_scores params) as [-> ->].
    unfold Evaluate.clarity_gateway, Evaluate.stakes_gateway.
    change (String.eqb "gateway" "gateway") with true. cbv iota.
    rewrite Haction. cbn [and_then]. fold changes_config.
    destruct changes_config eqn:Hcfg.
    - rewrite (Hraw eq_refl). cbn [and_then]. do 2 eexists.
      split; [reflexivity |]. split; [reflexivity |].
      subst changes_config. clear Haction Hraw.
      text_cases action; try discriminate Hcfg;
        destruct (Evaluate.mentions_model raw), (Js.includes raw "plugin"); reflexivity.
    - cbn [and_then]. do 2 eexists.
      split; [reflexivity |]. split; [reflexivity |].
      clear Haction Hraw.
      text_cases action; reflexivity. }
  split; [exact Hscores |].
  intros ctx config logger w Hth.
  destruct Hscores as (c & s & Hc & Hs & Hscore).
  assert (Hwhy : exists why,
             Evaluate.buildEscalationReason "gateway" params c s (c * s) = Returns why).
  { skip_statements. unfold Evaluate.reason_gateway.
    change (String.eqb "gateway" "gateway") with true. cbv iota.
    rewrite Haction. cbn [and_then]. eexists; reflexivity. }
  destruct Hwhy as [why Hwhy].
  rewrite (evaluate_verdict "gateway" params ctx config logger w c s why eq_refl Hc Hs
             Hwhy).
  rewrite threshold_of_config, Hth, Hscore. f_equal.
  subst changes_config. clear.
  text_cases action; cbn [String.eqb Ascii.eqb Bool.eqb orb];
    destruct (Evaluate.mentions_model raw), (Js.includes raw "plugin"); reflexivity.
Qed.

(** A restart is allowed; a change of the default model scores 81 and is
    escalated. *)
Lemma gateway_score_table_witness :
  decision <$> (Evaluate.evaluate "gateway" Cases.restart (Sample.ctx "gateway")
                  no_config Sample.logger Sample.fresh).1
  = Returns Decision.allow
  /\ decision <$> (Evaluate.evaluate "gateway" Sample.config_apply (Sample.ctx "gateway")
                     no_config Sample.logger Sample.fresh).1
     = Returns Decision.escalate.
Proof.
  split.
  - exact (proj2 (gateway_score_table Cases.restart "restart" "" eq_refl
                    (fun H => False_ind _ (Bool.diff_false_true H)))
             (Sample.ctx "gateway") no_config Sample.logger Sample.fresh eq_refl).
  - exact (proj2 (gateway_score_table Sample.config_apply "config.apply" "defaultModel"
                    eq_refl (fun _ => eq_refl))
             (Sample.ctx "gateway") no_config Sample.logger Sample.fresh eq_refl).
Defined.

(** ** Write and Edit *)

Lemma file_scores toolName params :
  toolName = "Write" \/ toolName = "Edit" ->
  Evaluate.assessClarity toolName params = Returns 4
  /\ Evaluate.assessStakes toolName params
     = (let! s := Evaluate.stakes_file toolName params 4 in Returns (Z.min s 10)).
Proof. intros [-> | ->]; split; skip_statements; reflexivity. Qed.

(** [Write] and [Edit], where the path converts to a text: clarity is 4,
    stakes are 4, plus 3 for a path that names both "openclaw" and "config",
    plus 2 for one that names ".env", "secret" or "credential".  With no
    threshold configured the call is escalated exactly when both hold
    (4 x 9 = 36). *)
Theorem file_write_score_table :
  forall (toolName : string) (params : Json.object) (path : string),
    toolName = "Write" \/ toolName = "Edit" ->
    Json.String_or_empty (Json.or (Json.get params "path") (Json.get params "file_path"))
    = Returns path ->
    let config_file := Js.includes path "openclaw" && Js.includes path "config" in
    let secret_file :=
      Js.includes path ".env" || Js.includes path "secret"
      || Js.includes path "credential" in
    Evaluate.assessClarity toolName params = Returns 4
    /\ Evaluate.assessStakes toolName params
       = Returns (4 + (if config_file then 3 else 0) + (if secret_file then 2 else 0))
    /\ (forall ctx config logger w,
           escalationThreshold config = None ->
           decision <$> (Evaluate.evaluate toolName params ctx config logger w).1
           = Returns (if config_file && secret_file
                      then Decision.escalate else Decision.allow)).
Proof.
  intros toolName params path Htool Hpath config_file secret_file.
  destruct (file_scores toolName params Htool) as [Hc Hs].
  assert (Hstakes : Evaluate.assessStakes toolName params
                    = Returns (4 + (if config_file then 3 else 0)
                               + (if secret_file then 2 else 0))).
  { rewrite Hs. unfold Evaluate.stakes_file.
    replace (String.eqb toolName "Write" || String.eqb toolName "Edit") with true
      by (destruct Htool as [-> | ->]; reflexivity).
    rewrite Hpath. cbn [and_then]. cbv zeta. fold config_file. fold secret_file.
    destruct config_file, secret_file; reflexivity. }
  split; [exact Hc |]. split; [exact Hstakes |].
  intros ctx config logger w Hth.
  assert (Hwhy : exists why,
             Evaluate.buildEscalationReason toolName params 4
               (4 + (if config_file then 3 else 0) + (if secret_file then 2 else 0))
               (4 * (4 + (if config_file then 3 else 0) + (if secret_file then 2 else 0)))
             = Returns why).
  { destruct Htool as [-> | ->]; skip_statements; eexists; reflexivity. }
  destruct Hwhy as [why Hwhy].
  rewrite (evaluate_verdict toolName params ctx config logger w _ _ why
             ltac:(apply checkIntrinsicEvil_other; destruct Htool as [-> | ->]; reflexivity)
             Hc Hstakes Hwhy).
  rewrite threshold_of_config, Hth.
  destruct config_file, secret_file; reflexivity.
Qed.

(** A secret inside the configuration directory is escalated; the
    configuration file itself is not. *)
Lemma file_write_score_table_witness :
  Evaluate.assessStakes "Write" Cases.write_env = Returns 9
  /\ decision <$> (Evaluate.evaluate "Write" Cases.write_env (Sample.ctx "Write")
                     no_config Sample.logger Sample.fresh).1
     = Returns Decision.escalate
  /\ Evaluate.assessStakes "Edit" Cases.write_config = Returns 7
  /\ decision <$> (Evaluate.evaluate "Edit" Cases.write_config (Sample.ctx "Edit")
                     no_config Sample.logger Sample.fresh).1
     = Returns Decision.allow.
Proof.
  pose proof (file_write_score_table "Write" Cases.write_env
                "/home/user/.openclaw/config/.env" (or_introl eq_refl) eq_refl)
    as (_ & A & B).
  pose proof (file_write_score_table "Edit" Cases.write_config
                "/home/user/.openclaw/config.json" (or_intror eq_refl) eq_refl)
    as (_ & C & D).
  split; [exact A |].
  split; [exact (B (Sample.ctx "Write") no_config Sample.logger Sample.fresh eq_refl) |].
  split; [exact C |].
  exact (D (Sample.ctx "Edit") no_config Sample.logger Sample.fresh eq_refl).
Defined.

(** ** message, browser, cron, nodes, tts *)

(** The tools with external effects ([message], [browser], [cron], [nodes],
    [tts]) are never blocked and, where the [action] of a [cron] call
    converts to a text, score 18 at most (a [message] to several targets):
    under every threshold above 18, the default among them, the evaluator
    allows them. *)
Theorem external_tools_score_at_most_18 :
  forall (toolName : string) (params : Json.object) (action : string),
    Js.array_includes EXTERNAL_EFFECT_TOOLS toolName = true ->
    (toolName = "cron" ->
     Json.String_or_empty (Json.get params "action") = Returns action) ->
    Evaluate.checkIntrinsicEvil toolName params = Returns None
    /\ (exists c s,
           Evaluate.assessClarity toolName params = Returns c
           /\ Evaluate.assessStakes toolName params = Returns s
           /\ c * s
              = (if String.eqb toolName "message"
                 then (if Evaluate.broadcast params then 18 else 12)
                 else if String.eqb toolName "cron"
                      then (if Evaluate.schedules action then 15 else 3)
                      else 3))
    /\ (forall ctx config logger w,
           18 < match escalationThreshold config with
                | Some threshold => threshold
                | None => 36
                end ->
           decision <$> (Evaluate.evaluate toolName params ctx config logger w).1
           = Returns Decision.allow).
Proof.
  intros toolName params action Hlisted Haction.
  assert (Hevil : Evaluate.checkIntrinsicEvil toolName params = Returns None).
  { apply checkIntrinsicEvil_other. apply array_includes_true in Hlisted.
    simpl in Hlisted. intuition (subst; reflexivity). }
  assert (Hscore :
    exists c s,
      Evaluate.assessClarity toolName params = Returns c
      /\ Evaluate.assessStakes toolName params = Returns s
      /\ c * s
         = (if String.eqb toolName "message"
            then (if Evaluate.broadcast params then 18 else 12)
            else if String.eqb toolName "cron"
                 then (if Evaluate.schedules action then 15 else 3)
                 else 3)).
  { apply array_includes_true in Hlisted. simpl in Hlisted.
    destruct Hlisted as [<- | [<- | [<- | [<- | [<- | []]]]]].
    - exists (if Evaluate.broadcast params then 6 else 4), 3.
      split; [| split].
      + skip_statements. unfold Evaluate.clarity_message.
        change (String.eqb "message" "message") with true. cbv iota zeta.
        destruct (Evaluate.broadcast params); reflexivity.
      + skip_statements. reflexivity.
      + destruct (Evaluate.broadcast params); reflexivity.
    - exists 3, 1. repeat split; skip_statements; reflexivity.
    - exists (if Evaluate.schedules action then 5 else 3),
             (if Evaluate.schedules action then 3 else 1).
      split; [| split].
      + skip_statements. unfold Evaluate.clarity_cron.
        change (String.eqb "cron" "cron") with true. cbv iota.
        rewrite (Haction eq_refl). cbn [and_then].
        destruct (Evaluate.schedules action); reflexivity.
      + skip_statements. unfold Evaluate.stakes_cron.
        change (String.eqb "cron" "cron") with true. cbv iota.
        rewrite (Haction eq_refl). cbn [and_then].
        destruct (Evaluate.schedules action); reflexivity.
      + destruct (Evaluate.schedules action); reflexivity.
    - exists 3, 1. repeat split; skip_statements; reflexivity.
    - exists 3, 1. repeat split; skip_statements; reflexivity. }
  split; [exact Hevil |]. split; [exact Hscore |].
  intros ctx config logger w Hth.
  destruct Hscore as (c & s & Hc & Hs & Hscore).
  apply (evaluate_allows toolName params ctx config logger w c s Hevil Hc Hs).
  rewrite threshold_of_config, Hscore.
  destruct (String.eqb toolName "message"), (String.eqb toolName "cron"),
    (Evaluate.broadcast params), (Evaluate.schedules action); lia.
Qed.

(** A message to two recipients, and a job added to the schedule. *)
Lemma external_tools_score_at_most_18_witness :
  (exists c s,
      Evaluate.assessClarity "message" Cases.broadcast_message = Returns c
      /\ Evaluate.assessStakes "message" Cases.broadcast_message = Returns s
      /\ c * s = 18)
  /\ decision <$> (Evaluate.evaluate "message" Cases.broadcast_message
                     (Sample.ctx "message") no_config Sample.logger Sample.fresh).1
     = Returns Decision.allow
  /\ decision <$> (Evaluate.evaluate "cron" Cases.cron_add (Sample.ctx "cron")
                     no_config Sample.logger Sample.fresh).1
     = Returns Decision.allow.
Proof.
  pose proof (external_tools_score_at_most_18 "message" Cases.broadcast_message ""
                eq_refl (fun _ => eq_refl))
    as (_ & A & B).
  pose proof (external_tools_score_at_most_18 "cron" Cases.cron_add "add"
                eq_refl (fun _ => eq_refl))
    as (_ & _ & C).
  split; [exact A |].
  split; [apply B; reflexivity | apply C; reflexivity].
Defined.

(** ** exec *)

Section Exec.

Import Evaluate.

Variables (params : Json.object) (cmd : string).

Hypothesis command : Json.String_or_empty (Json.get params "command") = Returns cmd.

Lemma exec_scores :
  assessClarity "exec" params
  = (let! c1 := clarity_infrastructure "exec" params 1 in
     let! c := clarity_exec "exec" params c1 in
     Returns (Z.min c 10))
  /\ assessStakes "exec" params
     = (let! s1 := stakes_infrastructure "exec" params 1 in
        let! s := stakes_exec "exec" params s1 in
        Returns (Z.min s 10)).
Proof.
  split.
  - unfold assessClarity. cbv zeta.
    destruct (clarity_infrastructure "exec" params 1) as [c1|]; [| reflexivity].
    cbn [and_then]. rewrite clarity_external_other, clarity_gateway_other by reflexivity.
    cbn [and_then].
    destruct (clarity_exec "exec" params c1) as [c|]; [| reflexivity].
    cbn [and_then]. rewrite clarity_message_other, clarity_cron_other by reflexivity.
    reflexivity.
  - unfold assessStakes. cbv zeta.
    destruct (stakes_infrastructure "exec" params 1) as [s1|]; [| reflexivity].
    cbn [and_then]. rewrite stakes_gateway_other by reflexivity. cbn [and_then].
    destruct (stakes_exec "exec" params s1) as [s|]; [| reflexivity].
    cbn [and_then]. rewrite stakes_file_other by reflexivity. cbn [and_then].
    rewrite stakes_message_other, stakes_cron_other by reflexivity.
    reflexivity.
Qed.

(** What the marker of an image generator leaves of the two scores. *)
Lemma image_command_scores :
  isImageGenerationCommand cmd = true ->
  let concerning :=
    match promptContent cmd with
    | Some contentCheck => negb (cc_block contentCheck)
    | None => false
    end in
  assessClarity "exec" params = Returns (if concerning then 4 else 1)
  /\ assessStakes "exec" params = Returns (if concerning then 3 else 1).
Proof.
  intros Himage concerning. subst concerning.
  destruct exec_scores as [-> ->].
  unfold clarity_exec, stakes_exec, clarity_infrastructure, stakes_infrastructure.
  change (Js.array_includes INFRASTRUCTURE_TOOLS "exec") with true.
  change (String.eqb "exec" "exec") with true. cbv iota.
  rewrite command. cbn [and_then].
  rewrite Himage. cbn [negb].
  destruct (promptContent cmd) as [cc |]; [destruct (cc_block cc) |]; split; reflexivity.
Qed.

(** The two scores of any other command, penalty by penalty. *)
Lemma plain_command_scores :
  isImageGenerationCommand cmd = false ->
  assessClarity "exec" params
  = Returns
      (Z.min (4 + (if Js.includes cmd "sudo" then 2 else 0)
                + (if Js.includes cmd "rm "
                      || Js.includes cmd ("rm" ++ String (ascii_of_nat 9) "")
                   then 2 else 0)
                + (if Js.includes cmd "|" || Js.includes cmd ";" then 1 else 0)) 10)
  /\ assessStakes "exec" params
     = Returns
         (Z.min (4 + (if Js.includes cmd "rm " && negb (Js.includes cmd "-i")
                      then 3 else 0)
                   + (if Js.includes cmd "kill" || Js.includes cmd "pkill" then 2 else 0)
                   + (if Js.includes cmd "shutdown" || Js.includes cmd "reboot"
                      then 5 else 0)
                   + (if Js.includes cmd "sudo" then 2 else 0)
                   + (if Js.includes cmd "openclaw"
                         && (Js.includes cmd "stop" || Js.includes cmd "kill")
                      then 4 else 0)) 10).
Proof.
  intros Hplain.
  destruct exec_scores as [-> ->].
  unfold clarity_exec, stakes_exec, clarity_infrastructure, stakes_infrastructure.
  change (Js.array_includes INFRASTRUCTURE_TOOLS "exec") with true.
  change (String.eqb "exec" "exec") with true. cbv iota.
  rewrite command. cbn [and_then].
  rewrite Hplain. cbn [negb]. cbv zeta.
  split; do 2 f_equal.
  - destruct (Js.includes cmd "sudo"), (Js.includes cmd "rm " || _),
      (Js.includes cmd "|" || _); reflexivity.
  - destruct (Js.includes cmd "rm " && _), (Js.includes cmd "kill" || _),
      (Js.includes cmd "shutdown" || _), (Js.includes cmd "sudo"),
      (Js.includes cmd "openclaw" && _); reflexivity.
Qed.

(** The reason of an escalated [exec] can be built. *)
Lemma exec_reason_returns c s score :
  exists why, buildEscalationReason "exec" params c s score = Returns why.
Proof.
  skip_statements. unfold reason_exec.
  change (String.eqb "exec" "exec") with true. cbv iota.
  rewrite command. cbn [and_then]. eexists; reflexivity.
Qed.

End Exec.

(** An [exec] command whose text (what its [command] converts to) contains,
    lower-cased, one of the image-generator names gets none of the penalties
    of [exec], whatever else the command does: clarity and stakes are 4 and 3
    when a prompt is extracted whose content is concerning and not harmful,
    and 1 and 1 otherwise.  So the score is 12 at most, and unless the
    intrinsic-evil check blocks the command it is allowed under every
    threshold above 12. *)
Theorem image_marker_switches_exec_scoring_off :
  forall (params : Json.object) (cmd : string),
    Json.String_or_empty (Json.get params "command") = Returns cmd ->
    let concerning :=
      match Evaluate.promptContent cmd with
      | Some contentCheck => negb (Evaluate.cc_block contentCheck)
      | None => false
      end in
    Evaluate.isImageGenerationCommand cmd = true ->
    Evaluate.assessClarity "exec" params = Returns (if concerning then 4 else 1)
    /\ Evaluate.assessStakes "exec" params = Returns (if concerning then 3 else 1)
    /\ (forall ctx config logger w,
           Evaluate.checkIntrinsicEvil "exec" params = Returns None ->
           12 < match escalationThreshold config with
                | Some threshold => threshold
                | None => 36
                end ->
           decision <$> (Evaluate.evaluate "exec" params ctx config logger w).1
           = Returns Decision.allow).
Proof.
  intros params cmd Hcmd concerning Himage.
  pose proof (image_command_scores params cmd Hcmd Himage) as Hs. cbv zeta in Hs.
  fold concerning in Hs. destruct Hs as [Hc Hs].
  split; [exact Hc |]. split; [exact Hs |].
  intros ctx config logger w Hevil Hth.
  apply (evaluate_allows "exec" params ctx config logger w _ _ Hevil Hc Hs).
  rewrite threshold_of_config. destruct concerning; lia.
Qed.

(** A shutdown under [sudo] is escalated; with "dall-e" in a trailing
    comment it scores 1 and is allowed. *)
Lemma image_marker_switches_exec_scoring_off_witness :
  Evaluate.assessClarity "exec" Cases.shutdown_marked = Returns 1
  /\ Evaluate.assessStakes "exec" Cases.shutdown_marked = Returns 1
  /\ decision <$> (Evaluate.evaluate "exec" Cases.shutdown_marked (Sample.ctx "exec")
                     no_config Sample.logger Sample.fresh).1
     = Returns Decision.allow
  /\ decision <$> (Evaluate.evaluate "exec" Cases.shutdown_plain (Sample.ctx "exec")
                     no_config Sample.logger Sample.fresh).1
     = Returns Decision.escalate.
Proof.
  assert (Himage : Evaluate.isImageGenerationCommand "sudo shutdown -h now # dall-e"
                   = true) by (vm_compute; reflexivity).
  pose proof (image_marker_switches_exec_scoring_off Cases.shutdown_marked
                "sudo shutdown -h now # dall-e" eq_refl Himage)
    as (A1 & A2 & B).
  assert (Hnone : Evaluate.promptContent "sudo shutdown -h now # dall-e" = None)
    by (vm_compute; reflexivity).
  assert (Hevil : Evaluate.checkIntrinsicEvil "exec" Cases.shutdown_marked = Returns None)
    by (vm_compute; reflexivity).
  rewrite Hnone in A1, A2.
  split; [exact A1 |]. split; [exact A2 |].
  split; [apply B; [exact Hevil | reflexivity] |].
  vm_compute. reflexivity.
Defined.

(** An [exec] command that is not an image generation scores 16 at least,
    and 36 at least when its text contains "sudo", "shutdown" or "reboot",
    or "rm " without "-i": unless it is blocked, such a command is escalated
    under every threshold up to 36, the default among them. *)
Theorem risky_exec_commands_reach_the_default_threshold :
  forall (params : Json.object) (cmd : string),
    Json.String_or_empty (Json.get params "command") = Returns cmd ->
    Evaluate.isImageGenerationCommand cmd = false ->
    exists c s,
      Evaluate.assessClarity "exec" params = Returns c
      /\ Evaluate.assessStakes "exec" params = Returns s
      /\ 16 <= c * s
      /\ (Js.includes cmd "sudo" = true
          \/ Js.includes cmd "shutdown" = true
          \/ Js.includes cmd "reboot" = true
          \/ (Js.includes cmd "rm " = true /\ Js.includes cmd "-i" = false) ->
          36 <= c * s
          /\ (forall ctx config logger w,
                 Evaluate.checkIntrinsicEvil "exec" params = Returns None ->
                 match escalationThreshold config with
                 | Some threshold => threshold
                 | None => 36
                 end <= 36 ->
                 decision <$> (Evaluate.evaluate "exec" params ctx config logger w).1
                 = Returns Decision.escalate)).
Proof.
  intros params cmd Hcmd Hplain.
  assert (Hall : forall a b c d e f g h i : bool,
             let s := Z.min (4 + (if a then 2 else 0) + (if b || c then 2 else 0)
                               + (if d then 1 else 0)) 10
                      * Z.min (4 + (if b && negb e then 3 else 0) + (if f then 2 else 0)
                                 + (if g || h then 5 else 0) + (if a then 2 else 0)
                                 + (if i then 4 else 0)) 10 in
             (16 <=? s) && (implb (a || g || h || (b && negb e)) (36 <=? s)) = true).
  { intros a b c d e f g h i.
    destruct a, b, c, d, e, f, g, h, i; reflexivity. }
  destruct (plain_command_scores params cmd Hcmd Hplain) as [Hc Hs].
  do 2 eexists. split; [exact Hc |]. split; [exact Hs |].
  match goal with
  | |- 16 <= ?c * ?s /\ _ => set (cv := c) in *; set (sv := s) in *
  end.
  set (score := cv * sv).
  assert (Hbounds : 16 <= score
                    /\ (Js.includes cmd "sudo" || Js.includes cmd "shutdown"
                        || Js.includes cmd "reboot"
                        || (Js.includes cmd "rm " && negb (Js.includes cmd "-i")) = true ->
                        36 <= score)).
  { subst score cv sv.
    specialize (Hall (Js.includes cmd "sudo") (Js.includes cmd "rm ")
                     (Js.includes cmd ("rm" ++ String (ascii_of_nat 9) ""))
                     (Js.includes cmd "|" || Js.includes cmd ";")
                     (Js.includes cmd "-i")
                     (Js.includes cmd "kill" || Js.includes cmd "pkill")
                     (Js.includes cmd "shutdown") (Js.includes cmd "reboot")
                     (Js.includes cmd "openclaw"
                      && (Js.includes cmd "stop" || Js.includes cmd "kill"))).
    cbv zeta in Hall. apply andb_true_iff in Hall. destruct Hall as [H16 H36].
    split; [apply Z.leb_le; exact H16 |].
    intros Hx. rewrite Hx in H36. apply Z.leb_le. exact H36. }
  destruct Hbounds as [H16 H36].
  split; [exact H16 |].
  intros Hrisky.
  assert (Hge : 36 <= score).
  { apply H36.
    destruct Hrisky as [H | [H | [H | [H1 H2]]]];
      rewrite ?H, ?H1, ?H2; cbn [orb andb negb]; rewrite ?orb_true_r; reflexivity. }
  split; [exact Hge |].
  intros ctx config logger w Hevil Hth.
  destruct (exec_reason_returns params cmd Hcmd cv sv score) as [why Hwhy].
  rewrite (evaluate_verdict "exec" params ctx config logger w cv sv why Hevil Hc Hs
             Hwhy).
  fold score. rewrite threshold_of_config.
  replace (_ <=? score) with true; [reflexivity |].
  symmetry. apply Z.leb_le. lia.
Qed.

(** A shutdown under [sudo]. *)
Lemma risky_exec_commands_reach_the_default_threshold_witness :
  decision <$> (Evaluate.evaluate "exec" Cases.shutdown_plain (Sample.ctx "exec")
                  no_config Sample.logger Sample.fresh).1
  = Returns Decision.escalate.
Proof.
  assert (Hplain : Evaluate.isImageGenerationCommand "sudo shutdown -h now" = false)
    by (vm_compute; reflexivity).
  assert (Hevil : Evaluate.checkIntrinsicEvil "exec" Cases.shutdown_plain = Returns None)
    by (vm_compute; reflexivity).
  destruct (risky_exec_commands_reach_the_default_threshold Cases.shutdown_plain
              "sudo shutdown -h now" eq_refl Hplain)
    as (c & s & _ & _ & _ & H).
  destruct (H (or_introl eq_refl)) as [_ Hd].
  apply Hd; [exact Hevil |]. vm_compute. discriminate.
Defined.

(** ** The intrinsic-evil check *)

(** For an [exec] whose [command] converts to a text, [checkIntrinsicEvil]
    answers with one of its four fixed reasons exactly when the lower-cased
    text contains "rm -rf /" and not "rm -rf /tmp", or the fork bomb, or
    "mkfs" and not "--dry-run", or "> /dev/sd", or both "dd if=" and
    "of=/dev/"; the evaluator then blocks, whatever the threshold. *)
Theorem destructive_commands_are_intrinsic_evil :
  forall (params : Json.object) (cmd : string),
    Json.String_or_empty (Json.get params "command") = Returns cmd ->
    let lowerCmd := Js.toLowerCase cmd in
    let destructive :=
      Js.includes lowerCmd "rm -rf /" && negb (Js.includes lowerCmd "rm -rf /tmp")
      || Js.includes lowerCmd ":(){ :|:& };:"
      || Js.includes lowerCmd "mkfs" && negb (Js.includes lowerCmd "--dry-run")
      || (Js.includes lowerCmd "> /dev/sd"
          || Js.includes lowerCmd "dd if=" && Js.includes lowerCmd "of=/dev/") in
    ((exists why,
         In why ["Command would destroy root filesystem"; "Fork bomb detected";
                 "Filesystem format command detected"; "Raw disk write detected"]
         /\ Evaluate.checkIntrinsicEvil "exec" params = Returns (Some why))
     <-> destructive = true)
    /\ (destructive = true ->
        forall ctx config logger w,
          decision <$> (Evaluate.evaluate "exec" params ctx config logger w).1
          = Returns Decision.block).
Proof.
  intros params cmd Hcmd lowerCmd destructive.
  assert (Hcases :
    (destructive = true /\
     exists why,
       In why ["Command would destroy root filesystem"; "Fork bomb detected";
               "Filesystem format command detected"; "Raw disk write detected"]
       /\ Evaluate.checkIntrinsicEvil "exec" params = Returns (Some why))
    \/ (destructive = false /\
        forall why,
          In why ["Command would destroy root filesystem"; "Fork bomb detected";
                  "Filesystem format command detected"; "Raw disk write detected"] ->
          Evaluate.checkIntrinsicEvil "exec" params <> Returns (Some why))).
  { subst destructive. unfold Evaluate.checkIntrinsicEvil.
    change (String.eqb "exec" "exec") with true. cbv iota.
    rewrite Hcmd. cbn [and_then]. cbv zeta. fold lowerCmd.
    destruct (Js.includes lowerCmd "rm -rf /" && _);
      [left; split; [reflexivity | eexists; split; [| reflexivity]; simpl; auto] |].
    destruct (Js.includes lowerCmd ":(){ :|:& };:");
      [left; split; [reflexivity | eexists; split; [| reflexivity]; simpl; auto] |].
    destruct (Js.includes lowerCmd "mkfs" && _);
      [left; split; [reflexivity | eexists; split; [| reflexivity]; simpl; auto] |].
    destruct (Js.includes lowerCmd "> /dev/sd" || _);
      [left; split; [reflexivity | eexists; split; [| reflexivity]; simpl; auto 6] |].
    right. split; [reflexivity |]. intros why Hin.
    destruct (Evaluate.isImageGenerationCommand _); [| discriminate].
    unfold Evaluate.promptContent.
    destruct (Evaluate.nonempty _) as [prompt |]; [| discriminate].
    destruct (Evaluate.checkImagePromptContent prompt) as [cc |] eqn:Hcc; [| discriminate].
    destruct (Evaluate.cc_block cc) eqn:Hb; [| discriminate].
    destruct (blocking_reason_is_about_an_image _ _ Hcc Hb) as (category & ->).
    simpl in Hin. intros [= <-].
    repeat (destruct Hin as [Hin | Hin]; [discriminate Hin |]). exact Hin. }
  split.
  - split.
    + intros (why & Hin & Hwhy).
      destruct Hcases as [[Hd _] | [_ Hnot]]; [exact Hd |].
      exfalso. exact (Hnot why Hin Hwhy).
    + intros Hd. destruct Hcases as [[_ H] | [Hd' _]]; [exact H | congruence].
  - intros Hd ctx config logger w.
    destruct Hcases as [[_ (why & _ & Hwhy)] | [Hd' _]]; [| congruence].
    rewrite (evaluate_block "exec" params ctx config logger w why Hwhy). reflexivity.
Qed.

(** A format command in upper case, under a threshold no score reaches. *)
Lemma destructive_commands_are_intrinsic_evil_witness :
  decision <$> (Evaluate.evaluate "exec" Cases.format_disk (Sample.ctx "exec")
                  Cases.threshold_over_100 Sample.logger Sample.fresh).1
  = Returns Decision.block.
Proof.
  apply (proj2 (destructive_commands_are_intrinsic_evil Cases.format_disk
                  "MKFS.ext4 /dev/sdb1" eq_refl)).
  vm_compute. reflexivity.
Defined.

(** ** The threshold *)

(** Past the intrinsic-evil check, a verdict the evaluator returns is
    escalate under every threshold of 1 or less and allow under every
    threshold above 100.  A configured threshold of 0 is used as it is,
    while a configured timeout or window of 0 is replaced by the default. *)
Theorem threshold_extremes :
  forall (toolName : string) (params : Json.object) (ctx : ToolContext)
         (config : GuardianAngelConfig) (logger : PluginLogger) (w : Host.World)
         (result : EvaluationResult),
    Evaluate.checkIntrinsicEvil toolName params = Returns None ->
    (Evaluate.evaluate toolName params ctx config logger w).1 = Returns result ->
    let threshold :=
      match escalationThreshold config with
      | Some threshold => threshold
      | None => 36
      end in
    (threshold <= 1 -> decision result = Decision.escalate)
    /\ (100 < threshold -> decision result = Decision.allow)
    /\ (escalationThreshold config = Some 0 -> decision result = Decision.escalate)
    /\ (pendingTimeoutMs config = Some 0 ->
        CreateStore.pendingTimeout config = DEFAULT_PENDING_TIMEOUT_MS)
    /\ (approvalWindowMs config = Some 0 ->
        CreateStore.approvalWindow config = DEFAULT_APPROVAL_WINDOW_MS).
Proof.
  intros toolName params ctx config logger w result Hevil Hresult threshold.
  destruct (returned_verdict_has_scores toolName params ctx config logger w result
              Hevil Hresult) as (c & s & Hc & Hs).
  destruct (evaluate_decision toolName params ctx config logger w c s result
              Hevil Hc Hs Hresult) as (Hd & _).
  rewrite threshold_of_config in Hd. fold threshold in Hd.
  pose proof (assessClarity_range toolName params c Hc) as Hcr.
  pose proof (assessStakes_range toolName params s Hs) as Hsr.
  assert (Hlow : threshold <= 1 -> decision result = Decision.escalate).
  { intros Hth. rewrite Hd.
    replace (threshold <=? c * s) with true; [reflexivity |].
    symmetry. apply Z.leb_le. nia. }
  split; [exact Hlow |]. split; [| split; [| split]].
  - intros Hth. rewrite Hd.
    replace (threshold <=? c * s) with false; [reflexivity |].
    symmetry. apply Z.leb_gt. nia.
  - intros Hzero. apply Hlow. subst threshold. rewrite Hzero. lia.
  - unfold CreateStore.pendingTimeout. intros ->. reflexivity.
  - unfold CreateStore.approvalWindow. intros ->. reflexivity.
Qed.

(** The gateway scenario under a threshold of 101, and a harmless call
    under a threshold of 1. *)
Lemma threshold_extremes_witness :
  decision <$> (Evaluate.evaluate "gateway" Sample.config_apply (Sample.ctx "gateway")
                  Cases.threshold_over_100 Sample.logger Sample.fresh).1
  = Returns Decision.allow
  /\ decision <$> (Evaluate.evaluate "memory_search" [] (Sample.ctx "memory_search")
                     Sample.threshold_one Sample.logger Sample.fresh).1
     = Returns Decision.escalate
  /\ CreateStore.pendingTimeout Cases.threshold_over_100 = 300000.
Proof.
  destruct (evaluate_returns "gateway" Sample.config_apply eq_refl (Sample.ctx "gateway")
              Cases.threshold_over_100 Sample.logger Sample.fresh) as [high Hhigh].
  destruct (evaluate_returns "memory_search" [] eq_refl (Sample.ctx "memory_search")
              Sample.threshold_one Sample.logger Sample.fresh) as [low Hlow].
  pose proof (threshold_extremes "gateway" Sample.config_apply (Sample.ctx "gateway")
                Cases.threshold_over_100 Sample.logger Sample.fresh high eq_refl Hhigh)
    as (_ & A & _ & B & _).
  pose proof (threshold_extremes "memory_search" [] (Sample.ctx "memory_search")
                Sample.threshold_one Sample.logger Sample.fresh low eq_refl Hlow)
    as (C & _).
  split; [rewrite Hhigh; cbn [fmap Completion_fmap]; rewrite A; reflexivity |].
  split; [rewrite Hlow; cbn [fmap Completion_fmap]; rewrite C;
          [reflexivity | vm_compute; discriminate] |].
  apply B. reflexivity.
Defined.

(** ** The gate's verdicts *)

Section Verdicts.

Import Host CreateStore.

Variables (config : GuardianAngelConfig) (logger : PluginLogger).
Variables (toolName : string) (params : Json.object).

Lemma gate_step_1 w :
  enabled config = Some false ->
  before_tool_call config logger toolName params w = (Returns None, w).
Proof.
  intros H. unfold before_tool_call, Hook.createBeforeToolCallHandler.
  rewrite H. reflexivity.
Qed.

Lemma gate_step_2 w :
  enabled config <> Some false ->
  Js.array_includes (Hook.list_or_empty (neverBlock config)) toolName = true ->
  before_tool_call config logger toolName params w
  = (Returns None,
     (log_debug logger ("[GA] " ++ toolName ++ ": exempt, allowing") w).2).
Proof.
  intros Hon H. unfold before_tool_call, Hook.createBeforeToolCallHandler.
  cbn [Hook.toolName Hook.params]. rewrite H.
  destruct (enabled config) as [[|]|]; try reflexivity.
  exfalso. apply Hon. reflexivity.
Qed.

(** What [escalate] returns and logs. *)
Lemma escalate_result paramsHash why w :
  let c := createPending config paramsHash toolName params w in
  Hook.escalate toolName params paramsHash (methods config) logger why w
  = ({| Hook.result_params := None;
        Hook.block := Some true;
        Hook.blockReason := Some ("GUARDIAN_ANGEL_ESCALATE|" ++ c.1 ++ "|" ++ why) |},
     (log info ("[GA] " ++ toolName ++ ": escalating (nonce: " ++ c.1 ++ ")") c.2).2).
Proof. reflexivity. Qed.

(** The gate throws only what the evaluator throws. *)
Lemma gate_throws_with_the_evaluator w :
  (before_tool_call config logger toolName params w).1 = Throws ->
  exists w',
    (Evaluate.evaluate toolName params
       {| agentId := None; sessionKey := None; ctx_toolName := toolName |}
       config logger w').1 = Throws.
Proof.
  destruct (enabled config) as [[|]|] eqn:Hen.
  2: { rewrite gate_step_1 by exact Hen. discriminate. }
  all: assert (Hon : enabled config <> Some false) by (rewrite Hen; discriminate).
  all: destruct (Js.array_includes (Hook.list_or_empty (neverBlock config)) toolName)
         eqn:Hnever;
    [rewrite gate_step_2 by assumption; discriminate |].
  all: rewrite gate_steps_3_to_5 by assumption; cbv zeta.
  all: destruct (consumeApproval _ w).1; [discriminate |].
  all: destruct (Js.array_includes (Hook.list_or_empty (alwaysBlock config)) toolName);
    [discriminate |].
  all: destruct (Evaluate.evaluate _ _ _ _ _ _).1 as [result|] eqn:Hresult;
    [destruct (decision result); discriminate | intros _; eexists; exact Hresult].
Qed.

End Verdicts.

(** For a tool other than [exec] the gate allows the call, or escalates it
    under a nonce of eight hexadecimal digits, or throws the error of a
    conversion, which it does for no printable parameter object: it never
    answers with a block that cannot be approved. *)
Theorem only_exec_is_ever_blocked :
  forall (config : GuardianAngelConfig) (logger : PluginLogger)
         (toolName : string) (params : Json.object) (w : Host.World),
    toolName <> "exec" ->
    let r := before_tool_call config logger toolName params w in
    (r.1 = Returns None
     \/ r.1 = Throws
     \/ exists nonce why,
          String.length nonce = 8%nat /\ Js.all_hex nonce = true
          /\ r.1 = Returns
                     (Some {| Hook.result_params := None;
                              Hook.block := Some true;
                              Hook.blockReason :=
                                Some ("GUARDIAN_ANGEL_ESCALATE|" ++ nonce
                                      ++ "|" ++ why) |}))
    /\ (forall result why,
           r.1 = Returns (Some result) ->
           Hook.blockReason result <> Some ("GUARDIAN_ANGEL_BLOCK|" ++ why))
    /\ (Json.printable_object params = true -> r.1 <> Throws).
Proof.
  intros config logger toolName params w Hname r.
  assert (Hshape :
    r.1 = Returns None
    \/ r.1 = Throws
    \/ exists nonce why,
         String.length nonce = 8%nat /\ Js.all_hex nonce = true
         /\ r.1 = Returns
                    (Some {| Hook.result_params := None;
                             Hook.block := Some true;
                             Hook.blockReason :=
                               Some ("GUARDIAN_ANGEL_ESCALATE|" ++ nonce
                                     ++ "|" ++ why) |})).
  { subst r.
    destruct (enabled config) as [[|]|] eqn:Hen.
    2: { left. rewrite gate_step_1 by exact Hen. reflexivity. }
    all: assert (Hon : enabled config <> Some false) by (rewrite Hen; discriminate).
    all: destruct (Js.array_includes (Hook.list_or_empty (neverBlock config)) toolName)
           eqn:Hnever;
      [left; rewrite gate_step_2 by assumption; reflexivity |].
    all: rewrite gate_steps_3_to_5 by assumption; cbv zeta.
    all: destruct (CreateStore.consumeApproval _ w).1; [left; reflexivity |].
    all: destruct (Js.array_includes (Hook.list_or_empty (alwaysBlock config)) toolName);
      [right; right; rewrite escalate_result; cbv zeta; rewrite createPending_result;
       cbv zeta; cbn [fst snd]; eexists; eexists;
       split; [apply hex_of_word_length |];
       split; [apply hex_of_word_all_hex | reflexivity] |].
    all: destruct (Evaluate.evaluate _ _ _ _ _ _).1 as [result|] eqn:Hresult;
      [| right; left; reflexivity].
    all: pose proof (returned_verdict_is_no_block toolName params _ _ _ _ result
                       (checkIntrinsicEvil_other toolName params
                          (proj2 (String.eqb_neq _ _) Hname))
                       Hresult) as Hnoblock.
    all: destruct (decision result); [left; reflexivity | contradiction |].
    all: right; right; rewrite escalate_result; cbv zeta; rewrite createPending_result;
      cbv zeta; cbn [fst snd]; eexists; eexists;
      split; [apply hex_of_word_length |];
      split; [apply hex_of_word_all_hex | reflexivity]. }
  split; [exact Hshape |]. split.
  - intros result why Hr.
    destruct Hshape as [H | [H | (nonce & reason & _ & _ & H)]];
      rewrite H in Hr; try discriminate Hr.
    injection Hr as <-. discriminate.
  - intros Hp Hthrows.
    destruct (gate_throws_with_the_evaluator config logger toolName params w Hthrows)
      as [w' Hw'].
    destruct (evaluate_returns toolName params Hp
                {| agentId := None; sessionKey := None; ctx_toolName := toolName |}
                config logger w') as [result Hresult].
    congruence.
Qed.

(** The gateway scenario, and a [gateway] request whose [action] cannot be
    converted. *)
Lemma only_exec_is_ever_blocked_witness :
  ((before_tool_call no_config Sample.logger "gateway" Sample.config_apply
      Sample.fresh).1 = Returns None
   \/ (before_tool_call no_config Sample.logger "gateway" Sample.config_apply
         Sample.fresh).1 = Throws
   \/ exists nonce why,
        String.length nonce = 8%nat /\ Js.all_hex nonce = true
        /\ (before_tool_call no_config Sample.logger "gateway" Sample.config_apply
              Sample.fresh).1
           = Returns
               (Some {| Hook.result_params := None;
                        Hook.block := Some true;
                        Hook.blockReason :=
                          Some ("GUARDIAN_ANGEL_ESCALATE|" ++ nonce ++ "|" ++ why) |}))
  /\ (before_tool_call no_config Sample.logger "gateway" Cases.gateway_unprintable
        Sample.fresh).1 = Throws.
Proof.
  assert (Hname : "gateway" <> "exec") by discriminate.
  split.
  - exact (proj1 (only_exec_is_ever_blocked no_config Sample.logger "gateway"
                    Sample.config_apply Sample.fresh Hname)).
  - vm_compute. reflexivity.
Defined.

(** When the intrinsic-evil check matches (the tool is neither exempt nor
    listed in [alwaysBlock], and no unexpired approval is stored under the
    call's fingerprint), the gate blocks with the check's reason, whatever
    the threshold; it draws no nonce and stores no escalation, so that
    [approvePending] afterwards refuses every nonce that was not pending
    before and that names no member objects inherit (no nonce of
    hexadecimal digits does). *)
Theorem intrinsic_evil_leaves_nothing_to_approve :
  forall (config : GuardianAngelConfig) (logger : PluginLogger)
         (toolName : string) (params : Json.object) (w : Host.World) (why : string),
    enabled config <> Some false ->
    Js.array_includes (Hook.list_or_empty (neverBlock config)) toolName = false ->
    Js.array_includes (Hook.list_or_empty (alwaysBlock config)) toolName = false ->
    Evaluate.checkIntrinsicEvil toolName params = Returns (Some why) ->
    (forall a : ApprovedAction.t,
        approved (CreateStore.load w).1 !! CreateStore.hashParams toolName params = Some a ->
        ApprovedAction.expiresAt a < Host.clock w (Host.ticks w)) ->
    let r := before_tool_call config logger toolName params w in
    r.1 = Returns (Some {| Hook.result_params := None;
                           Hook.block := Some true;
                           Hook.blockReason := Some ("GUARDIAN_ANGEL_BLOCK|" ++ why) |})
    /\ pending (CreateStore.load r.2).1 = pending (CreateStore.load w).1
    /\ Host.draws r.2 = Host.draws w
    /\ Host.logged r.2
       = (Host.warn, "[GA] " ++ toolName ++ ": BLOCKED (" ++ why ++ ")") :: Host.logged w
    /\ (forall nonce : string,
           pending (CreateStore.load w).1 !! nonce = None ->
           Js.array_includes CreateStore.Object_prototype nonce = false ->
           CreateStore.approvePending config nonce r.2
           = (ok_false CreateStore.NotFound, r.2))
    /\ (forall nonce : string,
           pending (CreateStore.load w).1 !! nonce = None ->
           Js.all_hex nonce = true ->
           CreateStore.approvePending config nonce r.2
           = (ok_false CreateStore.NotFound, r.2)).
Proof.
  intros config logger toolName params w why Hon Hnever Halways Hevil Hstale r.
  assert (Hpend : pending (CreateStore.load r.2).1 = pending (CreateStore.load w).1
                  /\ r.1 = Returns
                             (Some {| Hook.result_params := None;
                                      Hook.block := Some true;
                                      Hook.blockReason :=
                                        Some ("GUARDIAN_ANGEL_BLOCK|" ++ why) |})
                  /\ Host.draws r.2 = Host.draws w
                  /\ Host.logged r.2
                     = (Host.warn, "[GA] " ++ toolName ++ ": BLOCKED (" ++ why ++ ")")
                       :: Host.logged w);
    [| destruct Hpend as (Hp & Hr & Hd & Hl);
       split; [exact Hr |]; split; [exact Hp |]; split; [exact Hd |]; split; [exact Hl |];
       split; intros nonce Hnone Hname; apply approvePending_undefined;
       (apply get_undefined;
        [rewrite Hp; exact Hnone | first [exact Hname | apply hex_not_inherited, Hname]])].
  subst r.
  rewrite gate_steps_3_to_5 by assumption. cbv zeta.
  pose proof (consume_without_live_approval _ w
                (hashParams_not_inherited toolName params) Hstale) as Hc.
  cbv zeta in Hc. destruct Hc as (Hnone & Hpending & Hdraws & Hlogged).
  rewrite Hnone, Halways.
  rewrite (evaluate_block toolName params _ config logger _ _ Hevil).
  cbn [fst snd decision reason Hook.show Host.log Host.logged Host.draws].
  split; [exact Hpending |]. split; [reflexivity |].
  split; [exact Hdraws |]. rewrite Hlogged. reflexivity.
Qed.

(** The format command on a host with no store file; approving a nonce
    afterwards is refused. *)
Lemma intrinsic_evil_leaves_nothing_to_approve_witness :
  (before_tool_call Cases.threshold_over_100 Sample.logger "exec" Cases.format_disk
     Sample.fresh).1
  = Returns (Some {| Hook.result_params := None;
                     Hook.block := Some true;
                     Hook.blockReason :=
                       Some "GUARDIAN_ANGEL_BLOCK|Filesystem format command detected" |})
  /\ (CreateStore.approvePending Cases.threshold_over_100 "a7f3c21b"
        (before_tool_call Cases.threshold_over_100 Sample.logger "exec"
           Cases.format_disk Sample.fresh).2).1
     = ok_false CreateStore.NotFound.
Proof.
  assert (Hon : enabled Cases.threshold_over_100 <> Some false) by discriminate.
  assert (Hevil : Evaluate.checkIntrinsicEvil "exec" Cases.format_disk
                  = Returns (Some "Filesystem format command detected"))
    by (vm_compute; reflexivity).
  assert (Hstale : forall a : ApprovedAction.t,
             approved (CreateStore.load Sample.fresh).1
               !! CreateStore.hashParams "exec" Cases.format_disk = Some a ->
             ApprovedAction.expiresAt a < Host.clock Sample.fresh (Host.ticks Sample.fresh)).
  { intros a Ha.
    change (approved (CreateStore.load Sample.fresh).1)
      with (∅ : gmap string ApprovedAction.t) in Ha.
    rewrite lookup_empty in Ha. discriminate. }
  pose proof (intrinsic_evil_leaves_nothing_to_approve Cases.threshold_over_100
                Sample.logger "exec" Cases.format_disk Sample.fresh _
                Hon eq_refl eq_refl Hevil Hstale) as (A & _ & _ & _ & _ & B).
  split; [exact A |].
  rewrite (B "a7f3c21b" (lookup_empty _) eq_refl). reflexivity.
Defined.

(** ** The store on a host whose writes fail *)


Section ReadOnly.

Import Host CreateStore.

Lemma save_read_only st w :
  writable w = false -> save st w = console_error "[GA] Failed to save store:" w.
Proof. unfold save. intros ->. reflexivity. Qed.

(** A live approval is returned, and stays in the file. *)
Lemma consume_on_read_only w key a :
  approved (load w).1 !! key = Some a ->
  clock w (ticks w) <= ApprovedAction.expiresAt a ->
  writable w = false ->
  consumeApproval key w
  = (Some {| approval_nonce := Some (ApprovedAction.nonce a) |},
     (console_error "[GA] Failed to save store:" (Date_now w).2).2).
Proof.
  intros Ha Hlive Hw.
  rewrite consumeApproval_found by (rewrite (get_own _ _ _ Ha); discriminate).
  cbv zeta. rewrite (get_own _ _ _ Ha). cbn [field gt].
  replace (ApprovedAction.expiresAt a <? clock w (ticks w)) with false
    by (symmetry; apply Z.ltb_ge; exact Hlive).
  rewrite save_read_only by exact Hw. reflexivity.
Qed.

End ReadOnly.

(** On a host where the store file cannot be written, [consumeApproval]
    returns the nonce of a live approval and the record stays in the file:
    the next [consumeApproval] returns it again, and the gate allows the same
    request a second time through the same approval. *)
Theorem approval_is_reusable_when_the_write_fails :
  forall (config : GuardianAngelConfig) (logger : PluginLogger)
         (toolName : string) (params : Json.object) (w : Host.World)
         (a : ApprovedAction.t),
    let fingerprint := CreateStore.hashParams toolName params in
    approved (CreateStore.load w).1 !! fingerprint = Some a ->
    Host.writable w = false ->
    Host.clock w (Host.ticks w) <= ApprovedAction.expiresAt a ->
    Host.clock w (S (Host.ticks w)) <= ApprovedAction.expiresAt a ->
    let first := CreateStore.consumeApproval fingerprint w in
    let second := CreateStore.consumeApproval fingerprint first.2 in
    first.1 = Some {| approval_nonce := Some (ApprovedAction.nonce a) |}
    /\ second.1 = Some {| approval_nonce := Some (ApprovedAction.nonce a) |}
    /\ Host.file second.2 = Host.file w
    /\ Host.console second.2
       = "[GA] Failed to save store:" :: "[GA] Failed to save store:" :: Host.console w
    /\ (enabled config <> Some false ->
        Js.array_includes (Hook.list_or_empty (neverBlock config)) toolName = false ->
        let once := before_tool_call config logger toolName params w in
        let twice := before_tool_call config logger toolName params once.2 in
        once.1 = Returns None /\ twice.1 = Returns None
        /\ Host.logged twice.2
           = (Host.info, "[GA] " ++ toolName ++ ": approved via nonce "
                         ++ ApprovedAction.nonce a)
             :: (Host.info, "[GA] " ++ toolName ++ ": approved via nonce "
                            ++ ApprovedAction.nonce a)
             :: Host.logged w).
Proof.
  intros config logger toolName params w a fingerprint Ha Hw Hlive1 Hlive2 first second.
  assert (Hfirst : first
                   = (Some {| approval_nonce := Some (ApprovedAction.nonce a) |},
                      (Host.console_error "[GA] Failed to save store:"
                         (Host.Date_now w).2).2))
    by (apply consume_on_read_only; assumption).
  assert (Hsecond : second
                    = (Some {| approval_nonce := Some (ApprovedAction.nonce a) |},
                       (Host.console_error "[GA] Failed to save store:"
                          (Host.Date_now first.2).2).2)).
  { subst second. rewrite Hfirst. cbn [snd].
    apply consume_on_read_only; [exact Ha | exact Hlive2 | exact Hw]. }
  split; [rewrite Hfirst; reflexivity |].
  split; [rewrite Hsecond; reflexivity |].
  split; [rewrite Hsecond, Hfirst; reflexivity |].
  split; [rewrite Hsecond, Hfirst; reflexivity |].
  intros Hon Hnever once twice.
  assert (Honce : once
                  = (Returns None,
                     (Host.log Host.info
                        ("[GA] " ++ toolName ++ ": approved via nonce "
                         ++ ApprovedAction.nonce a) first.2).2)).
  { subst once. rewrite gate_steps_3_to_5 by assumption. cbv zeta.
    fold fingerprint. fold first. rewrite Hfirst. reflexivity. }
  assert (Htwice : twice
                   = (Returns None,
                      (Host.log Host.info
                         ("[GA] " ++ toolName ++ ": approved via nonce "
                          ++ ApprovedAction.nonce a)
                         (Host.console_error "[GA] Failed to save store:"
                            (Host.Date_now once.2).2).2).2)).
  { subst twice. rewrite gate_steps_3_to_5 by assumption. cbv zeta.
    fold fingerprint.
    rewrite (consume_on_read_only once.2 fingerprint a).
    - reflexivity.
    - rewrite Honce, Hfirst. exact Ha.
    - rewrite Honce, Hfirst. exact Hlive2.
    - rewrite Honce, Hfirst. exact Hw. }
  split; [rewrite Honce; reflexivity |].
  split; [rewrite Htwice; reflexivity |].
  rewrite Htwice, Honce, Hfirst. reflexivity.
Qed.


(** The approval of the gateway request lets [exec rm -rf /home/user]
    through twice. *)
Lemma approval_is_reusable_when_the_write_fails_witness :
  (before_tool_call no_config Sample.logger "exec" Sample.rm_home
     Cases.approval_on_read_only).1 = Returns None
  /\ (before_tool_call no_config Sample.logger "exec" Sample.rm_home
        (before_tool_call no_config Sample.logger "exec" Sample.rm_home
           Cases.approval_on_read_only).2).1 = Returns None.
Proof.
  assert (Hfp : CreateStore.hashParams "exec" Sample.rm_home = Sample.fingerprint)
    by (vm_compute; reflexivity).
  assert (Ha : approved (CreateStore.load Cases.approval_on_read_only).1
                 !! CreateStore.hashParams "exec" Sample.rm_home
               = Some (Sample.approved_record 500))
    by (rewrite Hfp; apply lookup_singleton_eq).
  assert (H1 : Host.clock Cases.approval_on_read_only
                 (Host.ticks Cases.approval_on_read_only)
               <= ApprovedAction.expiresAt (Sample.approved_record 500))
    by (simpl; lia).
  assert (H2 : Host.clock Cases.approval_on_read_only
                 (S (Host.ticks Cases.approval_on_read_only))
               <= ApprovedAction.expiresAt (Sample.approved_record 500))
    by (simpl; lia).
  assert (Hon : enabled no_config <> Some false) by discriminate.
  pose proof (approval_is_reusable_when_the_write_fails no_config Sample.logger "exec"
                Sample.rm_home Cases.approval_on_read_only (Sample.approved_record 500)
                Ha eq_refl H1 H2) as (_ & _ & _ & _ & H).
  destruct (H Hon eq_refl) as (A & B & _).
  exact (conj A B).
Defined.

(** On a host where the store file cannot be written, the nonce that
    [createPending] returns is not stored: approving it fails with NotFound,
    and the approval tool tells the agent so. *)
Theorem escalation_cannot_be_approved_when_the_write_fails :
  forall (config : GuardianAngelConfig) (logger : PluginLogger)
         (paramsHash toolName : string) (params : Json.object) (w : Host.World),
    Host.writable w = false ->
    let r := CreateStore.createPending config paramsHash toolName params w in
    pending (CreateStore.load w).1 !! r.1 = None ->
    (CreateStore.load r.2).1 = (CreateStore.load w).1
    /\ CreateStore.approvePending config r.1 r.2 = (ok_false CreateStore.NotFound, r.2)
    /\ ApproveTool.content (ga_approve config logger r.1 r.2).1
       = [("text", "❌ Approval failed: Nonce not found or already used")].
Proof.
  intros config logger paramsHash toolName params w Hw r Hfresh.
  assert (Hr : r = ((Host.randomBytes4_hex w).1,
                    (Host.console_error "[GA] Failed to save store:"
                       (Host.Date_now (Host.Date_now (Host.randomBytes4_hex w).2).2).2).2)).
  { subst r. rewrite createPending_result. cbv zeta.
    rewrite save_read_only by exact Hw. reflexivity. }
  assert (Hload : (CreateStore.load r.2).1 = (CreateStore.load w).1)
    by (rewrite Hr; reflexivity).
  assert (Hnot : CreateStore.approvePending config r.1 r.2
                 = (ok_false CreateStore.NotFound, r.2)).
  { apply approvePending_undefined. rewrite Hload.
    apply get_undefined; [exact Hfresh |].
    apply hex_not_inherited. rewrite Hr. apply hex_of_word_all_hex. }
  split; [exact Hload |]. split; [exact Hnot |].
  unfold ga_approve, ApproveTool.execute, Host.bind.
  cbn [Store.approvePending CreateStore.methods]. rewrite Hnot. reflexivity.
Qed.

(** The gateway escalation where no file can be written. *)
Lemma escalation_cannot_be_approved_when_the_write_fails_witness :
  (CreateStore.createPending no_config Sample.fingerprint "gateway" Sample.config_apply
     Cases.unwritable).1 = "a7f3c21b"
  /\ (CreateStore.approvePending no_config "a7f3c21b"
        (CreateStore.createPending no_config Sample.fingerprint "gateway"
           Sample.config_apply Cases.unwritable).2).1
     = ok_false CreateStore.NotFound.
Proof.
  split; [reflexivity |].
  pose proof (escalation_cannot_be_approved_when_the_write_fails no_config Sample.logger
                Sample.fingerprint "gateway" Sample.config_apply
                Cases.unwritable eq_refl (lookup_empty _)) as (_ & H & _).
  change ((CreateStore.createPending no_config Sample.fingerprint "gateway"
             Sample.config_apply Cases.unwritable).1) with "a7f3c21b" in H.
  rewrite H. reflexivity.
Defined.

(** ** A store file that is missing or cannot be read *)

(** A store file that is missing, or that cannot be read or parsed, is an
    empty store: nothing can be approved or consumed, the sweep leaves the
    file alone, and the next escalation whose write succeeds replaces the
    file by a store that holds that escalation only. *)
Theorem unreadable_store_is_an_empty_store :
  forall (config : GuardianAngelConfig) (w : Host.World),
    Host.file w = Host.Missing \/ Host.file w = Host.Unreadable ->
    (forall nonce : string,
        Js.array_includes CreateStore.Object_prototype nonce = false ->
        CreateStore.approvePending config nonce w = (ok_false CreateStore.NotFound, w))
    /\ (forall fingerprint : string,
           Js.array_includes CreateStore.Object_prototype fingerprint = false ->
           CreateStore.consumeApproval fingerprint w = (None, w))
    /\ Host.file (CreateStore.cleanup w).2 = Host.file w
    /\ (Host.writable w = true ->
        forall (paramsHash toolName : string) (params : Json.object),
          let r := CreateStore.createPending config paramsHash toolName params w in
          Host.file r.2
          = Host.Holds
              {| pending :=
                   {[ r.1 := {| PendingEscalation.nonce := r.1;
                                PendingEscalation.paramsHash := paramsHash;
                                PendingEscalation.toolName := toolName;
                                PendingEscalation.params := params;
                                PendingEscalation.createdAt := Host.clock w (Host.ticks w);
                                PendingEscalation.expiresAt :=
                                  Host.clock w (S (Host.ticks w))
                                  + CreateStore.pendingTimeout config |} ]};
                 approved := ∅ |}).
Proof.
  intros config w Hfile.
  assert (Hload : (CreateStore.load w).1 = CreateStore.empty_state)
    by (unfold CreateStore.load; destruct Hfile as [-> | ->]; reflexivity).
  split; [| split; [| split]].
  - intros nonce Hname. apply approvePending_undefined. rewrite Hload.
    apply get_undefined; [apply lookup_empty | exact Hname].
  - intros fp Hname. apply consumeApproval_undefined. rewrite Hload.
    apply get_undefined; [apply lookup_empty | exact Hname].
  - unfold CreateStore.cleanup, Host.bind. cbv zeta.
    rewrite load_world, Hload. cbn [pending approved CreateStore.empty_state].
    rewrite !map_to_list_empty. reflexivity.
  - intros Hw paramsHash toolName params r. subst r.
    rewrite createPending_result. cbv zeta. cbn [fst snd].
    rewrite save_writable by exact Hw. rewrite Hload.
    cbn [Host.set_file Host.file pending approved CreateStore.empty_state].
    unfold CreateStore.set.
    replace (String.eqb (Js.hex_of_word _) "__proto__") with false.
    + rewrite insert_empty. reflexivity.
    + symmetry. apply String.eqb_neq. intros Heq.
      pose proof (hex_of_word_all_hex (Sha256.w32 (Host.random w (Host.draws w)))) as Hhex.
      rewrite Heq in Hhex. discriminate.
Qed.

(** A file that cannot be read. *)
Lemma unreadable_store_is_an_empty_store_witness :
  CreateStore.consumeApproval Sample.fingerprint Cases.unreadable
  = (None, Cases.unreadable)
  /\ CreateStore.approvePending no_config "a7f3c21b" Cases.unreadable
     = (ok_false CreateStore.NotFound, Cases.unreadable).
Proof.
  pose proof (unreadable_store_is_an_empty_store no_config Cases.unreadable
                (or_intror eq_refl)) as (A & B & _).
  split; [apply B | apply A]; reflexivity.
Defined.

(** ** The sweep at start-up *)

Lemma nothing_expired {A} (expiresAt : A -> Z) (m : gmap string A) now :
  (forall k x, m !! k = Some x -> now <= expiresAt x) ->
  existsb (fun kv => expiresAt kv.2 <? now) (map_to_list m) = false.
Proof.
  intros Hlive.
  destruct (existsb _ (map_to_list m)) eqn:E; [| reflexivity].
  apply existsb_exists in E. destruct E as ([k x] & Hin & Hlt).
  apply list_elem_of_In, elem_of_map_to_list in Hin.
  apply Z.ltb_lt in Hlt. specialize (Hlive k x Hin). simpl in Hlt. lia.
Qed.

(** When no record of the store has expired, [cleanup] reads the clock once
    and writes nothing, and so does [createStore]: the file is untouched, and
    on a host whose writes fail no error is printed. *)
Theorem sweep_without_expired_records_writes_nothing :
  forall (config : GuardianAngelConfig) (w : Host.World),
    let now := Host.clock w (Host.ticks w) in
    (forall nonce p,
        pending (CreateStore.load w).1 !! nonce = Some p ->
        now <= PendingEscalation.expiresAt p) ->
    (forall fingerprint a,
        approved (CreateStore.load w).1 !! fingerprint = Some a ->
        now <= ApprovedAction.expiresAt a) ->
    CreateStore.cleanup w = (tt, (Host.Date_now w).2)
    /\ (CreateStore.createStore config w).2 = (Host.Date_now w).2
    /\ Host.file (CreateStore.createStore config w).2 = Host.file w
    /\ Host.console (CreateStore.createStore config w).2 = Host.console w.
Proof.
  intros config w now Hp Ha.
  assert (Hclean : CreateStore.cleanup w = (tt, (Host.Date_now w).2)).
  { unfold CreateStore.cleanup, Host.bind. cbv zeta.
    rewrite load_world, Date_now_reading. fold now.
    rewrite (nothing_expired PendingEscalation.expiresAt _ now Hp).
    rewrite (nothing_expired ApprovedAction.expiresAt _ now Ha).
    reflexivity. }
  split; [exact Hclean |].
  assert (Hcreate : (CreateStore.createStore config w).2 = (Host.Date_now w).2)
    by (unfold CreateStore.createStore, Host.bind; cbv zeta; rewrite Hclean; reflexivity).
  split; [exact Hcreate |]. rewrite Hcreate. split; reflexivity.
Qed.

(** A live escalation in a file that cannot be written. *)
Lemma sweep_without_expired_records_writes_nothing_witness :
  Host.file (CreateStore.createStore no_config Sample.read_only).2
  = Host.file Sample.read_only
  /\ Host.console (CreateStore.createStore no_config Sample.read_only).2 = [].
Proof.
  assert (Hp : forall nonce p,
             pending (CreateStore.load Sample.read_only).1 !! nonce = Some p ->
             Host.clock Sample.read_only (Host.ticks Sample.read_only)
             <= PendingEscalation.expiresAt p).
  { intros nonce p H.
    change (pending (CreateStore.load Sample.read_only).1)
      with ({[ "a7f3c21b" := Sample.pending_record 500 ]}
            : gmap string PendingEscalation.t) in H.
    apply lookup_singleton_Some in H. destruct H as [_ <-]. simpl. lia. }
  assert (Ha : forall fingerprint a,
             approved (CreateStore.load Sample.read_only).1 !! fingerprint = Some a ->
             Host.clock Sample.read_only (Host.ticks Sample.read_only)
             <= ApprovedAction.expiresAt a).
  { intros fp a H.
    change (approved (CreateStore.load Sample.read_only).1)
      with (∅ : gmap string ApprovedAction.t) in H.
    rewrite lookup_empty in H. discriminate. }
  pose proof (sweep_without_expired_records_writes_nothing no_config Sample.read_only
                Hp Ha) as (_ & _ & A & B).
  exact (conj A B).
Defined.

(** ** Escalate, approve, retry *)

Section Workflow.

Import Host CreateStore.

Variables (config : GuardianAngelConfig) (logger : PluginLogger).

(** [createPending] and [approvePending] when the write succeeds. *)
Lemma createPending_saved paramsHash toolName params w :
  writable w = true ->
  let nonce := (randomBytes4_hex w).1 in
  createPending config paramsHash toolName params w
  = (nonce,
     set_file
       (Holds {| pending :=
                   set (pending (load w).1) nonce
                     {| PendingEscalation.nonce := nonce;
                        PendingEscalation.paramsHash := paramsHash;
                        PendingEscalation.toolName := toolName;
                        PendingEscalation.params := params;
                        PendingEscalation.createdAt := clock w (ticks w);
                        PendingEscalation.expiresAt :=
                          clock w (S (ticks w)) + pendingTimeout config |};
                 approved := approved (load w).1 |})
       (Date_now (Date_now (randomBytes4_hex w).2).2).2).
Proof.
  intros Hw nonce. subst nonce. rewrite createPending_result. cbv zeta.
  rewrite save_writable by exact Hw. reflexivity.
Qed.

Lemma approvePending_live nonce p w :
  pending (load w).1 !! nonce = Some p ->
  clock w (ticks w) <= PendingEscalation.expiresAt p ->
  writable w = true ->
  approvePending config nonce w
  = (ok_true (Js.round_div (approvalWindow config) 1000),
     set_file
       (Holds {| pending := delete nonce (pending (load w).1);
                 approved :=
                   set (approved (load w).1) (PendingEscalation.paramsHash p)
                     {| ApprovedAction.nonce := nonce;
                        ApprovedAction.paramsHash := Some (PendingEscalation.paramsHash p);
                        ApprovedAction.toolName := Some (PendingEscalation.toolName p);
                        ApprovedAction.approvedAt := clock w (S (ticks w));
                        ApprovedAction.expiresAt :=
                          clock w (S (S (ticks w))) + approvalWindow config |} |})
       (Date_now (Date_now (Date_now w).2).2).2).
Proof.
  intros Hp Hlive Hw.
  rewrite approvePending_found by (rewrite (get_own _ _ _ Hp); discriminate).
  cbv zeta. rewrite (get_own _ _ _ Hp). cbn [field gt key_of].
  replace (PendingEscalation.expiresAt p <? clock w (ticks w)) with false
    by (symmetry; apply Z.ltb_ge; exact Hlive).
  rewrite save_writable by exact Hw. reflexivity.
Qed.

(** The verdict of the evaluator when the score reaches the threshold and
    the reason can be built. *)
Lemma evaluate_escalates toolName params ctx w c s why :
  Evaluate.checkIntrinsicEvil toolName params = Returns None ->
  Evaluate.assessClarity toolName params = Returns c ->
  Evaluate.assessStakes toolName params = Returns s ->
  Evaluate.buildEscalationReason toolName params c s (c * s) = Returns why ->
  Evaluate.threshold_of config <= c * s ->
  exists result,
    decision result = Decision.escalate
    /\ (Evaluate.evaluate toolName params ctx config logger w = (Returns result, w)
        \/ exists line,
             Evaluate.evaluate toolName params ctx config logger w
             = (Returns result, (log debug line w).2)).
Proof.
  intros Hevil Hc Hs Hwhy Hth.
  rewrite (evaluate_scored _ _ _ _ _ _ _ _ Hevil Hc Hs). cbv zeta.
  replace (Evaluate.threshold_of config <=? c * s) with true
    by (symmetry; apply Z.leb_le; exact Hth).
  rewrite Hwhy. unfold log_debug, ret.
  destruct (has_debug logger); eexists; (split; [| eauto]); reflexivity.
Qed.

Lemma append_empty_r (s : string) : s ++ "" = s.
Proof.
  induction s as [| c s IH]; [reflexivity |].
  change (String c (s ++ "") = String c s). rewrite IH. reflexivity.
Qed.

(** An approval given for a pending escalation of the request lets the
    request through, once. *)
Lemma approve_then_retry toolName params nonce p w :
  enabled config <> Some false ->
  Js.array_includes (Hook.list_or_empty (neverBlock config)) toolName = false ->
  pending (load w).1 !! nonce = Some p ->
  PendingEscalation.paramsHash p = hashParams toolName params ->
  writable w = true ->
  clock w (ticks w) <= PendingEscalation.expiresAt p ->
  clock w (3 + ticks w)%nat <= clock w (2 + ticks w)%nat + approvalWindow config ->
  let approval := ga_approve config logger nonce w in
  let retry := before_tool_call config logger toolName params approval.2 in
  ApproveTool.content approval.1
  = [("text", "✓ Approved. You may now retry the action. Approval expires in "
              ++ Js.string_of_Z (Js.round_div (approvalWindow config) 1000) ++ "s.")]
  /\ retry.1 = Returns None
  /\ logged retry.2
     = (info, "[GA] " ++ toolName ++ ": approved via nonce " ++ nonce)
       :: (info, "[GA] Approved nonce " ++ nonce) :: logged w
  /\ pending (load retry.2).1 = delete nonce (pending (load w).1)
  /\ approved (load retry.2).1 !! hashParams toolName params = None
  /\ consumeApproval (hashParams toolName params) retry.2 = (None, retry.2).
Proof.
  intros Hon Hnever Hp Hfp Hw Hlive Hwindow approval retry.
  set (fp := hashParams toolName params) in *.
  assert (Hfpname : fp <> "__proto__").
  { intros Heq. pose proof (hashParams_not_inherited toolName params) as Hn.
    fold fp in Hn. rewrite Heq in Hn. discriminate. }
  set (a := {| ApprovedAction.nonce := nonce;
               ApprovedAction.paramsHash := Some fp;
               ApprovedAction.toolName := Some (PendingEscalation.toolName p);
               ApprovedAction.approvedAt := clock w (S (ticks w));
               ApprovedAction.expiresAt :=
                 clock w (S (S (ticks w))) + approvalWindow config |}).
  set (st2 := {| pending := delete nonce (pending (load w).1);
                 approved := set (approved (load w).1) fp a |}).
  assert (Happroval : approval
                      = ({| ApproveTool.content :=
                              [("text",
                                "✓ Approved. You may now retry the action. Approval expires in "
                                ++ Js.string_of_Z (Js.round_div (approvalWindow config) 1000)
                                ++ "s.")] |},
                         (log info ("[GA] Approved nonce " ++ nonce)
                            (set_file (Holds st2)
                               (Date_now (Date_now (Date_now w).2).2).2)).2)).
  { subst approval. unfold ga_approve, ApproveTool.execute, bind.
    cbn [Store.approvePending methods].
    rewrite (approvePending_live nonce p w Hp Hlive Hw). rewrite Hfp.
    cbn [fst snd]. unfold log. rewrite append_empty_r. reflexivity. }
  assert (Ha : approved (load approval.2).1 !! fp = Some a).
  { rewrite Happroval. cbn [snd]. unfold load. host. cbn [approved st2].
    apply set_lookup. exact Hfpname. }
  destruct (live_approval_is_consumed_once approval.2 fp a Ha)
    as (Hc1 & Hc2 & Hc3).
  { rewrite Happroval. host. subst a. cbn [ApprovedAction.expiresAt]. exact Hwindow. }
  { apply hashParams_not_inherited. }
  { rewrite Happroval. host. exact Hw. }
  assert (Hretry : retry
                   = (Returns None,
                      (log info ("[GA] " ++ toolName ++ ": approved via nonce " ++ nonce)
                         (consumeApproval fp approval.2).2).2)).
  { subst retry. rewrite gate_steps_3_to_5 by assumption. cbv zeta. fold fp.
    rewrite Hc1. reflexivity. }
  assert (Hstate : (load retry.2).1
                   = {| pending := pending (load approval.2).1;
                        approved := delete fp (approved (load approval.2).1) |})
    by (rewrite Hretry; exact Hc2).
  split; [rewrite Happroval; reflexivity |].
  split; [rewrite Hretry; reflexivity |].
  split.
  { rewrite Hretry. host.
    assert (Hlog : logged (consumeApproval fp approval.2).2 = logged approval.2).
    { unfold consumeApproval, bind, load, save, ret. cbv zeta. cbn [fst snd].
      destruct (get _ fp); [| | reflexivity];
        destruct (gt _ _); cbn [fst snd Date_now writable];
        destruct (writable approval.2); reflexivity. }
    rewrite Hlog, Happroval. reflexivity. }
  split; [rewrite Hstate, Happroval; reflexivity |].
  split; [rewrite Hstate; apply lookup_delete_eq |].
  apply consumeApproval_undefined. apply get_undefined.
  - rewrite Hstate. apply lookup_delete_eq.
  - apply hashParams_not_inherited.
Qed.

End Workflow.

Lemma substring_skip (p x : string) (m : nat) :
  String.substring (String.length p) m (p ++ x) = String.substring 0 m x.
Proof.
  induction p as [| c p IH]; [reflexivity |].
  change (String.substring (String.length p) m (p ++ x) = String.substring 0 m x).
  exact IH.
Qed.

Lemma substring_prefix (n r : string) :
  String.substring 0 (String.length n) (n ++ r) = n.
Proof.
  induction n as [| c n IH]; [destruct r; reflexivity |].
  change (String c (String.substring 0 (String.length n) (n ++ r)) = String c n).
  rewrite IH. reflexivity.
Qed.

Lemma nonce_is_read_off_the_reason v rest :
  String.substring 24 8 ("GUARDIAN_ANGEL_ESCALATE|" ++ Js.hex_of_word v ++ rest)
  = Js.hex_of_word v.
Proof.
  change 24%nat with (String.length "GUARDIAN_ANGEL_ESCALATE|").
  rewrite substring_skip.
  change 8%nat with (String.length (Js.hex_of_word v)).
  apply substring_prefix.
Qed.

(** The round trip.  A call that the gate is to escalate (the tool is in
    [alwaysBlock], or the intrinsic-evil check does not match, both scorers
    return, the score reaches the threshold and the reason can be built), on
    a host whose write succeeds and with no approval stored under the call's
    fingerprint, is answered with GUARDIAN_ANGEL_ESCALATE, the nonce drawn
    (characters 24 to 31 of the reason) and a reason.  When the nonce is approved before the
    escalation expires, and the call is retried before the approval expires,
    the approval tool answers with the window and the retry is allowed; the
    approval and the escalation are then gone from the store. *)
Theorem escalate_approve_retry :
  forall (config : GuardianAngelConfig) (logger : PluginLogger)
         (toolName : string) (params : Json.object) (w : Host.World),
    let fingerprint := CreateStore.hashParams toolName params in
    let nonce := (Host.randomBytes4_hex w).1 in
    enabled config <> Some false ->
    Js.array_includes (Hook.list_or_empty (neverBlock config)) toolName = false ->
    (Js.array_includes (Hook.list_or_empty (alwaysBlock config)) toolName = true
     \/ (Evaluate.checkIntrinsicEvil toolName params = Returns None
         /\ exists c s why,
              Evaluate.assessClarity toolName params = Returns c
              /\ Evaluate.assessStakes toolName params = Returns s
              /\ Evaluate.buildEscalationReason toolName params c s (c * s)
                 = Returns why
              /\ match escalationThreshold config with
                 | Some threshold => threshold
                 | None => 36
                 end <= c * s)) ->
    approved (CreateStore.load w).1 !! fingerprint = None ->
    Host.writable w = true ->
    Host.clock w (2 + Host.ticks w)%nat
    <= Host.clock w (1 + Host.ticks w)%nat + CreateStore.pendingTimeout config ->
    Host.clock w (5 + Host.ticks w)%nat
    <= Host.clock w (4 + Host.ticks w)%nat + CreateStore.approvalWindow config ->
    let first := before_tool_call config logger toolName params w in
    let approval := ga_approve config logger nonce first.2 in
    let second := before_tool_call config logger toolName params approval.2 in
    (exists why,
        first.1 = Returns
                    (Some {| Hook.result_params := None;
                             Hook.block := Some true;
                             Hook.blockReason :=
                               Some ("GUARDIAN_ANGEL_ESCALATE|" ++ nonce
                                     ++ "|" ++ why) |})
        /\ String.substring 24 8 ("GUARDIAN_ANGEL_ESCALATE|" ++ nonce ++ "|" ++ why)
           = nonce)
    /\ ApproveTool.content approval.1
       = [("text", "✓ Approved. You may now retry the action. Approval expires in "
                   ++ Js.string_of_Z (Js.round_div (CreateStore.approvalWindow config) 1000)
                   ++ "s.")]
    /\ second.1 = Returns None
    /\ CreateStore.consumeApproval fingerprint second.2 = (None, second.2)
    /\ pending (CreateStore.load second.2).1 !! nonce = None.
Proof.
  intros config logger toolName params w fingerprint nonce Hon Hnever Hverdict Hnone Hw
         Hpending Hwindow first approval second.
  assert (Hnonce : nonce <> "__proto__").
  { intros Heq.
    pose proof (hex_of_word_all_hex (Sha256.w32 (Host.random w (Host.draws w)))) as Hhex.
    change (Js.hex_of_word _) with nonce in Hhex. rewrite Heq in Hhex. discriminate. }
  (* the world in which the escalation is made: [w], or [w] with one more
     line of the evaluator in the log *)
  assert (Hfirst :
    exists why w0,
      first = (Returns (Some (Hook.escalate toolName params fingerprint
                                (CreateStore.methods config) logger why w0).1),
               (Hook.escalate toolName params fingerprint
                  (CreateStore.methods config) logger why w0).2)
      /\ (w0 = w \/ exists line, w0 = (Host.log Host.debug line w).2)).
  { subst first. rewrite gate_steps_3_to_5 by assumption. cbv zeta. fold fingerprint.
    rewrite consumeApproval_undefined
      by (apply get_undefined; [exact Hnone | apply hashParams_not_inherited]).
    cbn [fst snd].
    destruct (Js.array_includes (Hook.list_or_empty (alwaysBlock config)) toolName).
    - eexists. exists w. split; [reflexivity | left; reflexivity].
    - destruct Hverdict as [Habs | [Hevil (c & s & reason & Hc & Hs & Hreason & Hth)]];
        [discriminate |].
      destruct (evaluate_escalates config logger toolName params
                  {| agentId := None; sessionKey := None; ctx_toolName := toolName |}
                  w c s reason Hevil Hc Hs Hreason Hth)
        as (result & Hd & [Hv | (line & Hv)]);
        rewrite Hv; cbn [fst snd]; rewrite Hd; eexists; eexists;
        (split; [reflexivity |]); [left | right; exists line]; reflexivity. }
  destruct Hfirst as (why & w0 & Hfirst & Hw0).
  assert (Hfacts :
    first.1 = Returns
                (Some {| Hook.result_params := None;
                         Hook.block := Some true;
                         Hook.blockReason :=
                           Some ("GUARDIAN_ANGEL_ESCALATE|" ++ nonce ++ "|" ++ why) |})
    /\ pending (CreateStore.load first.2).1
       = CreateStore.set (pending (CreateStore.load w).1) nonce
           {| PendingEscalation.nonce := nonce;
              PendingEscalation.paramsHash := fingerprint;
              PendingEscalation.toolName := toolName;
              PendingEscalation.params := params;
              PendingEscalation.createdAt := Host.clock w (Host.ticks w);
              PendingEscalation.expiresAt :=
                Host.clock w (S (Host.ticks w)) + CreateStore.pendingTimeout config |}
    /\ Host.writable first.2 = true
    /\ Host.clock first.2 = Host.clock w
    /\ Host.ticks first.2 = S (S (Host.ticks w))).
  { rewrite Hfirst. rewrite escalate_result. cbv zeta.
    destruct Hw0 as [-> | (line & ->)];
      (rewrite createPending_saved by exact Hw); cbv zeta; cbn [fst snd];
      repeat split; try reflexivity; exact Hw. }
  destruct Hfacts as (Hr & Hp & Hw1 & Hclock & Hticks).
  destruct (approve_then_retry config logger toolName params nonce
              {| PendingEscalation.nonce := nonce;
                 PendingEscalation.paramsHash := fingerprint;
                 PendingEscalation.toolName := toolName;
                 PendingEscalation.params := params;
                 PendingEscalation.createdAt := Host.clock w (Host.ticks w);
                 PendingEscalation.expiresAt :=
                   Host.clock w (S (Host.ticks w)) + CreateStore.pendingTimeout config |}
              first.2 Hon Hnever)
    as (A & B & _ & C & _ & D).
  { rewrite Hp. apply set_lookup. exact Hnonce. }
  { reflexivity. }
  { exact Hw1. }
  { rewrite Hclock, Hticks. exact Hpending. }
  { rewrite Hclock, Hticks. exact Hwindow. }
  split.
  { exists why. split; [exact Hr |]. apply nonce_is_read_off_the_reason. }
  split; [exact A |]. split; [exact B |]. split; [exact D |].
  fold approval second in C. rewrite C. apply lookup_delete_eq.
Qed.

(** The gateway scenario. *)
Lemma escalate_approve_retry_witness :
  ApproveTool.content
    (ga_approve no_config Sample.logger "a7f3c21b"
       (before_tool_call no_config Sample.logger "gateway" Sample.config_apply
          Sample.fresh).2).1
  = [("text", "✓ Approved. You may now retry the action. Approval expires in 30s.")]
  /\ (before_tool_call no_config Sample.logger "gateway" Sample.config_apply
        (ga_approve no_config Sample.logger "a7f3c21b"
           (before_tool_call no_config Sample.logger "gateway" Sample.config_apply
              Sample.fresh).2).2).1
     = Returns None.
Proof.
  assert (Hon : enabled no_config <> Some false) by discriminate.
  assert (Hverdict :
    Js.array_includes (Hook.list_or_empty (alwaysBlock no_config)) "gateway" = true
    \/ (Evaluate.checkIntrinsicEvil "gateway" Sample.config_apply = Returns None
        /\ exists c s why,
             Evaluate.assessClarity "gateway" Sample.config_apply = Returns c
             /\ Evaluate.assessStakes "gateway" Sample.config_apply = Returns s
             /\ Evaluate.buildEscalationReason "gateway" Sample.config_apply c s (c * s)
                = Returns why
             /\ match escalationThreshold no_config with
                | Some threshold => threshold
                | None => 36
                end <= c * s)).
  { right. split; [reflexivity |]. exists 9, 9. eexists.
    split; [reflexivity |]. split; [reflexivity |]. split; [reflexivity |].
    vm_compute. discriminate. }
  assert (Hnone : approved (CreateStore.load Sample.fresh).1
                    !! CreateStore.hashParams "gateway" Sample.config_apply = None)
    by apply lookup_empty.
  assert (H1 : Host.clock Sample.fresh (2 + Host.ticks Sample.fresh)%nat
               <= Host.clock Sample.fresh (1 + Host.ticks Sample.fresh)%nat
                  + CreateStore.pendingTimeout no_config)
    by (vm_compute; discriminate).
  assert (H2 : Host.clock Sample.fresh (5 + Host.ticks Sample.fresh)%nat
               <= Host.clock Sample.fresh (4 + Host.ticks Sample.fresh)%nat
                  + CreateStore.approvalWindow no_config)
    by (vm_compute; discriminate).
  pose proof (escalate_approve_retry no_config Sample.logger "gateway"
                Sample.config_apply Sample.fresh Hon eq_refl Hverdict Hnone eq_refl H1 H2)
    as (_ & A & B & _).
  exact (conj A B).
Defined.

(** ** The fingerprint is sixteen hexadecimal digits *)

Lemma round_length st kw : length st = 8%nat -> length (Sha256.round st kw) = 8%nat.
Proof.
  intros H. unfold Sha256.round.
  do 9 (destruct st as [| ? st]; try discriminate H). reflexivity.
Qed.

Lemma rounds_length l st :
  length st = 8%nat -> length (fold_left Sha256.round l st) = 8%nat.
Proof.
  revert st. induction l as [| kw l IH]; intros st H; simpl; [exact H |].
  apply IH, round_length, H.
Qed.

Lemma compress_length h block :
  length h = 8%nat -> length (Sha256.compress h block) = 8%nat.
Proof.
  intros H. unfold Sha256.compress.
  rewrite length_map, length_combine, rounds_length by exact H. rewrite H. reflexivity.
Qed.

Lemma digest_words s :
  exists a b c d e f g h,
    fold_left Sha256.compress
      (Sha256.blocks (length (Sha256.be_words (Sha256.pad (Sha256.bytes_of_string s))))
         (Sha256.be_words (Sha256.pad (Sha256.bytes_of_string s))))
      Sha256.H0
    = [a; b; c; d; e; f; g; h].
Proof.
  assert (Hlen : forall bs h0, length h0 = 8%nat ->
                               length (fold_left Sha256.compress bs h0) = 8%nat).
  { induction bs as [| b bs IH]; intros h0 H; simpl; [exact H |].
    apply IH, compress_length, H. }
  specialize (Hlen (Sha256.blocks
                      (length (Sha256.be_words (Sha256.pad (Sha256.bytes_of_string s))))
                      (Sha256.be_words (Sha256.pad (Sha256.bytes_of_string s))))
                   Sha256.H0 eq_refl).
  destruct (fold_left _ _ _) as [| a l]; [discriminate |].
  do 7 (destruct l as [| ? l]; [discriminate |]).
  destruct l; [| discriminate]. eauto 10.
Qed.

(** A fingerprint is exactly sixteen lower-case hexadecimal digits, the
    first sixteen of the sixty-four of the digest, and so never the name of
    a member that objects inherit. *)
Theorem fingerprint_is_sixteen_hex_digits :
  forall (toolName : string) (params : Json.object),
    String.length (CreateStore.hashParams toolName params) = 16%nat
    /\ Js.all_hex (CreateStore.hashParams toolName params) = true
    /\ String.length (Sha256.digest_hex (CreateStore.normalized toolName params)) = 64%nat
    /\ Js.array_includes CreateStore.Object_prototype
         (CreateStore.hashParams toolName params) = false.
Proof.
  intros toolName params.
  split; [| split; [| split]].
  - unfold CreateStore.hashParams, Sha256.digest_hex. cbv zeta.
    destruct (digest_words (CreateStore.normalized toolName params))
      as (a & b & c & d & e & f & g & h & ->).
    reflexivity.
  - unfold CreateStore.hashParams. apply slice0_all_hex, digest_hex_all_hex.
  - unfold Sha256.digest_hex. cbv zeta.
    destruct (digest_words (CreateStore.normalized toolName params))
      as (a & b & c & d & e & f & g & h & ->).
    reflexivity.
  - apply hashParams_not_inherited.
Qed.

(** ** Two approvals under one fingerprint *)

(** Two pending escalations with the same fingerprint, approved one after
    the other: both approvals succeed, and the store holds one approved
    action under the fingerprint, that of the second nonce.  One
    [consumeApproval] returns it and the next returns [null]: two approvals
    pay for one call. *)
Theorem approvals_under_one_fingerprint_overwrite :
  forall (config : GuardianAngelConfig) (w : Host.World) (n1 n2 : string)
         (p1 p2 : PendingEscalation.t),
    n1 <> n2 ->
    pending (CreateStore.load w).1 !! n1 = Some p1 ->
    pending (CreateStore.load w).1 !! n2 = Some p2 ->
    PendingEscalation.paramsHash p2 = PendingEscalation.paramsHash p1 ->
    Js.array_includes CreateStore.Object_prototype (PendingEscalation.paramsHash p1)
    = false ->
    Host.writable w = true ->
    Host.clock w (Host.ticks w) <= PendingEscalation.expiresAt p1 ->
    Host.clock w (3 + Host.ticks w)%nat <= PendingEscalation.expiresAt p2 ->
    Host.clock w (6 + Host.ticks w)%nat
    <= Host.clock w (5 + Host.ticks w)%nat + CreateStore.approvalWindow config ->
    let one := CreateStore.approvePending config n1 w in
    let two := CreateStore.approvePending config n2 one.2 in
    let used := CreateStore.consumeApproval (PendingEscalation.paramsHash p1) two.2 in
    one.1 = ok_true (Js.round_div (CreateStore.approvalWindow config) 1000)
    /\ two.1 = ok_true (Js.round_div (CreateStore.approvalWindow config) 1000)
    /\ approved (CreateStore.load two.2).1
       = <[PendingEscalation.paramsHash p1 :=
             {| ApprovedAction.nonce := n2;
                ApprovedAction.paramsHash := Some (PendingEscalation.paramsHash p1);
                ApprovedAction.toolName := Some (PendingEscalation.toolName p2);
                ApprovedAction.approvedAt := Host.clock w (4 + Host.ticks w)%nat;
                ApprovedAction.expiresAt :=
                  Host.clock w (5 + Host.ticks w)%nat
                  + CreateStore.approvalWindow config |}]>
           (approved (CreateStore.load w).1)
    /\ used.1 = Some {| approval_nonce := Some n2 |}
    /\ (CreateStore.consumeApproval (PendingEscalation.paramsHash p1) used.2).1 = None.
Proof.
  intros config w n1 n2 p1 p2 Hne Hp1 Hp2 Hsame Hname Hw Hlive1 Hlive2 Hwindow
         one two used.
  set (h := PendingEscalation.paramsHash p1) in *.
  assert (Hh : String.eqb h "__proto__" = false).
  { apply String.eqb_neq. intros Heq. rewrite Heq in Hname. discriminate. }
  assert (Hone : one = (CreateStore.approvePending config n1 w)) by reflexivity.
  rewrite (approvePending_live config n1 p1 w Hp1 Hlive1 Hw) in Hone. fold h in Hone.
  assert (Htwo : two = (CreateStore.approvePending config n2 one.2)) by reflexivity.
  rewrite (approvePending_live config n2 p2 one.2) in Htwo.
  2: { rewrite Hone. unfold CreateStore.load. host. cbn [pending].
       rewrite lookup_delete_ne by exact Hne. exact Hp2. }
  2: { rewrite Hone. host. exact Hlive2. }
  2: { rewrite Hone. host. exact Hw. }
  rewrite Hsame in Htwo. fold h in Htwo.
  assert (Hstate : approved (CreateStore.load two.2).1
                   = <[h := {| ApprovedAction.nonce := n2;
                               ApprovedAction.paramsHash := Some h;
                               ApprovedAction.toolName :=
                                 Some (PendingEscalation.toolName p2);
                               ApprovedAction.approvedAt :=
                                 Host.clock w (4 + Host.ticks w)%nat;
                               ApprovedAction.expiresAt :=
                                 Host.clock w (5 + Host.ticks w)%nat
                                 + CreateStore.approvalWindow config |}]>
                       (approved (CreateStore.load w).1)).
  { rewrite Htwo, Hone. unfold CreateStore.load. host. cbn [approved].
    unfold CreateStore.set. rewrite Hh. rewrite insert_insert_eq. reflexivity. }
  destruct (live_approval_is_consumed_once two.2 h
              {| ApprovedAction.nonce := n2;
                 ApprovedAction.paramsHash := Some h;
                 ApprovedAction.toolName := Some (PendingEscalation.toolName p2);
                 ApprovedAction.approvedAt := Host.clock w (4 + Host.ticks w)%nat;
                 ApprovedAction.expiresAt :=
                   Host.clock w (5 + Host.ticks w)%nat
                   + CreateStore.approvalWindow config |})
    as (Hu1 & _ & Hu3).
  { rewrite Hstate. apply lookup_insert_eq. }
  { rewrite Htwo, Hone. host. cbn [ApprovedAction.expiresAt]. exact Hwindow. }
  { exact Hname. }
  { rewrite Htwo, Hone. host. exact Hw. }
  split; [rewrite Hone; reflexivity |].
  split; [rewrite Htwo; reflexivity |].
  split; [exact Hstate |].
  split; [exact Hu1 |].
  fold used in Hu3. rewrite Hu3. reflexivity.
Qed.


(** The gateway escalation and an [exec] escalation, which have one
    fingerprint. *)
Lemma approvals_under_one_fingerprint_overwrite_witness :
  let one := CreateStore.approvePending no_config "a7f3c21b" Cases.two_escalations in
  let two := CreateStore.approvePending no_config "a7f3c21c" one.2 in
  let used := CreateStore.consumeApproval Sample.fingerprint two.2 in
  one.1 = ok_true 30 /\ two.1 = ok_true 30
  /\ used.1 = Some {| approval_nonce := Some "a7f3c21c" |}
  /\ (CreateStore.consumeApproval Sample.fingerprint used.2).1 = None.
Proof.
  assert (Hne : "a7f3c21b" <> "a7f3c21c") by discriminate.
  assert (Hp1 : pending (CreateStore.load Cases.two_escalations).1 !! "a7f3c21b"
                = Some (Sample.pending_record 500)).
  { change (pending (CreateStore.load Cases.two_escalations).1)
      with (<["a7f3c21c" := Cases.second_record]>
              ({[ "a7f3c21b" := Sample.pending_record 500 ]}
               : gmap string PendingEscalation.t)).
    rewrite lookup_insert_ne by discriminate. apply lookup_singleton_eq. }
  assert (Hp2 : pending (CreateStore.load Cases.two_escalations).1 !! "a7f3c21c"
                = Some Cases.second_record).
  { change (pending (CreateStore.load Cases.two_escalations).1)
      with (<["a7f3c21c" := Cases.second_record]>
              ({[ "a7f3c21b" := Sample.pending_record 500 ]}
               : gmap string PendingEscalation.t)).
    apply lookup_insert_eq. }
  assert (H1 : Host.clock Cases.two_escalations (Host.ticks Cases.two_escalations)
               <= PendingEscalation.expiresAt (Sample.pending_record 500))
    by (vm_compute; discriminate).
  assert (H2 : Host.clock Cases.two_escalations (3 + Host.ticks Cases.two_escalations)%nat
               <= PendingEscalation.expiresAt Cases.second_record)
    by (vm_compute; discriminate).
  assert (H3 : Host.clock Cases.two_escalations (6 + Host.ticks Cases.two_escalations)%nat
               <= Host.clock Cases.two_escalations (5 + Host.ticks Cases.two_escalations)%nat
                  + CreateStore.approvalWindow no_config)
    by (vm_compute; discriminate).
  pose proof (approvals_under_one_fingerprint_overwrite no_config Cases.two_escalations
                "a7f3c21b" "a7f3c21c" (Sample.pending_record 500)
                Cases.second_record Hne Hp1 Hp2 eq_refl eq_refl eq_refl
                H1 H2 H3) as (A & B & _ & C & D).
  exact (conj A (conj B (conj C D))).
Defined.

(** ** What the gate and the approval tool can do to the store *)

Section Effects.

Import Host CreateStore.

Lemma load_log l line w : (load (log l line w).2).1 = (load w).1.
Proof. reflexivity. Qed.

Lemma load_log_debug logger line w : (load (log_debug logger line w).2).1 = (load w).1.
Proof. unfold log_debug. destruct (has_debug logger); reflexivity. Qed.

Lemma consume_effect fp w :
  let c := consumeApproval fp w in
  pending (load c.2).1 = pending (load w).1
  /\ (approved (load c.2).1 = approved (load w).1
      \/ approved (load c.2).1 = delete fp (approved (load w).1))
  /\ writable c.2 = writable w /\ random c.2 = random w /\ draws c.2 = draws w.
Proof.
  cbv zeta.
  destruct (get (approved (load w).1) fp) eqn:Hget.
  3: { rewrite consumeApproval_undefined by exact Hget. auto 6. }
  all: rewrite consumeApproval_found by (rewrite Hget; discriminate).
  all: cbv zeta; cbn [snd]; unfold save; host.
  all: destruct (writable w) eqn:Hw; unfold load; host; rewrite ?Hw; auto 6.
Qed.

Lemma evaluate_effect config logger toolName params ctx w :
  let v := Evaluate.evaluate toolName params ctx config logger w in
  file v.2 = file w /\ writable v.2 = writable w
  /\ random v.2 = random w /\ draws v.2 = draws w.
Proof.
  cbv zeta. unfold Evaluate.evaluate.
  destruct (Evaluate.checkIntrinsicEvil toolName params) as [[why|]|]; [auto | | auto].
  destruct (Evaluate.assessClarity toolName params) as [c|]; [| auto].
  destruct (Evaluate.assessStakes toolName params) as [s|]; [| auto].
  cbv zeta. unfold bind, log_debug.
  destruct (has_debug logger); host; destruct (_ <=? _);
    try destruct (Evaluate.buildEscalationReason _ _ _ _ _); auto.
Qed.

Lemma escalate_effect config logger toolName params fp why w :
  let e := Hook.escalate toolName params fp (methods config) logger why w in
  approved (load e.2).1 = approved (load w).1
  /\ (pending (load e.2).1 = pending (load w).1
      \/ exists p,
           pending (load e.2).1 = <[(randomBytes4_hex w).1 := p]> (pending (load w).1)
           /\ PendingEscalation.paramsHash p = fp
           /\ PendingEscalation.toolName p = toolName
           /\ PendingEscalation.params p = params).
Proof.
  cbv zeta. rewrite escalate_result. cbv zeta. rewrite createPending_result. cbv zeta.
  unfold save. host.
  destruct (writable w) eqn:Hw; unfold load; host; rewrite ?Hw.
  - cbn [pending approved]. split; [reflexivity |]. right.
    unfold set.
    replace (String.eqb (Js.hex_of_word _) "__proto__") with false.
    + eexists. split; [reflexivity |]. auto.
    + symmetry. apply String.eqb_neq. intros Heq.
      pose proof (hex_of_word_all_hex (Sha256.w32 (random w (draws w)))) as Hhex.
      rewrite Heq in Hhex. discriminate.
  - auto.
Qed.

End Effects.

(** Whatever the call, the configuration and the host, and whether the
    gate returns or throws, the gate stores no approval: it leaves the
    approved actions as they were or deletes the one under the call's
    fingerprint.  It leaves the pending escalations as they were or sets the
    entry under the nonce drawn to an escalation of this call, in the place
    of one already stored under that nonce if there is one; the entry under
    every other nonce stays as it was. *)
Theorem gate_never_approves :
  forall (config : GuardianAngelConfig) (logger : PluginLogger)
         (toolName : string) (params : Json.object) (w : Host.World),
    let r := before_tool_call config logger toolName params w in
    let fingerprint := CreateStore.hashParams toolName params in
    let nonce := (Host.randomBytes4_hex w).1 in
    (approved (CreateStore.load r.2).1 = approved (CreateStore.load w).1
     \/ approved (CreateStore.load r.2).1
        = delete fingerprint (approved (CreateStore.load w).1))
    /\ (forall key a,
           approved (CreateStore.load r.2).1 !! key = Some a ->
           approved (CreateStore.load w).1 !! key = Some a)
    /\ (pending (CreateStore.load r.2).1 = pending (CreateStore.load w).1
        \/ exists p,
             pending (CreateStore.load r.2).1
             = <[nonce := p]> (pending (CreateStore.load w).1)
             /\ PendingEscalation.paramsHash p = fingerprint
             /\ PendingEscalation.toolName p = toolName
             /\ PendingEscalation.params p = params)
    /\ (forall other,
           other <> nonce ->
           pending (CreateStore.load r.2).1 !! other
           = pending (CreateStore.load w).1 !! other).
Proof.
  intros config logger toolName params w r fingerprint nonce.
  assert (Hmain :
    (approved (CreateStore.load r.2).1 = approved (CreateStore.load w).1
     \/ approved (CreateStore.load r.2).1
        = delete fingerprint (approved (CreateStore.load w).1))
    /\ (pending (CreateStore.load r.2).1 = pending (CreateStore.load w).1
        \/ exists p,
             pending (CreateStore.load r.2).1
             = <[nonce := p]> (pending (CreateStore.load w).1)
             /\ PendingEscalation.paramsHash p = fingerprint
             /\ PendingEscalation.toolName p = toolName
             /\ PendingEscalation.params p = params)).
  { subst r.
    destruct (enabled config) as [[|]|] eqn:Hen.
    2: { rewrite gate_step_1 by exact Hen. auto. }
    all: assert (Hon : enabled config <> Some false) by (rewrite Hen; discriminate).
    all: destruct (Js.array_includes (Hook.list_or_empty (neverBlock config)) toolName)
           eqn:Hnever;
      [rewrite gate_step_2 by assumption; unfold Host.log_debug;
       destruct (has_debug logger); auto |].
    all: rewrite gate_steps_3_to_5 by assumption; cbv zeta; fold fingerprint.
    all: pose proof (consume_effect fingerprint w) as Hc; cbv zeta in Hc.
    all: destruct Hc as (Hcp & Hca & Hcw & Hcr & Hcd).
    all: set (c := CreateStore.consumeApproval fingerprint w) in *.
    all: assert (Hnonce : (Host.randomBytes4_hex c.2).1 = nonce)
           by (subst nonce; unfold Host.randomBytes4_hex; cbn [fst]; rewrite Hcr, Hcd;
               reflexivity).
    all: destruct c.1; [split; [exact Hca | left; exact Hcp] |].
    all: destruct (Js.array_includes (Hook.list_or_empty (alwaysBlock config)) toolName).
    all: try (pose proof (escalate_effect config logger toolName params fingerprint
                            ("Tool '" ++ toolName
                             ++ "' requires explicit approval per configuration") c.2)
                as He; cbv zeta in He; cbn [snd]; destruct He as [Hea Hep];
              rewrite Hea, Hnonce in *; split; [exact Hca |];
              destruct Hep as [-> | (p & -> & Hp)];
              [left; exact Hcp
              | right; exists p; rewrite Hcp; split; [reflexivity | exact Hp]]).
    all: pose proof (evaluate_effect config logger toolName params
                       {| agentId := None; sessionKey := None; ctx_toolName := toolName |}
                       c.2) as Hv; cbv zeta in Hv.
    all: destruct Hv as (Hvf & Hvw & Hvr & Hvd).
    all: set (v := Evaluate.evaluate toolName params _ config logger c.2) in *.
    all: assert (Hvload : (CreateStore.load v.2).1 = (CreateStore.load c.2).1)
           by (apply load_only_reads_file; exact Hvf).
    all: destruct v.1 as [result|];
      [destruct (decision result) |]; cbn [snd].
    all: rewrite ?load_log_debug, ?load_log, ?Hvload.
    all: try (split; [exact Hca | left; exact Hcp]).
    all: pose proof (escalate_effect config logger toolName params fingerprint
                       (Hook.string_or (reason result)
                          "High-stakes action requires approval")
                       v.2) as He; cbv zeta in He; destruct He as [Hea Hep].
    all: assert (Hvn : (Host.randomBytes4_hex v.2).1 = nonce)
           by (rewrite <- Hnonce; unfold Host.randomBytes4_hex; cbn [fst];
               rewrite Hvr, Hvd; reflexivity).
    all: rewrite Hea, Hvload; split; [exact Hca |].
    all: rewrite Hvn, Hvload in Hep.
    all: destruct Hep as [-> | (p & -> & Hp)];
      [left; exact Hcp
      | right; exists p; rewrite Hcp; split; [reflexivity | exact Hp]]. }
  destruct Hmain as [Ha Hp].
  split; [exact Ha |]. split; [| split; [exact Hp |]].
  - intros key a. destruct Ha as [-> | ->]; [auto |].
    intros H. apply lookup_delete_Some in H. apply H.
  - intros other Hother. destruct Hp as [-> | (p & -> & _)]; [reflexivity |].
    apply lookup_insert_ne. congruence.
Qed.

(** An escalation under a nonce that is pending already takes the place of
    the escalation stored there. *)
Example gate_replaces_an_escalation_under_the_same_nonce :
  let r := before_tool_call no_config Sample.logger "exec" Cases.shutdown_plain
             Sample.live_escalation in
  PendingEscalation.toolName
  <$> (pending (CreateStore.load Sample.live_escalation).1 !! "a7f3c21b")
  = Some "gateway"
  /\ PendingEscalation.toolName <$> (pending (CreateStore.load r.2).1 !! "a7f3c21b")
     = Some "exec".
Proof. cbv zeta. split; vm_compute; reflexivity. Qed.

(** The approval tool answers with one of three texts.  A failure is
    NotFound or Expired, is logged as a warning and stores no approval; a
    success is logged as information.  Either way the pending escalations are
    as before or without the nonce: the tool adds none. *)
Theorem approval_tool_reply :
  forall (config : GuardianAngelConfig) (logger : PluginLogger) (nonce : string)
         (why : option string) (w : Host.World),
    let r := ApproveTool.execute (CreateStore.methods config) logger nonce why w in
    let st := (CreateStore.load w).1 in
    let st' := (CreateStore.load r.2).1 in
    ((exists error,
         (error = CreateStore.NotFound \/ error = CreateStore.Expired)
         /\ ApproveTool.content r.1 = [("text", "❌ Approval failed: " ++ error)]
         /\ approved st' = approved st
         /\ Host.logged r.2
            = (Host.warn, "[GA] Approval failed for nonce " ++ nonce ++ ": " ++ error)
              :: Host.logged w)
     \/ (ApproveTool.content r.1
         = [("text", "✓ Approved. You may now retry the action. Approval expires in "
                     ++ Js.string_of_Z
                          (Js.round_div (CreateStore.approvalWindow config) 1000)
                     ++ "s.")]
         /\ exists line, Host.logged r.2 = (Host.info, line) :: Host.logged w))
    /\ (pending st' = pending st \/ pending st' = delete nonce (pending st)).
Proof.
  intros config logger nonce why w r st st'. subst r st st'.
  unfold ApproveTool.execute, Host.bind. cbn [Store.approvePending CreateStore.methods].
  destruct (CreateStore.get (pending (CreateStore.load w).1) nonce) eqn:Hget.
  3: { rewrite approvePending_undefined by exact Hget. cbn [fst snd].
       split; [| left; reflexivity].
       left. exists CreateStore.NotFound. split; [left; reflexivity |].
       split; [reflexivity |]. split; reflexivity. }
  all: rewrite approvePending_found by (rewrite Hget; discriminate).
  all: cbv zeta; rewrite Hget.
  all: destruct (CreateStore.gt _ _); cbv beta zeta; unfold CreateStore.save; host.
  all: destruct (Host.writable w) eqn:Hw; unfold CreateStore.load; host;
    cbn [pending approved].
  all: split; [| auto].
  all: try (left; exists CreateStore.Expired; split; [right; reflexivity |];
            split; [reflexivity |]; split; reflexivity).
  all: right; split; [reflexivity |]; eexists; reflexivity.
Qed.

(** ** The reason shown for an escalation *)

(** The reason given for the escalation of an [exec] command that is not an
    image generation quotes the first 80 characters of the text of the
    command, with three dots after them when the text is longer; so two
    commands longer than 80 characters that agree in their first 80 are
    escalated, for equal scores, with the same reason. *)
Theorem escalation_reason_quotes_80_characters :
  forall (params : Json.object) (cmd : string) (clarity stakes score : Z),
    Json.String_or_empty (Json.get params "command") = Returns cmd ->
    Evaluate.isImageGenerationCommand cmd = false ->
    Evaluate.buildEscalationReason "exec" params clarity stakes score
    = Returns
        ("Action: exec | "
         ++ ("Risk score: " ++ Js.string_of_Z score
             ++ " (clarity=" ++ Js.string_of_Z clarity
             ++ ", stakes=" ++ Js.string_of_Z stakes ++ ")")
         ++ " | Command: "
         ++ Js.slice0 80 cmd ++ (if (80 <? String.length cmd)%nat then "..." else ""))
    /\ (forall (params' : Json.object) (cmd' : string),
           Json.String_or_empty (Json.get params' "command") = Returns cmd' ->
           Evaluate.isImageGenerationCommand cmd' = false ->
           Js.slice0 80 cmd' = Js.slice0 80 cmd ->
           (80 < String.length cmd)%nat -> (80 < String.length cmd')%nat ->
           Evaluate.buildEscalationReason "exec" params' clarity stakes score
           = Evaluate.buildEscalationReason "exec" params clarity stakes score).
Proof.
  intros params cmd clarity stakes score Hcmd Hplain.
  assert (Hreason : forall (p : Json.object) (text : string),
             Json.String_or_empty (Json.get p "command") = Returns text ->
             Evaluate.isImageGenerationCommand text = false ->
             Evaluate.buildEscalationReason "exec" p clarity stakes score
             = Returns
                 ("Action: exec | "
                  ++ ("Risk score: " ++ Js.string_of_Z score
                      ++ " (clarity=" ++ Js.string_of_Z clarity
                      ++ ", stakes=" ++ Js.string_of_Z stakes ++ ")")
                  ++ " | Command: "
                  ++ Js.slice0 80 text
                  ++ (if (80 <? String.length text)%nat then "..." else ""))).
  { intros p text Htext Hp. unfold Evaluate.buildEscalationReason, Evaluate.reason_exec.
    change (String.eqb "exec" "exec") with true. cbv iota.
    change (Evaluate.reason_gateway "exec" p) with (Returns (@nil string)).
    change (Evaluate.reason_message "exec" p) with (Returns (@nil string)).
    rewrite Htext. cbn [and_then]. rewrite Hp.
    cbn [List.concat List.app Js.join]. reflexivity. }
  split; [apply Hreason; assumption |].
  intros params' cmd' Hcmd' Hplain' Hsame Hlong Hlong'.
  rewrite (Hreason params' cmd' Hcmd' Hplain'), (Hreason params cmd Hcmd Hplain).
  rewrite Hsame.
  replace (80 <? String.length cmd')%nat with true
    by (symmetry; apply Nat.ltb_lt; exact Hlong').
  replace (80 <? String.length cmd)%nat with true
    by (symmetry; apply Nat.ltb_lt; exact Hlong).
  reflexivity.
Qed.

(** A harmless command and one that fetches a file, with the same first 80
    characters. *)
Lemma escalation_reason_quotes_80_characters_witness :
  Evaluate.buildEscalationReason "exec" Cases.long_fetch 4 4 16
  = Evaluate.buildEscalationReason "exec" Cases.long_harmless 4 4 16.
Proof.
  assert (H1 : Evaluate.isImageGenerationCommand (Cases.long_prefix ++ " && echo done")
               = false)
    by (vm_compute; reflexivity).
  assert (H2 : Evaluate.isImageGenerationCommand
                 (Cases.long_prefix ++ " && curl -s http://example.invalid/x -o /tmp/x")
               = false)
    by (vm_compute; reflexivity).
  assert (H3 : (80 < String.length (Cases.long_prefix ++ " && echo done"))%nat)
    by (vm_compute; lia).
  assert (H4 : (80 < String.length
                       (Cases.long_prefix
                        ++ " && curl -s http://example.invalid/x -o /tmp/x"))%nat)
    by (vm_compute; lia).
  apply (proj2 (escalation_reason_quotes_80_characters Cases.long_harmless _ 4 4 16
                  eq_refl H1)
           Cases.long_fetch _ eq_refl H2); [vm_compute; reflexivity | exact H3 | exact H4].
Defined.

(** ** Registration *)

Section Registration.

Import Host CreateStore.

Lemma cleanup_effect w :
  logged (cleanup w).2 = logged w /\ draws (cleanup w).2 = draws w
  /\ ticks (cleanup w).2 = S (ticks w) /\ clock (cleanup w).2 = clock w.
Proof.
  unfold cleanup, bind. cbv zeta. rewrite load_world.
  destruct (_ || _); [unfold save; host; destruct (writable w) |]; auto.
Qed.

End Registration.

(** [register].  With [enabled: false] nothing is registered and the store
    is not touched.  Otherwise the store is swept once, the gate is
    registered for [before_tool_call] at priority -10000, the tool
    [ga_approve] is registered, and the diagnostics are registered for
    [gateway_start] at priority 0; the diagnostics write four lines of
    information to the log and touch nothing else. *)
Theorem register_installs_the_gate :
  forall (pluginConfig : option GuardianAngelConfig) (logger : PluginLogger)
         (w : Host.World),
    let config := match pluginConfig with Some c => c | None => no_config end in
    let r := Index.register pluginConfig logger w in
    (enabled config = Some false ->
     r.1 = []
     /\ Host.file r.2 = Host.file w /\ Host.ticks r.2 = Host.ticks w
     /\ Host.console r.2 = Host.console w
     /\ Host.logged r.2
        = (Host.info, "[GA] Guardian Angel is disabled via configuration")
          :: Host.logged w)
    /\ (enabled config <> Some false ->
        r.1 = [Index.on_before_tool_call
                 (Hook.createBeforeToolCallHandler config (CreateStore.methods config)
                    logger)
                 (-10000);
               Index.registerTool
                 {| tool_name := "ga_approve";
                    tool_parameters :=
                      [("nonce", "string", true); ("reason", "string", false)];
                    tool_execute :=
                      ApproveTool.execute (CreateStore.methods config) logger |};
               Index.on_gateway_start (Diagnostics.runStartupDiagnostics logger) 0]
        /\ (CreateStore.load r.2).1 = (CreateStore.load (CreateStore.cleanup w).2).1
        /\ Host.ticks r.2 = S (Host.ticks w)
        /\ Host.logged r.2
           = (Host.info, "[GA] Guardian Angel v1.0.0 active (hook priority: -10000)")
             :: Host.logged w)
    /\ (forall w' : Host.World,
           let d := Diagnostics.runStartupDiagnostics logger w' in
           Host.file d.2 = Host.file w' /\ Host.ticks d.2 = Host.ticks w'
           /\ Host.draws d.2 = Host.draws w' /\ Host.console d.2 = Host.console w'
           /\ exists lines,
                Host.logged d.2 = List.app lines (Host.logged w')
                /\ length lines = 4%nat
                /\ Forall (fun l => l.1 = Host.info) lines).
Proof.
  intros pluginConfig logger w config r. subst r.
  unfold Index.register. fold config.
  split; [| split].
  - intros Hoff. rewrite Hoff. repeat split; reflexivity.
  - intros Hon.
    assert (Hsame : forall (A : Type) (x y : A),
               match enabled config with Some false => x | _ => y end = y).
    { intros A x y. destruct (enabled config) as [[|]|]; try reflexivity.
      exfalso. apply Hon. reflexivity. }
    rewrite Hsame. unfold Host.bind, CreateStore.createStore, Host.bind. cbv zeta.
    destruct (cleanup_effect w) as (Hlog & _ & Hticks & _).
    host. rewrite Hlog, Hticks. repeat split; reflexivity.
  - intros w'. unfold Diagnostics.runStartupDiagnostics, Host.bind. host.
    repeat split; try reflexivity.
    eexists [_; _; _; _]. split; [reflexivity |]. split; [reflexivity |].
    repeat constructor.
Qed.

(** Registration on a host whose store holds expired records only. *)
Lemma register_installs_the_gate_witness :
  (Index.register (Some Sample.disabled) Sample.logger Sample.stale_records).1 = []
  /\ length (Index.register None Sample.logger Sample.stale_records).1 = 3%nat
  /\ (CreateStore.load (Index.register None Sample.logger Sample.stale_records).2).1
     = {| pending := ∅; approved := ∅ |}.
Proof.
  pose proof (register_installs_the_gate (Some Sample.disabled) Sample.logger
                Sample.stale_records) as (A & _ & _).
  pose proof (register_installs_the_gate None Sample.logger Sample.stale_records)
    as (_ & B & _).
  assert (Hon : enabled no_config <> Some false) by discriminate.
  destruct (A eq_refl) as (A1 & _).
  destruct (B Hon) as (B1 & B2 & _).
  split; [exact A1 |]. split; [rewrite B1; reflexivity |].
  rewrite B2. vm_compute. reflexivity.
Defined.
